(** * wasp-os widget library: lazy redraw, status-bar fan-out, touch dispatch

    A shallow embedding of [wasp/widgets.py].  Every method of a widget
    class is a computation in a small monad that reads the watch
    environment (rtc, battery, connection, theme), threads the instance
    ([self]), may raise a Python exception, and logs each call made on the
    drawing surface and on the sensors, in program order. *)

From Stdlib Require Import ZArith QArith Qround Bool List String Ascii Lia.
From Stdlib Require Import DecimalString SpecFloat Qabs.
Import ListNotations.
Open Scope Z_scope.

(** ** The watch: external collaborators *)

(** [rtc.get_localtime()] answers [(yyyy, mm, dd, HH, MM, SS, wday, yday)];
    the widgets index it as [now[3]] (hour) and [now[4]] (minute). *)
Record TimeTuple := mkTime {
  yyyy : Z; mm : Z; dd : Z; HH : Z; MM : Z; SS : Z; wday : Z; yday : Z }.

Definition TimeTuple_eqb (a b : TimeTuple) : bool :=
  (yyyy a =? yyyy b) && (mm a =? mm b) && (dd a =? dd b) && (HH a =? HH b)
  && (MM a =? MM b) && (SS a =? SS b) && (wday a =? wday b)
  && (yday a =? yday b).

Inductive Font := sans24 | sans28.

(** Bitmaps are opaque blit sources; [AppIcon] stands for any icon an
    application hands to a widget. *)
Inductive Icon :=
| icons_battery | icons_bluetooth | icons_alert | icons_up_arrow
| icons_down_arrow | icons_checkbox | icons_knob | light_off_50
| AppIcon (id : nat).

(** Calls on [watch.drawable]. *)
Inductive DrawCall :=
| fill (bg x y w h : Z)
| fill_screen
| blit (image : Icon) (x y : Z) (fg c1 c2 : option Z)
| set_color (fg : Z) (bg : option Z)
| set_font (f : Font)
| draw_string (s : string) (x y : Z) (width : option Z)
| lighten_call (color step : Z)
| darken_call (color : Z)
| wrap_call (s : string) (width : Z).

(** Everything a method does to the outside world. *)
Inductive Call :=
| Drawable (c : DrawCall)
| Rtc_get_localtime
| Battery_charging
| Battery_level
| Watch_connected
| Display_mute (b : bool).

Definition drawing_call (c : Call) : option DrawCall :=
  match c with Drawable d => Some d | _ => None end.

Fixpoint drawing_calls (l : list Call) : list DrawCall :=
  match l with
  | [] => []
  | c :: l' =>
      match drawing_call c with
      | Some d => d :: drawing_calls l'
      | None => drawing_calls l'
      end
  end.

(** What the sensors, the theme and the pure drawing helpers answer during
    one method call.  [icon_width] is [icon[1]] of a bitmap. *)
Record Env := mkEnv {
  localtime : TimeTuple;
  charging : bool;
  battery_level : Z;
  connected : bool;
  notifications : bool;
  theme : string -> Z;
  lighten : Z -> Z -> Z;
  darken : Z -> Z;
  wrap : string -> Z -> list nat;
  icon_width : Icon -> Z }.

(** ** The method monad *)

Inductive Exn :=
| AttributeError
| ZeroDivisionError
| OverflowError
| ValueError.

Inductive Result (A : Type) :=
| Ok (a : A)
| Raise (e : Exn).
Arguments Ok {A} a.
Arguments Raise {A} e.

(** A method on an instance of type [S] answering an [A]. *)
Definition Eff (S A : Type) : Type := Env -> S -> Result A * S * list Call.

Definition ret {S A} (a : A) : Eff S A := fun _ s => (Ok a, s, []).

Definition bind {S A B} (m : Eff S A) (k : A -> Eff S B) : Eff S B :=
  fun env s =>
    match m env s with
    | (Ok a, s1, l1) =>
        match k a env s1 with
        | (r, s2, l2) => (r, s2, l1 ++ l2)
        end
    | (Raise e, s1, l1) => (Raise e, s1, l1)
    end.

Declare Scope eff_scope.
Delimit Scope eff_scope with eff.
Notation "x <- m ;; k" := (bind m (fun x => k))
  (at level 61, m at next level, right associativity) : eff_scope.
Notation "m ;; k" := (bind m (fun _ => k))
  (at level 61, right associativity) : eff_scope.
Notation "' pat <- m ;; k" := (bind m (fun x => match x with pat => k end))
  (at level 61, pat pattern, m at next level, right associativity) : eff_scope.
Open Scope eff_scope.

Definition raise {S A} (e : Exn) : Eff S A := fun _ s => (Raise e, s, []).

(** A pure computation that may raise, and its use inside a method. *)
Definition and_then {A B} (r : Result A) (k : A -> Result B) : Result B :=
  match r with
  | Ok a => k a
  | Raise e => Raise e
  end.

Definition lift {S A} (r : Result A) : Eff S A := fun _ s => (r, s, []).
Definition get_self {S} : Eff S S := fun _ s => (Ok s, s, []).
Definition put_self {S} (s : S) : Eff S unit := fun _ _ => (Ok tt, s, []).
Definition ask {S A} (f : Env -> A) : Eff S A := fun env s => (Ok (f env), s, []).
Definition call {S} (c : Call) : Eff S unit := fun _ s => (Ok tt, s, [c]).
Definition drawable {S} (c : DrawCall) : Eff S unit := call (Drawable c).
Definition pass {S} : Eff S unit := ret tt.

(** A composite calls a method of a child it owns. *)
Definition on_child {S T A} (get : S -> T) (set : T -> S -> S)
  (m : Eff T A) : Eff S A :=
  fun env s =>
    match m env (get s) with
    | (r, t, l) => (r, set t s, l)
    end.

(** Sensor reads. *)
Definition rtc_get_localtime {S} : Eff S TimeTuple :=
  call Rtc_get_localtime ;; ask localtime.
Definition battery_charging {S} : Eff S bool :=
  call Battery_charging ;; ask charging.
Definition battery_level_read {S} : Eff S Z :=
  call Battery_level ;; ask battery_level.
Definition watch_connected {S} : Eff S bool :=
  call Watch_connected ;; ask connected.
Definition system_theme {S} (role : string) : Eff S Z :=
  ask (fun env => theme env role).
Definition draw_lighten {S} (c a : Z) : Eff S Z :=
  drawable (lighten_call c a) ;; ask (fun env => lighten env c a).
Definition draw_darken {S} (c : Z) : Eff S Z :=
  drawable (darken_call c) ;; ask (fun env => darken env c).
Definition draw_wrap {S} (s : string) (w : Z) : Eff S (list nat) :=
  drawable (wrap_call s w) ;; ask (fun env => wrap env s w).

(** Projections of a finished call. *)
Definition result_of {A S} (r : Result A * S * list Call) : Result A :=
  fst (fst r).
Definition self_of {A S} (r : Result A * S * list Call) : S := snd (fst r).
Definition calls_of {A S} (r : Result A * S * list Call) : list Call := snd r.
Definition draws_of {A S} (r : Result A * S * list Call) : list DrawCall :=
  drawing_calls (calls_of r).

(** ** BatteryMeter *)

Module BatteryMeter.

Record t := mk { level : Z }.

Definition __init__ : t := {| level := -2 |}.

Definition update : Eff t unit :=
  icon_w <- ask (fun env => icon_width env icons_battery) ;;
  is_charging <- battery_charging ;;
  self <- get_self ;;
  if is_charging then
    if negb (level self =? -1) then
      fg <- system_theme "battery" ;;
      drawable (blit icons_battery (239 - icon_w - 5) 5 (Some fg) None None) ;;
      put_self {| level := -1 |}
    else pass
  else
    lvl <- battery_level_read ;;
    if lvl =? level self then pass
    else
      let green := lvl / 3 in
      let green := if green >? 31 then 31 else green in
      let red := 31 - green in
      let rgb := Z.shiftl red 11 + Z.shiftl green 6 in
      rgb <- (if (level self <? 0) || xorb (lvl >? 5) (level self >? 5) then
                if lvl >? 5 then
                  fg <- system_theme "battery" ;;
                  drawable (blit icons_battery (239 - icon_w - 5) 5
                          (Some fg) None None) ;;
                  ret rgb
                else
                  drawable (blit icons_battery (239 - icon_w - 5) 5
                          (Some 0xf800) None None) ;;
                  ret 0xf800
              else ret rgb) ;;
      let w := icon_w - 4 in
      let x := 239 - 7 - w in
      let h := lvl * 22 / 100 in
      (if negb (18 - h =? 0) then drawable (fill 0 x 9 w (22 - h)) else pass) ;;
      (if negb (h =? 0) then drawable (fill rgb x (9 + 22 - h) w h) else pass) ;;
      put_self {| level := lvl |}.

Definition draw : Eff t unit :=
  put_self {| level := -2 |} ;;
  update.

End BatteryMeter.

(** ** Clock *)

(** ['{:02}'.format(n)]: decimal, zero-padded to two characters. *)
Definition str (n : Z) : string := NilZero.string_of_int (Z.to_int n).

Definition format_02 (n : Z) : string :=
  if (0 <=? n) && (n <? 10) then String "0" (str n) else str n.

Module Clock.

Record t := mk { on_screen : option TimeTuple; enabled : bool }.

Definition __init__ (enabled : bool) : t :=
  {| on_screen := None; enabled := enabled |}.

(** [on_screen and on_screen == now]: an 8-tuple is truthy, [None] is not. *)
Definition same_as_on_screen (on_screen : option TimeTuple) (now : TimeTuple)
  : bool :=
  match on_screen with
  | Some t => TimeTuple_eqb t now
  | None => false
  end.

(** [not on_screen or now[4] != on_screen[4] or now[3] != on_screen[3]] *)
Definition needs_render (on_screen : option TimeTuple) (now : TimeTuple)
  : bool :=
  match on_screen with
  | None => true
  | Some t => negb (MM now =? MM t) || negb (HH now =? HH t)
  end.

Definition update : Eff t (option TimeTuple) :=
  now <- rtc_get_localtime ;;
  self <- get_self ;;
  if same_as_on_screen (on_screen self) now then ret None
  else
    (if enabled self && needs_render (on_screen self) now then
       let t1 := (format_02 (HH now) ++ ":" ++ format_02 (MM now))%string in
       drawable (set_font sans28) ;;
       fg <- system_theme "status-clock" ;;
       drawable (set_color fg None) ;;
       drawable (draw_string t1 52 4 (Some 138))
     else pass) ;;
    put_self {| on_screen := Some now; enabled := enabled self |} ;;
    ret (Some now).

Definition draw : Eff t unit :=
  self <- get_self ;;
  put_self {| on_screen := None; enabled := enabled self |} ;;
  update ;;
  pass.

End Clock.

(** ** NotificationBar *)

Module NotificationBar.

Record t := mk { _pos : Z * Z }.

Definition __init__ (x y : Z) : t := {| _pos := (x, y) |}.

Definition update : Eff t unit :=
  self <- get_self ;;
  let '(x, y) := _pos self in
  is_connected <- watch_connected ;;
  pending <- ask notifications ;;
  if is_connected then
    fg <- system_theme "ble" ;;
    drawable (blit icons_bluetooth (x + 5) (y + 5) (Some fg) None None) ;;
    if pending then
      fg <- system_theme "notify-icon" ;;
      drawable (blit icons_alert (x + 22 + 5) (y + 5) (Some fg) None None)
    else
      drawable (fill 0 (x + 22 + 5) (y + 5) 30 32)
  else if pending then
    fg <- system_theme "notify-icon" ;;
    drawable (blit icons_alert x y (Some fg) None None) ;;
    drawable (fill 0 (x + 30) y 22 32)
  else
    drawable (fill 0 x y 52 32).

Definition draw : Eff t unit := update.

End NotificationBar.

(** ** StatusBar *)

Module StatusBar.

Record t := mk {
  _clock : Clock.t;
  _meter : BatteryMeter.t;
  _notif : NotificationBar.t }.

Definition __init__ : t :=
  {| _clock := Clock.__init__ true;
     _meter := BatteryMeter.__init__;
     _notif := NotificationBar.__init__ 0 0 |}.

Definition set_clock (c : Clock.t) (s : t) : t :=
  {| _clock := c; _meter := _meter s; _notif := _notif s |}.
Definition set_meter (m : BatteryMeter.t) (s : t) : t :=
  {| _clock := _clock s; _meter := m; _notif := _notif s |}.
Definition set_notif (n : NotificationBar.t) (s : t) : t :=
  {| _clock := _clock s; _meter := _meter s; _notif := n |}.

Definition clock_update : Eff t (option TimeTuple) :=
  on_child _clock set_clock Clock.update.
Definition meter_update : Eff t unit :=
  on_child _meter set_meter BatteryMeter.update.
Definition notif_update : Eff t unit :=
  on_child _notif set_notif NotificationBar.update.

(** The [clock] property and its setter. *)
Definition clock (s : t) : bool := Clock.enabled (_clock s).
Definition clock_setter (enabled : bool) : Eff t unit :=
  self <- get_self ;;
  put_self (set_clock {| Clock.on_screen := Clock.on_screen (_clock self);
                         Clock.enabled := enabled |} self).

Definition draw : Eff t unit :=
  on_child _clock set_clock Clock.draw ;;
  on_child _meter set_meter BatteryMeter.draw ;;
  on_child _notif set_notif NotificationBar.draw.

(** [if now:] holds for every time tuple and fails for [None]. *)
Definition update : Eff t (option TimeTuple) :=
  now <- clock_update ;;
  match now with
  | Some _ =>
      meter_update ;;
      notif_update ;;
      ret now
  | None => ret now
  end.

End StatusBar.

(** ** Input events *)

(** An event is the tuple [(kind, x, y)]; handlers read [event[1]] and
    [event[2]]. *)
Record Event := mkEvent { event_0 : Z; event_1 : Z; event_2 : Z }.

(** ** ScrollIndicator *)

Module ScrollIndicator.

Record t := mk { _pos : Z * Z; up : bool; down : bool }.

Definition __init__ (x y : Z) : t :=
  {| _pos := (x, y); up := true; down := true |}.

Definition update : Eff t unit :=
  self <- get_self ;;
  color <- system_theme "scroll-indicator" ;;
  (if up self then
     drawable (blit icons_up_arrow (fst (_pos self)) (snd (_pos self))
                 (Some color) None None)
   else pass) ;;
  (if down self then
     drawable (blit icons_down_arrow (fst (_pos self)) (snd (_pos self) + 13)
                 (Some color) None None)
   else pass).

Definition draw : Eff t unit := update.

End ScrollIndicator.

(** ** Button *)

Module Button.

Record t := mk { _im : Z * Z * Z * Z * string }.

Definition __init__ (x y w h : Z) (label : string) : t :=
  {| _im := (x, y, w, h, label) |}.

Definition draw : Eff t unit :=
  self <- get_self ;;
  let '(im0, im1, im2, im3, im4) := _im self in
  ui <- system_theme "ui" ;;
  bg <- draw_darken ui ;;
  frame <- system_theme "mid" ;;
  txt <- system_theme "bright" ;;
  drawable (fill bg im0 im1 im2 im3) ;;
  drawable (set_color txt (Some bg)) ;;
  drawable (set_font sans24) ;;
  drawable (draw_string im4 im0 (im1 + im3 / 2 - 12) (Some im2)) ;;
  drawable (fill frame im0 im1 im2 2) ;;
  drawable (fill frame im0 (im1 + im3 - 2) im2 2) ;;
  drawable (fill frame im0 im1 2 im3) ;;
  drawable (fill frame (im0 + im2 - 2) im1 2 im3).

(** The slightly oversized hit box, as [(x1, x2, y1, y2)]. *)
Definition hit_box (self : t) : Z * Z * Z * Z :=
  let '(im0, im1, im2, im3, _) := _im self in
  let x1 := im0 - 10 in
  let x2 := x1 + im2 + 20 in
  let y1 := im1 - 10 in
  let y2 := y1 + im3 + 20 in
  (x1, x2, y1, y2).

Definition hit (self : t) (event : Event) : bool :=
  let x := event_1 event in
  let y := event_2 event in
  let '(x1, x2, y1, y2) := hit_box self in
  (x >=? x1) && (x <? x2) && (y >=? y1) && (y <? y2).

Definition touch (event : Event) : Eff t bool :=
  self <- get_self ;;
  if hit self event then ret true else ret false.

End Button.

(** ** Checkbox *)

(** Truthiness of an optional label: [None] and [''] are false. *)
Definition truthy (label : option string) : bool :=
  match label with
  | Some (String _ _) => true
  | _ => false
  end.

Module Checkbox.

Record t := mk { _im : Z * Z * option string; state : bool }.

Definition __init__ (x y : Z) (label : option string) : t :=
  {| _im := (x, y, label); state := false |}.

Definition label (self : t) : option string := snd (_im self).

Definition update : Eff t unit :=
  self <- get_self ;;
  let '(im0, im1, im2) := _im self in
  '(fg, c1, c2) <- (if state self then
                      c1 <- system_theme "ui" ;;
                      contrast <- system_theme "contrast" ;;
                      c2 <- draw_lighten c1 contrast ;;
                      ret (c2, c1, c2)
                    else
                      fg <- system_theme "mid" ;;
                      ret (fg, 0, 0)) ;;
  let x := if truthy im2 then 239 - 32 - 4 else im0 in
  drawable (blit icons_checkbox x im1 (Some fg) (Some c1) (Some c2)).

Definition draw : Eff t unit :=
  self <- get_self ;;
  let '(im0, im1, im2) := _im self in
  (if truthy im2 then
     bright <- system_theme "bright" ;;
     drawable (set_color bright None) ;;
     drawable (set_font sans24) ;;
     drawable (draw_string (match im2 with Some s => s | None => "" end)
                 im0 (im1 + 6) None)
   else pass) ;;
  update.

Definition touch (event : Event) : Eff t bool :=
  let y := event_2 event in
  self <- get_self ;;
  let '(_, im1, _) := _im self in
  if (y >=? im1) && (y <? im1 + 40) then
    put_self {| _im := _im self; state := negb (state self) |} ;;
    update ;;
    ret true
  else ret false.

End Checkbox.

(** ** Slider *)

Definition _SLIDER_KNOB_DIAMETER : Z := 40.
Definition _SLIDER_KNOB_RADIUS : Z := _SLIDER_KNOB_DIAMETER / 2.
Definition _SLIDER_WIDTH : Z := 220.
Definition _SLIDER_TRACK : Z := _SLIDER_WIDTH - _SLIDER_KNOB_DIAMETER.
Definition _SLIDER_TRACK_HEIGHT : Z := 8.
Definition _SLIDER_TRACK_Y1 : Z :=
  _SLIDER_KNOB_RADIUS - (_SLIDER_TRACK_HEIGHT / 2).
Definition _SLIDER_TRACK_Y2 : Z := _SLIDER_TRACK_Y1 + _SLIDER_TRACK_HEIGHT.

(** A float is an IEEE 754 binary64 number, as in CPython: 53 bits of
    mantissa, every operation rounded to nearest, ties to even. *)
Definition float_prec : Z := 53.
Definition float_emax : Z := 1024.
Definition float : Type := spec_float.

Definition float_sub (a b : float) : float :=
  SFsub float_prec float_emax a b.

Definition is_float_zero (a : float) : bool :=
  match a with
  | S754_zero _ => true
  | _ => false
  end.

(** An int meeting a float in an operation is converted first; an int too
    large for a float raises. *)
Definition float_of_int (z : Z) : Result float :=
  match binary_normalize float_prec float_emax z 0 false with
  | S754_infinity _ => Raise OverflowError
  | f => Ok f
  end.

(** [a / b] on two ints is the exact quotient, rounded once. *)
Definition int_true_div (a b : Z) : Result float :=
  if b =? 0 then Raise ZeroDivisionError
  else
    let sign := xorb (a <? 0) (b <? 0) in
    if a =? 0 then Ok (S754_zero sign)
    else
      let '(q, e, l) :=
        SFdiv_core_binary float_prec float_emax (Z.abs a) 0 (Z.abs b) 0 in
      match binary_round_aux float_prec float_emax sign q e l with
      | S754_infinity _ => Raise OverflowError
      | f => Ok f
      end.

(** [a / b] on two floats raises on a zero divisor. *)
Definition float_div (a b : float) : Result float :=
  if is_float_zero b then Raise ZeroDivisionError
  else Ok (SFdiv float_prec float_emax a b).

(** [int(a)] truncates toward zero. *)
Definition int (a : float) : Result Z :=
  match a with
  | S754_zero _ => Ok 0
  | S754_finite s m e =>
      let n := match e with
               | Zneg _ => Z.shiftr (Z.pos m) (- e)
               | _ => Z.shiftl (Z.pos m) e
               end in
      Ok (if s then - n else n)
  | S754_infinity _ => Raise OverflowError
  | S754_nan => Raise ValueError
  end.

Module Slider.

Record t := mk {
  value : Z;
  _steps : Z;
  _stepsize : float;
  _x : Z;
  _y : Z;
  _color : option Z;
  _lowlight : option Z }.

(** [_SLIDER_TRACK / (steps-1)] is a true division of two ints: it
    raises on zero and answers a float. *)
Definition __init__ (steps x y : Z) (color : option Z) : Result t :=
  and_then (int_true_div _SLIDER_TRACK (steps - 1)) (fun stepsize =>
  Ok {| value := 0;
        _steps := steps;
        _stepsize := stepsize;
        _x := x;
        _y := y;
        _color := color;
        _lowlight := None |}).

Definition set_color_ (c : option Z) (s : t) : t :=
  {| value := value s; _steps := _steps s; _stepsize := _stepsize s;
     _x := _x s; _y := _y s; _color := c; _lowlight := _lowlight s |}.
Definition set_lowlight (c : option Z) (s : t) : t :=
  {| value := value s; _steps := _steps s; _stepsize := _stepsize s;
     _x := _x s; _y := _y s; _color := _color s; _lowlight := c |}.
Definition set_value (v : Z) (s : t) : t :=
  {| value := v; _steps := _steps s; _stepsize := _stepsize s;
     _x := _x s; _y := _y s; _color := _color s; _lowlight := _lowlight s |}.

Definition draw : Eff t unit :=
  self <- get_self ;;
  let x := _x self in
  let y := _y self in
  color <- (match _color self with
            | None =>
                ui <- system_theme "ui" ;;
                put_self (set_color_ (Some ui) self) ;;
                ret ui
            | Some c => ret c
            end) ;;
  self <- get_self ;;
  light <- (match _lowlight self with
            | None =>
                contrast <- system_theme "contrast" ;;
                l <- draw_lighten color contrast ;;
                put_self (set_lowlight (Some l) self) ;;
                ret l
            | Some l => ret l
            end) ;;
  self <- get_self ;;
  if _steps self - 1 =? 0 then raise ZeroDivisionError
  else
    let knob_x := x + (_SLIDER_TRACK * value self) / (_steps self - 1) in
    drawable (blit icons_knob knob_x y (Some color) None None) ;;
    let w := knob_x - x in
    (if w >? 0 then
       drawable (fill 0 x y w _SLIDER_TRACK_Y1) ;;
       (if w >? _SLIDER_KNOB_RADIUS then
          drawable (fill 0 x (y + _SLIDER_TRACK_Y1)
                      _SLIDER_KNOB_RADIUS _SLIDER_TRACK_HEIGHT) ;;
          drawable (fill color (x + _SLIDER_KNOB_RADIUS) (y + _SLIDER_TRACK_Y1)
                      (w - _SLIDER_KNOB_RADIUS) _SLIDER_TRACK_HEIGHT)
        else
          drawable (fill 0 x (y + _SLIDER_TRACK_Y1) w _SLIDER_TRACK_HEIGHT)) ;;
       drawable (fill 0 x (y + _SLIDER_TRACK_Y2) w _SLIDER_TRACK_Y1)
     else pass) ;;
    let sx := knob_x + _SLIDER_KNOB_DIAMETER in
    let w := _SLIDER_WIDTH - _SLIDER_KNOB_DIAMETER - w in
    (if w >? 0 then
       drawable (fill 0 sx y w _SLIDER_TRACK_Y1) ;;
       (if w >? _SLIDER_KNOB_RADIUS then
          drawable (fill 0 (sx + w - _SLIDER_KNOB_RADIUS) (y + _SLIDER_TRACK_Y1)
                      _SLIDER_KNOB_RADIUS _SLIDER_TRACK_HEIGHT) ;;
          drawable (fill light sx (y + _SLIDER_TRACK_Y1)
                      (w - _SLIDER_KNOB_RADIUS) _SLIDER_TRACK_HEIGHT)
        else
          drawable (fill 0 sx (y + _SLIDER_TRACK_Y1) w _SLIDER_TRACK_HEIGHT)) ;;
       drawable (fill 0 sx (y + _SLIDER_TRACK_Y2) w _SLIDER_TRACK_Y1)
     else pass).

Definition update : Eff t unit := draw.

(** The step index [touch] computes before it stores it:
    [threshold = self._x + 20 - (self._stepsize / 2)], then
    [v = int((tx - threshold) / self._stepsize)], then the clamp. *)
Definition touch_value (self : t) (tx : Z) : Result Z :=
  and_then (float_of_int 2) (fun two =>
  and_then (float_div (_stepsize self) two) (fun half =>
  and_then (float_of_int (_x self + 20)) (fun left =>
  let threshold := float_sub left half in
  and_then (float_of_int tx) (fun ftx =>
  and_then (float_div (float_sub ftx threshold) (_stepsize self)) (fun quo =>
  and_then (int quo) (fun v =>
  Ok (if v <? 0 then 0
      else if v >=? _steps self then _steps self - 1
      else v))))))).

Definition touch (event : Event) : Eff t unit :=
  let tx := event_1 event in
  self <- get_self ;;
  v <- lift (touch_value self tx) ;;
  put_self (set_value v self).

End Slider.

(** ** Spinner *)

Fixpoint repeat_string (s : string) (n : nat) : string :=
  match n with
  | O => EmptyString
  | S n' => (s ++ repeat_string s n')%string
  end.

Module Spinner.

Record t := mk { _im : Z * Z * Z * Z * Z; value : Z }.

Definition __init__ (x y mn mx field : Z) : t :=
  {| _im := (x, y, mn, mx, field); value := mn |}.

Definition set_value (v : Z) (s : t) : t := {| _im := _im s; value := v |}.

Definition update : Eff t unit :=
  self <- get_self ;;
  let '(im0, im1, _, _, im4) := _im self in
  bright <- system_theme "bright" ;;
  drawable (set_color bright None) ;;
  drawable (set_font sans28) ;;
  let s := str (value self) in
  let len := Z.of_nat (String.length s) in
  let s := if len <? im4
           then (repeat_string "0" (Z.to_nat (im4 - len)) ++ s)%string
           else s in
  drawable (draw_string s im0 (im1 + 60 - 14) (Some 60)).

Definition draw : Eff t unit :=
  self <- get_self ;;
  let '(im0, im1, _, _, _) := _im self in
  ui <- system_theme "ui" ;;
  contrast <- system_theme "contrast" ;;
  fg <- draw_lighten ui contrast ;;
  drawable (blit icons_up_arrow (im0 + 30 - 8) (im1 + 20) (Some fg) None None) ;;
  drawable (blit icons_down_arrow (im0 + 30 - 8) (im1 + 120 - 20 - 9)
              (Some fg) None None) ;;
  update.

Definition touch (event : Event) : Eff t bool :=
  let x := event_1 event in
  let y := event_2 event in
  self <- get_self ;;
  let '(im0, im1, im2, im3, _) := _im self in
  if (x >=? im0) && (x <? im0 + 60) && (y >=? im1) && (y <? im1 + 120) then
    (if y <? im1 + 60 then
       put_self (set_value (value self + 1) self) ;;
       self <- get_self ;;
       if value self >? im3 then put_self (set_value im2 self) else pass
     else
       put_self (set_value (value self - 1) self) ;;
       self <- get_self ;;
       if value self <? im2 then put_self (set_value (im3 - 1) self)
       else pass) ;;
    update ;;
    ret true
  else ret false.

End Spinner.

(** ** ConfirmationView *)

Module ConfirmationView.

Record t := mk {
  active : bool;
  value : bool;
  _yes : Button.t;
  _no : Button.t }.

Definition __init__ : t :=
  {| active := false;
     value := false;
     _yes := Button.__init__ 20 140 90 45 "Yes";
     _no := Button.__init__ 130 140 90 45 "No" |}.

Definition set_yes (b : Button.t) (s : t) : t :=
  {| active := active s; value := value s; _yes := b; _no := _no s |}.
Definition set_no (b : Button.t) (s : t) : t :=
  {| active := active s; value := value s; _yes := _yes s; _no := b |}.
Definition set_active (a : bool) (s : t) : t :=
  {| active := a; value := value s; _yes := _yes s; _no := _no s |}.
Definition set_value (v : bool) (s : t) : t :=
  {| active := active s; value := v; _yes := _yes s; _no := _no s |}.

Definition draw (message : string) : Eff t unit :=
  call (Display_mute true) ;;
  bright <- system_theme "bright" ;;
  drawable (set_color bright None) ;;
  drawable (set_font sans24) ;;
  drawable fill_screen ;;
  drawable (draw_string message 0 60 None) ;;
  on_child _yes set_yes Button.draw ;;
  on_child _no set_no Button.draw ;;
  call (Display_mute false) ;;
  self <- get_self ;;
  put_self (set_active true self).

Definition touch (event : Event) : Eff t bool :=
  self <- get_self ;;
  if negb (active self) then ret false
  else
    yes <- on_child _yes set_yes (Button.touch event) ;;
    if yes then
      self <- get_self ;;
      put_self (set_active false self) ;;
      self <- get_self ;;
      put_self (set_value true self) ;;
      ret true
    else
      no <- on_child _no set_no (Button.touch event) ;;
      if no then
        self <- get_self ;;
        put_self (set_active false self) ;;
        self <- get_self ;;
        put_self (set_value false self) ;;
        ret true
      else ret false.

End ConfirmationView.

(** ** Card *)

Definition is_space (c : ascii) : bool :=
  let n := nat_of_ascii c in
  (Nat.eqb n 32 || (Nat.leb 9 n && Nat.leb n 13))%bool.

(** [s.rstrip()] *)
Fixpoint rstrip (s : string) : string :=
  match s with
  | EmptyString => EmptyString
  | String c s' =>
      match rstrip s' with
      | EmptyString => if is_space c then EmptyString else String c EmptyString
      | r => String c r
      end
  end.

(** [s[a:b]] for offsets [a], [b] that are not negative. *)
Definition slice (s : string) (a b : nat) : string := substring a (b - a) s.

(** An instance attribute that [__init__] may not have assigned. *)
Inductive Attr (A : Type) :=
| Unset
| Assigned (a : A).
Arguments Unset {A}.
Arguments Assigned {A} a.

Module Card.

Record t := mk {
  icon : option Icon;
  title : string;
  state : string;
  is_last : bool;
  is_first : bool;
  on_icon : Attr (option Icon) }.

Definition __init__ (icon : option Icon) (title state : string) : t :=
  {| icon := icon; title := title; state := state;
     is_last := true; is_first := true; on_icon := Unset |}.

Definition set_state (v : string) (s : t) : t :=
  {| icon := icon s; title := title s; state := v;
     is_last := is_last s; is_first := is_first s; on_icon := on_icon s |}.
Definition set_icon (v : option Icon) (s : t) : t :=
  {| icon := v; title := title s; state := state s;
     is_last := is_last s; is_first := is_first s; on_icon := on_icon s |}.
Definition set_on_icon (v : option Icon) (s : t) : t :=
  {| icon := icon s; title := title s; state := state s;
     is_last := is_last s; is_first := is_first s; on_icon := Assigned v |}.

(** The body of [for i in range(len(chunks)-1)], from index [i] on. *)
Fixpoint draw_chunks (title : string) (x y : Z) (i : Z) (chunks : list nat)
  : Eff t unit :=
  match chunks with
  | a :: (b :: _) as rest =>
      let sub := rstrip (slice title a b) in
      drawable (draw_string sub (x + 20) ((y + 100) + (24 + 4) * i) None) ;;
      draw_chunks title x y (i + 1) rest
  | _ => pass
  end.

Definition draw (all : bool) : Eff t unit :=
  self <- get_self ;;
  (if all then
     (if negb (is_first self) then drawable (fill 0xffff 30 0 180 5)
      else pass) ;;
     (if negb (is_last self) then drawable (fill 0xffff 30 235 180 5)
      else pass)
   else pass) ;;
  let x := 20 in
  let y := 20 in
  (if all then drawable (fill 0xffff x y 200 200) else pass) ;;
  drawable (set_color 0xffff (Some 0xffff)) ;;
  (match icon self with
   | Some i => drawable (blit i (x + 10) (y + 10) None None None)
   | None => pass
   end) ;;
  (if all && negb (title self =? "")%string then
     drawable (set_color 0x0000 (Some 0xffff)) ;;
     drawable (set_font sans24) ;;
     chunks <- draw_wrap (title self) 160 ;;
     draw_chunks (title self) x y 0 chunks
   else pass) ;;
  mid <- system_theme "mid" ;;
  drawable (set_color mid (Some 0xffff)) ;;
  drawable (draw_string (state self) (x + 20) (y + 148 + 12) None).

(** Reading [self.on_icon] raises when the attribute was never assigned. *)
Definition get_on_icon : Eff t (option Icon) :=
  self <- get_self ;;
  match on_icon self with
  | Assigned i => ret i
  | Unset => raise AttributeError
  end.

Definition touch (event : Event) : Eff t bool :=
  self <- get_self ;;
  (if (state self =? "On")%string then
     put_self (set_state "Off" self) ;;
     self <- get_self ;;
     put_self (set_on_icon (icon self) self) ;;
     self <- get_self ;;
     put_self (set_icon (Some light_off_50) self)
   else
     put_self (set_state "On" self) ;;
     saved <- get_on_icon ;;
     self <- get_self ;;
     put_self (set_icon saved self)) ;;
  draw false ;;
  ret true.

End Card.

(** ** NomieCard *)

Module NomieCard.

Record t := mk {
  icon : option Icon;
  title : string;
  state : string;
  is_last : bool;
  is_first : bool }.

Definition __init__ (icon : option Icon) (title state : string) : t :=
  {| icon := icon; title := title; state := state;
     is_last := true; is_first := true |}.

Definition draw (all : bool) : Eff t unit :=
  self <- get_self ;;
  (if all then
     (if negb (is_first self) then drawable (fill 0xffff 30 0 180 5)
      else pass) ;;
     (if negb (is_last self) then drawable (fill 0xffff 30 235 180 5)
      else pass)
   else pass) ;;
  let x := 20 in
  let y := 20 in
  (if all then drawable (fill 0xffff x y 200 200) else pass) ;;
  drawable (set_color 0xffff (Some 0xffff)) ;;
  (match icon self with
   | Some i => drawable (blit i (x + 60) (y + 60) None None None)
   | None => pass
   end) ;;
  (if all && negb (title self =? "")%string then
     drawable (set_color 0x0000 (Some 0xffff)) ;;
     drawable (set_font sans24) ;;
     drawable (draw_string (title self) (x + 20) (y + 160) (Some 160))
   else pass) ;;
  drawable (fill 0x0f00 (x + 10) (y + 10) 40 40) ;;
  drawable (set_color 0x0000 (Some 0xf00)) ;;
  drawable (draw_string (state self) (x + 10) (y + 20) (Some 40)).

Definition touch (event : Event) : Eff t bool := ret true.

End NomieCard.

(** * Applications *)

(** ** The application monad *)

(** An application method runs widget methods on the system's status bar
    and indexes tuples of its own, so it can fail in one more way. *)
Inductive AppExn :=
| WidgetError (e : Exn)
| IndexError.

Inductive Outcome (A : Type) :=
| Done (a : A)
| Failed (e : AppExn).
Arguments Done {A} a.
Arguments Failed {A} e.

Definition App (S A : Type) : Type := Env -> S -> Outcome A * S * list Call.

Definition app_ret {S A} (a : A) : App S A := fun _ s => (Done a, s, []).

Definition app_bind {S A B} (m : App S A) (k : A -> App S B) : App S B :=
  fun env s =>
    match m env s with
    | (Done a, s1, l1) =>
        match k a env s1 with
        | (r, s2, l2) => (r, s2, l1 ++ l2)
        end
    | (Failed e, s1, l1) => (Failed e, s1, l1)
    end.

Declare Scope app_scope.
Delimit Scope app_scope with app.
Notation "x <- m ;; k" := (app_bind m (fun x => k))
  (at level 61, m at next level, right associativity) : app_scope.
Notation "m ;; k" := (app_bind m (fun _ => k))
  (at level 61, right associativity) : app_scope.

Definition app_fail {S A} (e : AppExn) : App S A :=
  fun _ s => (Failed e, s, []).
Definition app_get {S} : App S S := fun _ s => (Done s, s, []).
Definition app_put {S} (s : S) : App S unit := fun _ _ => (Done tt, s, []).

(** A widget method run on a part of the application's world. *)
Definition widget {S T A} (get : S -> T) (set : T -> S -> S) (m : Eff T A)
  : App S A :=
  fun env s =>
    match m env (get s) with
    | (Ok a, t, l) => (Done a, set t s, l)
    | (Raise e, t, l) => (Failed (WidgetError e), set t s, l)
    end.

(** A call on the watch that needs no widget. *)
Definition watch {S A} (m : Eff S A) : App S A :=
  widget (fun s => s) (fun t _ => t) m.

Definition outcome_of {A S} (r : Outcome A * S * list Call) : Outcome A :=
  fst (fst r).

(** ** ClockApp *)

(** The glyphs of [fonts.clock]: [clock_0] to [clock_9] and the colon. *)
Definition digits_clock (d : Z) : Icon := AppIcon (Z.to_nat d).
Definition digits_clock_colon : Icon := AppIcon 10.

(** [DIGITS[i]]: a tuple of ten; an index from -10 to -1 counts from the
    end, any other index outside 0..9 raises. *)
Definition DIGITS (i : Z) : option Icon :=
  if (0 <=? i) && (i <? 10) then Some (digits_clock i)
  else if (-10 <=? i) && (i <? 0) then Some (digits_clock (i + 10))
  else None.

Definition MONTH : string := "JANFEBMARAPRMAYJUNJULAUGSEPOCTNOVDEC".

(** [s[a:b]] for any integers: a negative offset counts from the end, and
    both are clipped to the string. *)
Definition py_slice (s : string) (a b : Z) : string :=
  let n := Z.of_nat (String.length s) in
  let norm := fun i => if i <? 0 then Z.max (i + n) 0 else Z.min i n in
  substring (Z.to_nat (norm a)) (Z.to_nat (norm b - norm a)) s.

Module ClockApp.

Local Open Scope app_scope.

(** The instance ([_min] is first assigned by [_draw]) and the status bar
    of [wasp.system]. *)
Record t := mk { _min : Attr Z; bar : StatusBar.t }.

Definition set_min (v : Z) (s : t) : t := {| _min := Assigned v; bar := bar s |}.
Definition set_bar (b : StatusBar.t) (s : t) : t := {| _min := _min s; bar := b |}.

Definition get_min : App t Z :=
  self <- app_get ;;
  match _min self with
  | Assigned v => app_ret v
  | Unset => app_fail (WidgetError AttributeError)
  end.

Definition index_DIGITS (i : Z) : App t Icon :=
  match DIGITS i with
  | Some d => app_ret d
  | None => app_fail IndexError
  end.

(** The changeable parts of the watch face. *)
Definition draw_face (hi : Z) (now : TimeTuple) : App t unit :=
  let month := mm now - 1 in
  let month := py_slice MONTH (month * 3) ((month + 1) * 3) in
  d <- index_DIGITS (MM now mod 10) ;;
  watch (drawable (blit d (190 - 5) 80 (Some hi) None None)) ;;
  d <- index_DIGITS (MM now / 10) ;;
  watch (drawable (blit d (140 - 5) 80 (Some hi) None None)) ;;
  d <- index_DIGITS (HH now mod 10) ;;
  watch (drawable (blit d (70 - 5) 80 (Some hi) None None)) ;;
  d <- index_DIGITS (HH now / 10) ;;
  watch (drawable (blit d (20 - 5) 80 (Some hi) None None)) ;;
  watch (drawable (set_color hi None)) ;;
  watch (drawable (draw_string
                     (str (dd now) ++ " " ++ month ++ " " ++ str (yyyy now))
                     0 180 (Some 240))) ;;
  self <- app_get ;;
  app_put (set_min (MM now) self).

Definition _draw (redraw : bool) : App t unit :=
  hi <- watch (system_theme "bright") ;;
  lo <- watch (system_theme "mid") ;;
  mid <- watch (draw_lighten lo 1) ;;
  if redraw then
    now <- watch rtc_get_localtime ;;
    watch (drawable fill_screen) ;;
    watch (drawable (blit digits_clock_colon (120 - 5) 80 (Some hi) None None)) ;;
    widget bar set_bar StatusBar.draw ;;
    draw_face hi now
  else
    now <- widget bar set_bar StatusBar.update ;;
    match now with
    | None => app_ret tt
    | Some now =>
        shown <- get_min ;;
        if shown =? MM now then app_ret tt
        else draw_face hi now
    end.

Definition sleep : App t bool := app_ret true.
Definition wake : App t unit := _draw false.
Definition tick (ticks : Z) : App t unit := _draw false.

End ClockApp.

(** * Observations on runs *)

(** A sample watch: 09:41:07 on battery at the given level, icons 36
    pixels wide, nothing connected. *)
Definition sample_env (lvl : Z) : Env :=
  {| localtime := mkTime 2020 10 5 9 41 7 0 279;
     charging := false;
     battery_level := lvl;
     connected := false;
     notifications := false;
     theme := fun _ => 0xffff;
     lighten := fun c _ => c;
     darken := fun c => c;
     wrap := fun _ _ => [0%nat];
     icon_width := fun _ => 36 |}.

(** The same watch running on battery at level [lvl]. *)
Definition on_battery (env : Env) (lvl : Z) : Env :=
  {| localtime := localtime env;
     charging := false;
     battery_level := lvl;
     connected := connected env;
     notifications := notifications env;
     theme := theme env;
     lighten := lighten env;
     darken := darken env;
     wrap := wrap env;
     icon_width := icon_width env |}.

(** The colour of the fill bar: green rises with the level, red is its
    complement, and the warning colour replaces both when the icon is
    repainted at or below 5%. *)
Definition bar_rgb (lvl : Z) : Z :=
  let green := lvl / 3 in
  let green := if green >? 31 then 31 else green in
  Z.shiftl (31 - green) 11 + Z.shiftl green 6.

Definition icon_repaint (env : Env) (prev lvl : Z) : list DrawCall :=
  if (prev <? 0) || xorb (lvl >? 5) (prev >? 5) then
    [blit icons_battery (239 - icon_width env icons_battery - 5) 5
       (Some (if lvl >? 5 then theme env "battery" else 0xf800)) None None]
  else [].

Definition bar_repaint (env : Env) (prev lvl : Z) : list DrawCall :=
  let rgb := if ((prev <? 0) || xorb (lvl >? 5) (prev >? 5)) && negb (lvl >? 5)
             then 0xf800 else bar_rgb lvl in
  let w := icon_width env icons_battery - 4 in
  let x := 239 - 7 - w in
  let h := lvl * 22 / 100 in
  (if 18 - h =? 0 then [] else [fill 0 x 9 w (22 - h)])
  ++ (if h =? 0 then [] else [fill rgb x (9 + 22 - h) w h]).

(** Does a run blit the battery icon? *)
Definition is_battery_blit (d : DrawCall) : bool :=
  match d with
  | blit icons_battery _ _ _ _ _ => true
  | _ => false
  end.

Definition icon_redrawn (l : list DrawCall) : bool := existsb is_battery_blit l.

(** Feed a sequence of battery levels to successive [update()] calls and
    record, for each, whether the icon was redrawn. *)
Fixpoint icon_redraws (env : Env) (levels : list Z) (m : BatteryMeter.t)
  : list bool :=
  match levels with
  | [] => []
  | lvl :: rest =>
      let r := BatteryMeter.update (on_battery env lvl) m in
      icon_redrawn (draws_of r) :: icon_redraws env rest (self_of r)
  end.

(** [draw()] then [update()] then [update()] against an unchanged watch:
    the drawing calls of the first and of the second [update()]. *)
Definition first_update_draws {S A B} (draw : Eff S A) (update : Eff S B)
  (env : Env) (s : S) : list DrawCall :=
  draws_of (update env (self_of (draw env s))).

Definition second_update_draws {S A B} (draw : Eff S A) (update : Eff S B)
  (env : Env) (s : S) : list DrawCall :=
  draws_of (update env (self_of (update env (self_of (draw env s))))).

(** What [Clock.update] sends to the drawing surface when it renders. *)
Definition clock_text (now : TimeTuple) : string :=
  (format_02 (HH now) ++ ":" ++ format_02 (MM now))%string.

Definition clock_render (env : Env) (now : TimeTuple) : list DrawCall :=
  [set_font sans28;
   set_color (theme env "status-clock") None;
   draw_string (clock_text now) 52 4 (Some 138)].

(** "There was no prior [on_screen], or the hour or minute field differs
    from the prior one." *)
Definition hour_or_minute_differs (prior : option TimeTuple) (now : TimeTuple)
  : Prop :=
  match prior with
  | None => True
  | Some t => HH now <> HH t \/ MM now <> MM t
  end.

(** Rounding a rational to a nearest integer.  The four functions agree
    except at a tie, a position exactly halfway between two integers:
    there [round_half_up] takes the upper one, [round_half_down] the lower
    one, [round_half_away] the one away from zero and [round_half_even],
    Python's [round], the even one. *)
Definition round_half_up (q : Q) : Z := Qfloor (q + (1 # 2)).
Definition round_half_down (q : Q) : Z := Qceiling (q - (1 # 2)).
Definition round_half_even (q : Q) : Z :=
  if Z.even (round_half_up q) then round_half_up q else round_half_down q.

Definition clamp (lo hi v : Z) : Z :=
  if v <? lo then lo else if v >? hi then hi else v.

(** The touch position along the track of a slider, in steps and as an
    exact rational: the distance from the left edge of the track (the
    widget's [x] plus the knob radius) over the step size
    [(220 - 40) / (steps - 1)]. *)
Definition slider_position (s : Slider.t) (tx : Z) : Q :=
  (inject_Z (tx - (Slider._x s + _SLIDER_KNOB_RADIUS))
   / (inject_Z (_SLIDER_WIDTH - _SLIDER_KNOB_DIAMETER)
      / inject_Z (Slider._steps s - 1)))%Q.

(** A slider keeps the step count and the step size [__init__] gave it;
    no method changes them. *)
Definition slider_geometry (s : Slider.t) : Prop :=
  2 <= Slider._steps s
  /\ int_true_div _SLIDER_TRACK (Slider._steps s - 1) = Ok (Slider._stepsize s).

(** The step size of a slider with five steps, the float 45.0. *)
Definition stepsize_45 : float := S754_finite false 6333186975989760 (-47).

(** The integers from [lo], [n] of them. *)
Fixpoint range (lo : Z) (n : nat) : list Z :=
  match n with
  | O => []
  | S k => lo :: range (lo + 1) k
  end.

(** Does [touch] on a freshly built slider store a nearest step for the
    touch at [tx]?  The two candidates are written with integers:
    with [M = (tx - x - 20) * (steps - 1)] the position is [M / 180]. *)
Definition nearest_step_stored (steps x tx : Z) : bool :=
  match Slider.__init__ steps x 90 None with
  | Ok s =>
      match Slider.touch_value s tx with
      | Ok v =>
          let M := (tx - x - 20) * (steps - 1) in
          let up := (2 * M + 180) / 360 in
          let down := - ((180 - 2 * M) / 360) in
          (v =? clamp 0 (steps - 1) up) || (v =? clamp 0 (steps - 1) down)
      | Raise _ => false
      end
  | Raise _ => false
  end.

(** The rational a finite float stands for. *)
Definition float_value (a : float) : Q :=
  match a with
  | S754_finite sg m e =>
      (inject_Z (if sg then Z.neg m else Z.pos m) * (2 # 1) ^ e)%Q
  | _ => 0%Q
  end.

(** Is the step size [__init__] computes for [steps] steps within
    [2^-46], half a unit in the last place of a float below 256, of the
    exact quotient [180 / (steps - 1)]?  Both sides are multiplied by
    [steps - 1]. *)
Definition stepsize_close (stepsize : float) (steps : Z) : bool :=
  Qle_bool
    (Qabs (float_value stepsize * inject_Z (steps - 1) - inject_Z 180))
    (inject_Z (steps - 1) * (1 # 2 ^ 46)).

Definition stepsize_built_close (steps : Z) : bool :=
  match int_true_div _SLIDER_TRACK (steps - 1) with
  | Ok stepsize =>
      Qle_bool (1 # 1) (float_value stepsize) && stepsize_close stepsize steps
  | Raise _ => false
  end.

(** The two buttons every ConfirmationView is built with; no method
    replaces them. *)
Definition yes_button : Button.t := Button.__init__ 20 140 90 45 "Yes".
Definition no_button : Button.t := Button.__init__ 130 140 90 45 "No".

Definition own_buttons (v : ConfirmationView.t) : Prop :=
  ConfirmationView._yes v = yes_button /\ ConfirmationView._no v = no_button.

(** [ConfirmationView.touch] with the two hit tests in the other order:
    No is asked first, Yes second. *)
Definition touch_no_first (event : Event) : Eff ConfirmationView.t bool :=
  self <- get_self ;;
  if negb (ConfirmationView.active self) then ret false
  else
    no <- on_child ConfirmationView._no ConfirmationView.set_no
            (Button.touch event) ;;
    if no then
      self <- get_self ;;
      put_self (ConfirmationView.set_active false self) ;;
      self <- get_self ;;
      put_self (ConfirmationView.set_value false self) ;;
      ret true
    else
      yes <- on_child ConfirmationView._yes ConfirmationView.set_yes
               (Button.touch event) ;;
      if yes then
        self <- get_self ;;
        put_self (ConfirmationView.set_active false self) ;;
        self <- get_self ;;
        put_self (ConfirmationView.set_value true self) ;;
        ret true
      else ret false.

(** Run [touch] on a widget for each event in turn, from left to right,
    stopping at the first exception; the answers are collected. *)
Fixpoint touches {S A} (touch : Event -> Eff S A) (events : list Event)
  (env : Env) (s : S) : list (Result A) * S :=
  match events with
  | [] => ([], s)
  | e :: rest =>
      match touch e env s with
      | (Ok a, s', _) =>
          let '(rs, s'') := touches touch rest env s' in (Ok a :: rs, s'')
      | (Raise x, s', _) => ([Raise x], s')
      end
  end.

(** Kinds of drawing calls. *)
Definition is_text (d : DrawCall) : bool :=
  match d with
  | draw_string _ _ _ _ => true
  | _ => false
  end.

(** Calls that write pixels, as opposed to pen settings and colour
    arithmetic. *)
Definition paints (d : DrawCall) : bool :=
  match d with
  | fill _ _ _ _ _ | fill_screen | blit _ _ _ _ _ _ | draw_string _ _ _ _ => true
  | _ => false
  end.

Definition same_icon (a b : Icon) : bool :=
  match a, b with
  | icons_battery, icons_battery
  | icons_bluetooth, icons_bluetooth
  | icons_alert, icons_alert
  | icons_up_arrow, icons_up_arrow
  | icons_down_arrow, icons_down_arrow
  | icons_checkbox, icons_checkbox
  | icons_knob, icons_knob
  | light_off_50, light_off_50 => true
  | AppIcon m, AppIcon n => Nat.eqb m n
  | _, _ => false
  end.

(** Does a run blit the given bitmap? *)
Definition blits (i : Icon) (l : list DrawCall) : bool :=
  existsb (fun d => match d with
                    | blit j _ _ _ _ _ => same_icon i j
                    | _ => false
                    end) l.

(** A fill whose colour fits 16 bits and whose rows lie in [y0, y1). *)
Definition fill_in_rows (y0 y1 : Z) (d : DrawCall) : Prop :=
  match d with
  | fill bg _ y _ h => 0 <= bg <= 0xffff /\ y0 <= y /\ 0 <= h /\ y + h <= y1
  | _ => True
  end.

(** A fill that stays inside the rectangle at [(x0, y0)] of size [w0 x h0]. *)
Definition fill_in_rect (x0 y0 w0 h0 : Z) (d : DrawCall) : Prop :=
  match d with
  | fill _ x y w h =>
      x0 <= x /\ 0 <= w /\ x + w <= x0 + w0
      /\ y0 <= y /\ 0 <= h /\ y + h <= y0 + h0
  | _ => True
  end.

(** How many touches of a run were consumed. *)
Definition is_consumed (r : Result bool) : bool :=
  match r with
  | Ok true => true
  | _ => false
  end.

Definition consumed (rs : list (Result bool)) : nat :=
  List.length (filter is_consumed rs).

(** The text lines [Card.draw] writes for the title, one per pair of
    consecutive break offsets, starting at line [i]. *)
Fixpoint title_lines (title : string) (x y : Z) (i : Z) (chunks : list nat)
  : list DrawCall :=
  match chunks with
  | a :: (b :: _) as rest =>
      draw_string (rstrip (slice title a b)) (x + 20)
        ((y + 100) + (24 + 4) * i) None
      :: title_lines title x y (i + 1) rest
  | _ => []
  end.

Fixpoint ends_with_space (s : string) : bool :=
  match s with
  | EmptyString => false
  | String c EmptyString => is_space c
  | String _ s' => ends_with_space s'
  end.

Definition is_fill (d : DrawCall) : bool :=
  match d with
  | fill _ _ _ _ _ => true
  | _ => false
  end.

(** What [Card.draw] sends to the drawing surface. *)
Definition card_icon_calls (c : Card.t) : list DrawCall :=
  set_color 0xffff (Some 0xffff)
  :: match Card.icon c with
     | Some i => [blit i 30 30 None None None]
     | None => []
     end.

Definition card_label_calls (env : Env) (c : Card.t) : list DrawCall :=
  [set_color (theme env "mid") (Some 0xffff);
   draw_string (Card.state c) 40 180 None].

Definition card_frame_calls (c : Card.t) : list DrawCall :=
  (if Card.is_first c then [] else [fill 0xffff 30 0 180 5])
  ++ (if Card.is_last c then [] else [fill 0xffff 30 235 180 5])
  ++ [fill 0xffff 20 20 200 200].

Definition card_title_calls (env : Env) (c : Card.t) : list DrawCall :=
  if (Card.title c =? "")%string then []
  else [set_color 0x0000 (Some 0xffff); set_font sans24;
        wrap_call (Card.title c) 160]
       ++ title_lines (Card.title c) 20 20 0 (wrap env (Card.title c) 160).

(** What [ClockApp._draw] paints for a time: minute ones and tens, hour
    ones and tens, then the date. *)
Definition date_text (now : TimeTuple) : string :=
  (str (dd now) ++ " "
   ++ py_slice MONTH ((mm now - 1) * 3) ((mm now - 1 + 1) * 3)
   ++ " " ++ str (yyyy now))%string.

Definition face_digits (hi : Z) (now : TimeTuple) : list DrawCall :=
  [blit (digits_clock (MM now mod 10)) 185 80 (Some hi) None None;
   blit (digits_clock (MM now / 10)) 135 80 (Some hi) None None;
   blit (digits_clock (HH now mod 10)) 65 80 (Some hi) None None;
   blit (digits_clock (HH now / 10)) 15 80 (Some hi) None None].

Definition face_calls (hi : Z) (now : TimeTuple) : list DrawCall :=
  face_digits hi now
  ++ [set_color hi None; draw_string (date_text now) 0 180 (Some 240)].

(** A blit of one of the application's own glyphs. *)
Definition is_glyph (d : DrawCall) : bool :=
  match d with
  | blit (AppIcon _) _ _ _ _ _ => true
  | _ => false
  end.

(** A time of day on a clock face. *)
Definition valid_time (now : TimeTuple) : Prop :=
  0 <= HH now < 24 /\ 0 <= MM now < 60.

(** Projections of a finished application call. *)
Definition app_self_of {A S} (r : Outcome A * S * list Call) : S :=
  snd (fst r).
Definition app_draws_of {A S} (r : Outcome A * S * list Call)
  : list DrawCall :=
  drawing_calls (snd r).

(** * Properties *)

(** ** Running a method *)

Ltac run :=
  cbv beta iota zeta delta
    [bind ret ask call drawable pass get_self put_self raise on_child
     rtc_get_localtime battery_charging battery_level_read watch_connected
     system_theme draw_lighten draw_darken draw_wrap
     result_of self_of calls_of draws_of fst snd].

Lemma drawing_calls_app (l1 l2 : list Call) :
  drawing_calls (l1 ++ l2) = drawing_calls l1 ++ drawing_calls l2.
Proof.
  induction l1 as [|c l1 IH]; simpl; [reflexivity|].
  destruct (drawing_call c); simpl; rewrite IH; reflexivity.
Qed.

Lemma TimeTuple_eqb_eq (a b : TimeTuple) : TimeTuple_eqb a b = true <-> a = b.
Proof.
  destruct a, b; unfold TimeTuple_eqb; simpl.
  repeat rewrite andb_true_iff. repeat rewrite Z.eqb_eq.
  split.
  - intros [[[[[[[? ?] ?] ?] ?] ?] ?] ?]. subst. reflexivity.
  - intros H. inversion H. subst. repeat split.
Qed.

Lemma same_as_on_screen_iff (o : option TimeTuple) (now : TimeTuple) :
  Clock.same_as_on_screen o now = true <-> o = Some now.
Proof.
  destruct o as [t|]; simpl.
  - rewrite TimeTuple_eqb_eq. split; intros H; [subst | inversion H]; reflexivity.
  - split; discriminate.
Qed.

(** ** BatteryMeter *)

Lemma BatteryMeter_update_ok (env : Env) (m : BatteryMeter.t) :
  result_of (BatteryMeter.update env m) = Ok tt.
Proof.
  unfold BatteryMeter.update. run.
  destruct (charging env).
  - destruct (negb _); reflexivity.
  - destruct (_ =? _); [reflexivity|].
    destruct (_ || _); [destruct (_ >? 5)|];
      destruct (negb (18 - _ =? 0)); destruct (negb (_ / 100 =? 0)); reflexivity.
Qed.

Lemma BatteryMeter_update_first_call (env : Env) (m : BatteryMeter.t) :
  exists rest, calls_of (BatteryMeter.update env m) = Battery_charging :: rest.
Proof.
  unfold BatteryMeter.update. run.
  destruct (charging env).
  - destruct (negb _); eexists; reflexivity.
  - destruct (_ =? _); [eexists; reflexivity|].
    destruct (_ || _); [destruct (_ >? 5)|];
      destruct (negb (18 - _ =? 0)); destruct (negb (_ / 100 =? 0));
      eexists; reflexivity.
Qed.

(** While the charger is plugged in, the icon is blitted once and the
    cached level becomes [-1]. *)
Lemma BatteryMeter_update_charging (env : Env) (m : BatteryMeter.t) :
  charging env = true ->
  BatteryMeter.update env m =
  if BatteryMeter.level m =? -1 then (Ok tt, m, [Battery_charging])
  else (Ok tt, BatteryMeter.mk (-1),
        [Battery_charging;
         Drawable (blit icons_battery (239 - icon_width env icons_battery - 5) 5
                     (Some (theme env "battery")) None None)]).
Proof.
  intros Hc. unfold BatteryMeter.update. run. rewrite Hc.
  destruct (BatteryMeter.level m =? -1); reflexivity.
Qed.

(** On battery with the level that is already cached, nothing is drawn. *)
Lemma BatteryMeter_update_same_level (env : Env) (m : BatteryMeter.t) :
  charging env = false ->
  battery_level env = BatteryMeter.level m ->
  BatteryMeter.update env m = (Ok tt, m, [Battery_charging; Battery_level]).
Proof.
  intros Hc Hl. unfold BatteryMeter.update. run. rewrite Hc, Hl, Z.eqb_refl.
  reflexivity.
Qed.

(** On battery with a fresh level: what the code draws, call by call. *)
Lemma BatteryMeter_update_new_level (env : Env) (m : BatteryMeter.t) :
  charging env = false ->
  battery_level env <> BatteryMeter.level m ->
  BatteryMeter.update env m =
  (Ok tt, BatteryMeter.mk (battery_level env),
   [Battery_charging; Battery_level]
   ++ map Drawable (icon_repaint env (BatteryMeter.level m) (battery_level env)
                    ++ bar_repaint env (BatteryMeter.level m) (battery_level env))).
Proof.
  intros Hc Hl. apply Z.eqb_neq in Hl.
  unfold BatteryMeter.update, icon_repaint, bar_repaint, bar_rgb. run.
  rewrite Hc, Hl.
  set (h := battery_level env * 22 / 100).
  destruct (_ || _); [destruct (battery_level env >? 5)|];
    destruct (18 - h =? 0); destruct (h =? 0); reflexivity.
Qed.

Lemma drawing_calls_map (l : list DrawCall) :
  drawing_calls (map Drawable l) = l.
Proof. induction l as [|d l IH]; simpl; [|rewrite IH]; reflexivity. Qed.

Lemma BatteryMeter_update_new_level_draws (env : Env) (m : BatteryMeter.t) :
  charging env = false ->
  battery_level env <> BatteryMeter.level m ->
  draws_of (BatteryMeter.update env m) =
  icon_repaint env (BatteryMeter.level m) (battery_level env)
  ++ bar_repaint env (BatteryMeter.level m) (battery_level env).
Proof.
  intros Hc Hl. rewrite (BatteryMeter_update_new_level env m Hc Hl).
  unfold draws_of, calls_of. cbn [snd].
  rewrite drawing_calls_app, drawing_calls_map. reflexivity.
Qed.

(** The clearing call is issued exactly when the bar height differs from
    18, whatever the unfilled height [22 - h] is. *)
Lemma BatteryMeter_update_clears_iff (env : Env) (m : BatteryMeter.t) :
  charging env = false ->
  battery_level env <> BatteryMeter.level m ->
  In (fill 0 (239 - 7 - (icon_width env icons_battery - 4)) 9
        (icon_width env icons_battery - 4) (22 - battery_level env * 22 / 100))
     (draws_of (BatteryMeter.update env m))
  <-> battery_level env * 22 / 100 <> 18.
Proof.
  intros Hc Hl.
  rewrite (BatteryMeter_update_new_level_draws env m Hc Hl).
  unfold icon_repaint, bar_repaint.
  remember (battery_level env * 22 / 100) as h eqn:Eh.
  rewrite !in_app_iff.
  split.
  - intros [Hin|[Hin|Hin]] Hh.
    + destruct (_ || _); simpl in Hin; [destruct Hin as [Hin|[]]|destruct Hin].
      discriminate Hin.
    + destruct (18 - h =? 0) eqn:E; [destruct Hin|].
      apply Z.eqb_neq in E. lia.
    + destruct (h =? 0); [destruct Hin|].
      destruct Hin as [Hin|[]].
      apply (f_equal (fun d => match d with fill _ _ _ _ hh => hh | _ => 0 end))
        in Hin.
      lia.
  - intros Hh. right. left.
    destruct (18 - h =? 0) eqn:E; [apply Z.eqb_eq in E; lia|].
    left. reflexivity.
Qed.

(** C4: on battery at level 82 (cached level 87) the bar is 18 pixels
    high, so 4 pixels of track are unfilled, yet the run paints the filled
    portion only: the guard of the clearing call tests [18 - h] where the
    call itself uses [22 - h]. *)
Theorem BatteryMeter_update_level_82_skips_clear :
  let r := BatteryMeter.update (sample_env 82) (BatteryMeter.mk 87) in
  82 * 22 / 100 = 18 /\
  22 - 18 <> 0 /\
  draws_of r = [fill 9920 200 13 32 18] /\
  ~ In (fill 0 200 9 32 4) (draws_of r).
Proof.
  repeat split; try reflexivity; try discriminate.
  intros [H|[]]. discriminate H.
Qed.


Lemma bar_repaint_no_icon (env : Env) (prev lvl : Z) :
  icon_redrawn (bar_repaint env prev lvl) = false.
Proof.
  unfold bar_repaint, icon_redrawn.
  destruct (18 - _ =? 0); destruct (_ / 100 =? 0); reflexivity.
Qed.

Lemma icon_repaint_redrawn (env : Env) (prev lvl : Z) :
  icon_redrawn (icon_repaint env prev lvl)
  = (prev <? 0) || xorb (lvl >? 5) (prev >? 5).
Proof.
  unfold icon_repaint, icon_redrawn.
  destruct (_ || _); reflexivity.
Qed.

(** One step of a level sequence, when the level is fresh. *)
Lemma icon_redraws_step (env : Env) (lvl : Z) (rest : list Z)
  (m : BatteryMeter.t) :
  lvl <> BatteryMeter.level m ->
  icon_redraws env (lvl :: rest) m =
  ((BatteryMeter.level m <? 0) || xorb (lvl >? 5) (BatteryMeter.level m >? 5))
  :: icon_redraws env rest (BatteryMeter.mk lvl).
Proof.
  intros Hl. cbn [icon_redraws].
  assert (Hc : charging (on_battery env lvl) = false) by reflexivity.
  assert (Hn : battery_level (on_battery env lvl) <> BatteryMeter.level m)
    by exact Hl.
  rewrite (BatteryMeter_update_new_level_draws _ m Hc Hn).
  rewrite (BatteryMeter_update_new_level _ m Hc Hn).
  unfold icon_redrawn. rewrite existsb_app.
  fold (icon_redrawn (icon_repaint (on_battery env lvl) (BatteryMeter.level m)
                        (battery_level (on_battery env lvl)))).
  fold (icon_redrawn (bar_repaint (on_battery env lvl) (BatteryMeter.level m)
                        (battery_level (on_battery env lvl)))).
  rewrite bar_repaint_no_icon, icon_repaint_redrawn, orb_false_r.
  reflexivity.
Qed.

(** One step of a level sequence, when the level is the cached one. *)
Lemma icon_redraws_same (env : Env) (lvl : Z) (rest : list Z) :
  icon_redraws env (lvl :: rest) (BatteryMeter.mk lvl) =
  false :: icon_redraws env rest (BatteryMeter.mk lvl).
Proof.
  cbn [icon_redraws].
  rewrite (BatteryMeter_update_same_level (on_battery env lvl)
             (BatteryMeter.mk lvl) eq_refl eq_refl).
  reflexivity.
Qed.

(** C5: on battery, with a fresh level and a cached level that is not
    negative, the battery icon is blitted exactly when [level > 5] and
    [previous > 5] differ.  Fed to a meter whose cached level is above 5,
    the levels 7, 5, 7 repaint the icon on 7->5 and on 5->7, and the levels
    7, 6 never repaint it. *)
Theorem BatteryMeter_icon_redrawn_iff_crossing :
  (forall (env : Env) (m : BatteryMeter.t),
      charging env = false ->
      battery_level env <> BatteryMeter.level m ->
      0 <= BatteryMeter.level m ->
      icon_redrawn (draws_of (BatteryMeter.update env m))
      = xorb (battery_level env >? 5) (BatteryMeter.level m >? 5))
  /\ (forall (env : Env) (prev : Z),
         5 < prev ->
         icon_redraws env [7; 5; 7] (BatteryMeter.mk prev) = [false; true; true]
         /\ icon_redraws env [7; 6] (BatteryMeter.mk prev) = [false; false]).
Proof.
  split.
  - intros env m Hc Hl Hp.
    rewrite (BatteryMeter_update_new_level_draws env m Hc Hl).
    unfold icon_redrawn. rewrite existsb_app.
    fold (icon_redrawn (icon_repaint env (BatteryMeter.level m)
                          (battery_level env))).
    fold (icon_redrawn (bar_repaint env (BatteryMeter.level m)
                          (battery_level env))).
    rewrite bar_repaint_no_icon, icon_repaint_redrawn, orb_false_r.
    replace (BatteryMeter.level m <? 0) with false
      by (symmetry; apply Z.ltb_ge; exact Hp).
    reflexivity.
  - intros env prev Hp.
    assert (H7 : forall rest,
               icon_redraws env (7 :: rest) (BatteryMeter.mk prev)
               = false :: icon_redraws env rest (BatteryMeter.mk 7)).
    { intros rest. destruct (Z.eq_dec 7 prev) as [E|E].
      - subst prev. apply icon_redraws_same.
      - rewrite (icon_redraws_step env 7 rest (BatteryMeter.mk prev) E).
        cbn [BatteryMeter.level].
        replace (prev <? 0) with false by (symmetry; apply Z.ltb_ge; lia).
        replace (prev >? 5) with true by (symmetry; apply Z.gtb_lt; lia).
        reflexivity. }
    rewrite !H7. split.
    + rewrite (icon_redraws_step env 5 [7] (BatteryMeter.mk 7))
        by (cbn; discriminate).
      rewrite (icon_redraws_step env 7 [] (BatteryMeter.mk 5))
        by (cbn; discriminate).
      reflexivity.
    + rewrite (icon_redraws_step env 6 [] (BatteryMeter.mk 7))
        by (cbn; discriminate).
      reflexivity.
Qed.

Lemma BatteryMeter_icon_redrawn_iff_crossing_witness :
  icon_redrawn (draws_of (BatteryMeter.update (sample_env 5) (BatteryMeter.mk 7)))
  = xorb (5 >? 5) (7 >? 5)
  /\ icon_redraws (sample_env 50) [7; 5; 7] (BatteryMeter.mk 50)
     = [false; true; true].
Proof.
  split.
  - apply (proj1 BatteryMeter_icon_redrawn_iff_crossing (sample_env 5)
             (BatteryMeter.mk 7)).
    + reflexivity.
    + simpl. discriminate.
    + simpl. lia.
  - apply (proj2 BatteryMeter_icon_redrawn_iff_crossing (sample_env 50) 50).
    lia.
Defined.

(** ** Clock *)

Lemma Clock_update_unchanged (env : Env) (c : Clock.t) :
  Clock.on_screen c = Some (localtime env) ->
  Clock.update env c = (Ok None, c, [Rtc_get_localtime]).
Proof.
  intros H. apply same_as_on_screen_iff in H.
  unfold Clock.update. run. rewrite H. reflexivity.
Qed.

Lemma Clock_update_changed (env : Env) (c : Clock.t) :
  Clock.on_screen c <> Some (localtime env) ->
  Clock.update env c =
  (Ok (Some (localtime env)),
   Clock.mk (Some (localtime env)) (Clock.enabled c),
   Rtc_get_localtime ::
   map Drawable
     (if Clock.enabled c && Clock.needs_render (Clock.on_screen c) (localtime env)
      then clock_render env (localtime env) else [])).
Proof.
  intros H.
  assert (E : Clock.same_as_on_screen (Clock.on_screen c) (localtime env) = false).
  { destruct (Clock.same_as_on_screen _ _) eqn:E; [|reflexivity].
    apply same_as_on_screen_iff in E. contradiction. }
  unfold Clock.update. run. rewrite E.
  destruct (Clock.enabled c && _); reflexivity.
Qed.

Lemma on_screen_dec (c : Clock.t) (now : TimeTuple) :
  {Clock.on_screen c = Some now} + {Clock.on_screen c <> Some now}.
Proof.
  destruct (Clock.same_as_on_screen (Clock.on_screen c) now) eqn:E.
  - left. apply same_as_on_screen_iff. exact E.
  - right. intros H. apply same_as_on_screen_iff in H. congruence.
Qed.

Lemma needs_render_iff (prior : option TimeTuple) (now : TimeTuple) :
  Clock.needs_render prior now = true <-> hour_or_minute_differs prior now.
Proof.
  destruct prior as [t|]; simpl; [|tauto].
  rewrite orb_true_iff, !negb_true_iff, !Z.eqb_neq. tauto.
Qed.

(** C3: [Clock.update] first reads the local time.  It answers [None]
    exactly when that time equals [on_screen], and then leaves the widget
    alone; otherwise it stores the time as [on_screen] and answers it,
    whether or not the clock is enabled.  It renders the "HH:MM" text
    exactly when the clock is enabled and there was no prior [on_screen] or
    the hour or the minute differs from the prior one; it draws nothing
    else. *)
Theorem Clock_update_spec (env : Env) (c : Clock.t) :
  let now := localtime env in
  let r := Clock.update env c in
  (exists ds, calls_of r = Rtc_get_localtime :: map Drawable ds)
  /\ (result_of r = Ok None <-> Clock.on_screen c = Some now)
  /\ (Clock.on_screen c = Some now -> self_of r = c)
  /\ (Clock.on_screen c <> Some now ->
      result_of r = Ok (Some now)
      /\ self_of r = Clock.mk (Some now) (Clock.enabled c))
  /\ (Clock.enabled c = true /\ hour_or_minute_differs (Clock.on_screen c) now
      -> draws_of r = clock_render env now)
  /\ (~ (Clock.enabled c = true
         /\ hour_or_minute_differs (Clock.on_screen c) now)
      -> draws_of r = []).
Proof.
  intros now r. subst r now.
  destruct (on_screen_dec c (localtime env)) as [E|E].
  - rewrite (Clock_update_unchanged env c E).
    split; [exists []; reflexivity|].
    split; [split; intros _; [exact E|reflexivity]|].
    split; [reflexivity|].
    split; [intros H; contradiction|].
    split; [|reflexivity].
    intros [_ H]. rewrite E in H. simpl in H. destruct H as [H|H]; congruence.
  - rewrite (Clock_update_changed env c E).
    split; [eexists; reflexivity|].
    split; [split; [discriminate|intros H; contradiction]|].
    split; [intros H; contradiction|].
    split; [intros _; split; reflexivity|].
    unfold draws_of, calls_of. cbn [snd drawing_calls drawing_call].
    rewrite drawing_calls_map.
    split.
    + intros [He Hd]. apply needs_render_iff in Hd. rewrite He, Hd. reflexivity.
    + intros Hn.
      destruct (Clock.enabled c) eqn:He; [|reflexivity].
      destruct (Clock.needs_render _ _) eqn:Hd; [|reflexivity].
      exfalso. apply Hn. split; [reflexivity|].
      apply needs_render_iff. exact Hd.
Qed.

Example clock_text_0941 : clock_text (localtime (sample_env 50)) = "09:41"%string.
Proof. reflexivity. Qed.

(** ** NotificationBar *)

(** The widget repaints on every call: one of four fixed layouts. *)
Lemma NotificationBar_update_eq (env : Env) (n : NotificationBar.t) :
  NotificationBar.update env n =
  (Ok tt, n,
   Watch_connected ::
   map Drawable
     (let '(x, y) := NotificationBar._pos n in
      if connected env then
        blit icons_bluetooth (x + 5) (y + 5) (Some (theme env "ble")) None None
        :: (if notifications env
            then [blit icons_alert (x + 22 + 5) (y + 5)
                    (Some (theme env "notify-icon")) None None]
            else [fill 0 (x + 22 + 5) (y + 5) 30 32])
      else if notifications env then
        [blit icons_alert x y (Some (theme env "notify-icon")) None None;
         fill 0 (x + 30) y 22 32]
      else [fill 0 x y 52 32])).
Proof.
  unfold NotificationBar.update. run.
  destruct (NotificationBar._pos n) as [x y].
  destruct (connected env); destruct (notifications env); reflexivity.
Qed.

Lemma NotificationBar_update_draws (env : Env) (n : NotificationBar.t) :
  draws_of (NotificationBar.update env n) <> [].
Proof.
  rewrite NotificationBar_update_eq.
  unfold draws_of, calls_of. cbn [snd drawing_calls drawing_call].
  rewrite drawing_calls_map.
  destruct (NotificationBar._pos n) as [x y].
  destruct (connected env); destruct (notifications env); discriminate.
Qed.

(** ** StatusBar *)

(** C1: [StatusBar.update] starts with [Clock.update] (the first call on
    the watch is the rtc read).  When the clock answers [None], the status
    bar answers [None] and has made no other call: the battery and the
    connection were not read and nothing was drawn, so neither
    [BatteryMeter.update] nor [NotificationBar.update] ran, and both
    children are as they were.  When the clock answers a time, the status
    bar runs [BatteryMeter.update], then [NotificationBar.update], each on
    its own child, and answers that time. *)
Theorem StatusBar_update_gates_children (env : Env) (sb : StatusBar.t) :
  let rc := Clock.update env (StatusBar._clock sb) in
  let rm := BatteryMeter.update env (StatusBar._meter sb) in
  let rn := NotificationBar.update env (StatusBar._notif sb) in
  let r := StatusBar.update env sb in
  (exists rest, calls_of r = Rtc_get_localtime :: rest)
  /\ (exists rest, calls_of rm = Battery_charging :: rest)
  /\ (exists rest, calls_of rn = Watch_connected :: rest)
  /\ match result_of rc with
     | Ok None =>
         r = (Ok None, StatusBar.set_clock (self_of rc) sb, [Rtc_get_localtime])
         /\ StatusBar._meter (self_of r) = StatusBar._meter sb
         /\ StatusBar._notif (self_of r) = StatusBar._notif sb
         /\ ~ In Battery_charging (calls_of r)
         /\ ~ In Watch_connected (calls_of r)
         /\ draws_of r = []
     | Ok (Some now) =>
         now = localtime env
         /\ r = (Ok (Some now),
                 StatusBar.mk (self_of rc) (self_of rm) (self_of rn),
                 calls_of rc ++ calls_of rm ++ calls_of rn)
     | Raise _ => False
     end.
Proof.
  intros rc rm rn r.
  assert (Hm : exists rest, calls_of rm = Battery_charging :: rest)
    by apply BatteryMeter_update_first_call.
  assert (Hn : exists rest, calls_of rn = Watch_connected :: rest)
    by (subst rn; rewrite NotificationBar_update_eq; eexists; reflexivity).
  assert (Hmok : result_of rm = Ok tt) by apply BatteryMeter_update_ok.
  assert (Hnok : result_of rn = Ok tt)
    by (subst rn; rewrite NotificationBar_update_eq; reflexivity).
  assert (Hr : r =
    match rc with
    | (Ok (Some now), c, l) =>
        (Ok (Some now), StatusBar.mk c (self_of rm) (self_of rn),
         l ++ calls_of rm ++ calls_of rn)
    | (Ok None, c, l) => (Ok None, StatusBar.set_clock c sb, l ++ [])
    | (Raise e, c, l) => (Raise e, StatusBar.set_clock c sb, l)
    end).
  { subst r. unfold StatusBar.update, StatusBar.clock_update,
      StatusBar.meter_update, StatusBar.notif_update, bind, on_child, ret.
    fold rc. destruct rc as [[[[now|]|e] c] l]; try reflexivity.
    cbn [StatusBar.set_clock StatusBar._meter StatusBar._notif
         StatusBar._clock StatusBar.set_meter StatusBar.set_notif].
    fold rm.
    destruct rm as [[[[]|e] m] lm]; [|discriminate Hmok].
    cbn [StatusBar.set_clock StatusBar._meter StatusBar._notif
         StatusBar._clock StatusBar.set_meter StatusBar.set_notif].
    fold rn.
    destruct rn as [[[[]|e] n] ln]; [|discriminate Hnok].
    unfold self_of, calls_of. cbn [fst snd].
    rewrite app_nil_r. reflexivity. }
  destruct (on_screen_dec (StatusBar._clock sb) (localtime env)) as [E|E].
  - pose proof (Clock_update_unchanged env _ E) as Hc. fold rc in Hc.
    rewrite Hc in Hr |- *. cbn [app] in Hr.
    split; [rewrite Hr; eexists; reflexivity|].
    split; [exact Hm|]. split; [exact Hn|].
    cbn [result_of fst]. rewrite Hr. unfold self_of, calls_of, draws_of.
    cbn [fst snd StatusBar.set_clock StatusBar._meter StatusBar._notif].
    repeat split.
    + intros [H|[]]. discriminate H.
    + intros [H|[]]. discriminate H.
  - pose proof (Clock_update_changed env _ E) as Hc. fold rc in Hc.
    rewrite Hc in Hr |- *.
    split; [rewrite Hr; eexists; reflexivity|].
    split; [exact Hm|]. split; [exact Hn|].
    cbn [result_of fst]. split; [reflexivity|]. exact Hr.
Qed.

(** ** Lazy redraw, widget by widget *)

Lemma BatteryMeter_draw_eq (env : Env) (m : BatteryMeter.t) :
  BatteryMeter.draw env m = BatteryMeter.update env (BatteryMeter.mk (-2)).
Proof.
  unfold BatteryMeter.draw, bind, put_self.
  destruct (BatteryMeter.update env _) as [[r s] l]. reflexivity.
Qed.

(** Whatever the meter remembered, one [update()] brings it in step with
    the watch, and the next one finds nothing to do. *)
Lemma BatteryMeter_update_settles (env : Env) (m : BatteryMeter.t) :
  let m' := self_of (BatteryMeter.update env m) in
  draws_of (BatteryMeter.update env m') = []
  /\ self_of (BatteryMeter.update env m') = m'.
Proof.
  destruct (charging env) eqn:Hc.
  - rewrite (BatteryMeter_update_charging env m Hc).
    destruct (BatteryMeter.level m =? -1) eqn:E; cbn [self_of fst snd];
      rewrite (BatteryMeter_update_charging env _ Hc).
    + rewrite E. split; reflexivity.
    + split; reflexivity.
  - destruct (Z.eq_dec (battery_level env) (BatteryMeter.level m)) as [E|E].
    + rewrite (BatteryMeter_update_same_level env m Hc E). cbn [self_of fst snd].
      rewrite (BatteryMeter_update_same_level env m Hc E). split; reflexivity.
    + rewrite (BatteryMeter_update_new_level env m Hc E). cbn [self_of fst snd].
      rewrite (BatteryMeter_update_same_level env
                 (BatteryMeter.mk (battery_level env)) Hc eq_refl).
      split; reflexivity.
Qed.

Lemma Clock_draw_eq (env : Env) (c : Clock.t) :
  self_of (Clock.draw env c)
  = self_of (Clock.update env (Clock.mk None (Clock.enabled c)))
  /\ calls_of (Clock.draw env c)
     = calls_of (Clock.update env (Clock.mk None (Clock.enabled c))).
Proof.
  unfold Clock.draw, bind, put_self, get_self, pass, ret.
  destruct (Clock.update env _) as [[[r|e] s] l]; cbn;
    rewrite ?app_nil_r; split; reflexivity.
Qed.

Lemma Clock_update_settles (env : Env) (c : Clock.t) :
  let c' := self_of (Clock.update env c) in
  draws_of (Clock.update env c') = []
  /\ self_of (Clock.update env c') = c'.
Proof.
  assert (H : Clock.on_screen (self_of (Clock.update env c))
              = Some (localtime env)).
  { destruct (on_screen_dec c (localtime env)) as [E|E].
    - rewrite (Clock_update_unchanged env c E). exact E.
    - rewrite (Clock_update_changed env c E). reflexivity. }
  cbv zeta. rewrite (Clock_update_unchanged env _ H). split; reflexivity.
Qed.

Lemma Checkbox_update_draws (env : Env) (k : Checkbox.t) :
  result_of (Checkbox.update env k) = Ok tt
  /\ self_of (Checkbox.update env k) = k
  /\ draws_of (Checkbox.update env k) <> [].
Proof.
  unfold Checkbox.update. run.
  destruct (Checkbox._im k) as [[im0 im1] im2].
  destruct (Checkbox.state k); repeat split; discriminate.
Qed.

Lemma Spinner_update_eq (env : Env) (sp : Spinner.t) :
  exists s x y,
    Spinner.update env sp =
    (Ok tt, sp,
     map Drawable [set_color (theme env "bright") None; set_font sans28;
                   draw_string s x y (Some 60)]).
Proof.
  unfold Spinner.update. run.
  destruct (Spinner._im sp) as [[[[im0 im1] im2] im3] im4].
  do 3 eexists. reflexivity.
Qed.

Lemma ScrollIndicator_update_eq (env : Env) (si : ScrollIndicator.t) :
  ScrollIndicator.update env si =
  (Ok tt, si,
   map Drawable
     ((if ScrollIndicator.up si
       then [blit icons_up_arrow (fst (ScrollIndicator._pos si))
               (snd (ScrollIndicator._pos si))
               (Some (theme env "scroll-indicator")) None None]
       else [])
      ++ (if ScrollIndicator.down si
          then [blit icons_down_arrow (fst (ScrollIndicator._pos si))
                  (snd (ScrollIndicator._pos si) + 13)
                  (Some (theme env "scroll-indicator")) None None]
          else []))).
Proof.
  unfold ScrollIndicator.update.
  cbv beta iota zeta delta
    [bind ret ask call drawable pass get_self system_theme].
  destruct (ScrollIndicator.up si); destruct (ScrollIndicator.down si);
    reflexivity.
Qed.

Ltac split_ifs :=
  repeat (cbv beta iota zeta;
          match goal with
          | |- context [if ?b then _ else _] =>
              lazymatch b with
              | true => fail
              | false => fail
              | _ => destruct b
              end
          end);
  cbv beta iota zeta.

(** [Slider.draw] never touches the geometry of the slider. *)
Lemma Slider_draw_steps (env : Env) (sl : Slider.t) :
  Slider._steps (self_of (Slider.draw env sl)) = Slider._steps sl.
Proof.
  destruct sl as [v steps ss x y [c|] [l|]];
    unfold Slider.draw; run;
    cbv beta iota zeta delta
      [Slider.set_color_ Slider.set_lowlight Slider._steps Slider._color
       Slider._lowlight Slider._x Slider._y Slider.value Slider._stepsize];
    split_ifs; reflexivity.
Qed.

(** ... and, unless its step count makes the division fail, it always
    blits the knob. *)
Lemma Slider_draw_draws (env : Env) (sl : Slider.t) :
  Slider._steps sl <> 1 ->
  draws_of (Slider.draw env sl) <> [].
Proof.
  intros Hs.
  assert (E : (Slider._steps sl - 1 =? 0) = false) by (apply Z.eqb_neq; lia).
  destruct sl as [v steps ss x y [c|] [l|]];
    unfold Slider.draw; run;
    cbv beta iota zeta delta
      [Slider.set_color_ Slider.set_lowlight Slider._steps Slider._color
       Slider._lowlight Slider._x Slider._y Slider.value Slider._stepsize]
      in E |- *;
    rewrite E; split_ifs; discriminate.
Qed.

(** C2, as stated, fails: a NotificationBar repaints its region on the
    second [update()] although the watch has not changed. *)
Lemma NotificationBar_second_update_repaints :
  second_update_draws NotificationBar.draw NotificationBar.update
    (sample_env 50) (NotificationBar.__init__ 0 0)
  = [fill 0 0 0 52 32]
  /\ second_update_draws NotificationBar.draw NotificationBar.update
       (sample_env 50) (NotificationBar.__init__ 0 0)
     <> [].
Proof. split; [reflexivity|discriminate]. Qed.

(** C2, amended: against an unchanged watch, [draw()] followed by
    [update()] and [update()] again makes a BatteryMeter and a Clock issue
    no drawing call in either [update()].  The other widgets keep no
    record of what is on screen: NotificationBar, Checkbox and Spinner
    draw again in every [update()], a Slider does whenever its step count
    is not 1, and a ScrollIndicator blits one arrow per flag that is set. *)
Theorem lazy_redraw_by_widget (env : Env) :
  (forall m : BatteryMeter.t,
      first_update_draws BatteryMeter.draw BatteryMeter.update env m = []
      /\ second_update_draws BatteryMeter.draw BatteryMeter.update env m = [])
  /\ (forall c : Clock.t,
         first_update_draws Clock.draw Clock.update env c = []
         /\ second_update_draws Clock.draw Clock.update env c = [])
  /\ (forall n : NotificationBar.t,
         second_update_draws NotificationBar.draw NotificationBar.update env n
         <> [])
  /\ (forall k : Checkbox.t,
         second_update_draws Checkbox.draw Checkbox.update env k <> [])
  /\ (forall sp : Spinner.t,
         second_update_draws Spinner.draw Spinner.update env sp <> [])
  /\ (forall sl : Slider.t,
         Slider._steps sl <> 1 ->
         second_update_draws Slider.draw Slider.update env sl <> [])
  /\ (forall si : ScrollIndicator.t,
         List.length (second_update_draws ScrollIndicator.draw
                   ScrollIndicator.update env si)
         = ((if ScrollIndicator.up si then 1 else 0)
            + (if ScrollIndicator.down si then 1 else 0))%nat).
Proof.
  unfold first_update_draws, second_update_draws.
  split; [|split; [|split; [|split; [|split; [|split]]]]].
  - intros m. rewrite BatteryMeter_draw_eq.
    pose proof (BatteryMeter_update_settles env (BatteryMeter.mk (-2)))
      as [H1 H2].
    rewrite H2. split; exact H1.
  - intros c. rewrite (proj1 (Clock_draw_eq env c)).
    pose proof (Clock_update_settles env (Clock.mk None (Clock.enabled c)))
      as [H1 H2].
    rewrite H2. split; exact H1.
  - intros n. apply NotificationBar_update_draws.
  - intros k. apply Checkbox_update_draws.
  - intros sp.
    destruct (Spinner_update_eq env
                (self_of (Spinner.update env (self_of (Spinner.draw env sp)))))
      as (s & x & y & H).
    rewrite H. discriminate.
  - intros sl Hs. unfold Slider.update.
    apply Slider_draw_draws. rewrite !Slider_draw_steps. exact Hs.
  - intros si. unfold ScrollIndicator.draw.
    rewrite !ScrollIndicator_update_eq.
    unfold draws_of, calls_of, self_of. cbn [fst snd].
    rewrite drawing_calls_map.
    destruct (ScrollIndicator.up si); destruct (ScrollIndicator.down si);
      reflexivity.
Qed.

Lemma lazy_redraw_by_widget_witness :
  second_update_draws Slider.draw Slider.update (sample_env 50)
    (Slider.mk 0 5 stepsize_45 10 90 None None)
  <> [].
Proof.
  apply (proj1 (proj2 (proj2 (proj2 (proj2 (proj2
           (lazy_redraw_by_widget (sample_env 50)))))))).
  simpl. discriminate.
Defined.

(** ** Slider *)

Lemma range_In (n : nat) :
  forall lo z, lo <= z < lo + Z.of_nat n -> In z (range lo n).
Proof.
  induction n as [|n IH]; intros lo z H.
  - simpl in H. lia.
  - cbn [range]. destruct (Z.eq_dec lo z) as [E|E]; [left; exact E|].
    right. apply IH. lia.
Qed.

Lemma position_quotient (p : positive) (tx x : Z) :
  (inject_Z (tx - (x + 20)) / (inject_Z 180 / inject_Z (Z.pos p))
   == ((tx - x - 20) * Z.pos p) # 180)%Q.
Proof.
  remember (tx - (x + 20)) as d eqn:Ed.
  remember ((tx - x - 20) * Z.pos p) as N eqn:EN.
  unfold Qeq, Qdiv, Qminus, Qplus, Qmult, Qinv, Qopp, inject_Z. simpl.
  subst. rewrite ?Pos2Z.inj_mul. ring.
Qed.




(** The two roundings differ by at most one, and only at a tie. *)
Lemma round_down_le_up (M : Z) :
  - ((180 - 2 * M) / 360) <= (2 * M + 180) / 360
  /\ (2 * M + 180) / 360 <= - ((180 - 2 * M) / 360) + 1.
Proof.
  pose proof (Z.div_mod (2 * M + 180) 360 ltac:(lia)) as H1.
  pose proof (Z.mod_pos_bound (2 * M + 180) 360 ltac:(lia)) as H2.
  pose proof (Z.div_mod (180 - 2 * M) 360 ltac:(lia)) as H3.
  pose proof (Z.mod_pos_bound (180 - 2 * M) 360 ltac:(lia)) as H4.
  lia.
Qed.

Lemma round_up_le_next_down (M1 M2 : Z) :
  M1 < M2 -> (2 * M1 + 180) / 360 <= - ((180 - 2 * M2) / 360).
Proof.
  intros H.
  pose proof (Z.div_mod (2 * M1 + 180) 360 ltac:(lia)) as H1.
  pose proof (Z.mod_pos_bound (2 * M1 + 180) 360 ltac:(lia)) as H2.
  pose proof (Z.div_mod (180 - 2 * M2) 360 ltac:(lia)) as H3.
  pose proof (Z.mod_pos_bound (180 - 2 * M2) 360 ltac:(lia)) as H4.
  lia.
Qed.

Lemma clamp_monotone (lo hi a b : Z) :
  lo <= hi -> a <= b -> clamp lo hi a <= clamp lo hi b.
Proof.
  intros Hh Hab. unfold clamp.
  destruct (a <? lo) eqn:E1; destruct (b <? lo) eqn:E2;
    destruct (a >? hi) eqn:E3; destruct (b >? hi) eqn:E4; lia.
Qed.

Lemma clamp_range (lo hi a : Z) : lo <= hi -> lo <= clamp lo hi a <= hi.
Proof.
  intros Hh. unfold clamp.
  destruct (a <? lo) eqn:E1; destruct (a >? hi) eqn:E3; lia.
Qed.

Lemma Slider_touch_eq (env : Env) (s : Slider.t) (event : Event) :
  Slider.touch event env s
  = match Slider.touch_value s (event_1 event) with
    | Ok v => (Ok tt, Slider.set_value v s, [])
    | Raise e => (Raise e, s, [])
    end.
Proof.
  unfold Slider.touch, bind, get_self, lift, put_self.
  destruct (Slider.touch_value s (event_1 event)); reflexivity.
Qed.

Lemma touch_value_fields (s s' : Slider.t) (tx : Z) :
  Slider._steps s' = Slider._steps s ->
  Slider._stepsize s' = Slider._stepsize s ->
  Slider._x s' = Slider._x s ->
  Slider.touch_value s' tx = Slider.touch_value s tx.
Proof.
  intros H1 H2 H3. unfold Slider.touch_value. rewrite H1, H2, H3.
  reflexivity.
Qed.

(** The step size of a slider with five steps. *)
Lemma five_steps_stepsize : int_true_div _SLIDER_TRACK (5 - 1) = Ok stepsize_45.
Proof. vm_compute. reflexivity. Qed.

(** Every touch on screen, for every slider of 2 to 181 steps at the
    default position [x = 10], and for the slider of five steps at every
    position where it fits on the screen. *)
Lemma default_position_table :
  forallb (fun n => forallb (nearest_step_stored n 10) (range 0 240))
    (range 2 180) = true.
Proof. vm_compute. reflexivity. Qed.


Lemma nearest_step_stored_frac (s : Slider.t) (tx : Z) :
  slider_geometry s ->
  nearest_step_stored (Slider._steps s) (Slider._x s) tx = true ->
  exists v,
    Slider.touch_value s tx = Ok v
    /\ (v = clamp 0 (Slider._steps s - 1)
              ((2 * ((tx - Slider._x s - 20) * (Slider._steps s - 1)) + 180)
               / 360)
        \/ v = clamp 0 (Slider._steps s - 1)
                 (- ((180
                      - 2 * ((tx - Slider._x s - 20) * (Slider._steps s - 1)))
                     / 360))).
Proof.
  intros [Hs Hss] H.
  unfold nearest_step_stored, Slider.__init__ in H.
  rewrite Hss in H. cbn [and_then] in H.
  rewrite (touch_value_fields s
             (Slider.mk 0 (Slider._steps s) (Slider._stepsize s)
                (Slider._x s) 90 None None) tx eq_refl eq_refl eq_refl) in H.
  destruct (Slider.touch_value s tx) as [v|e]; [|discriminate].
  exists v. split; [reflexivity|].
  cbv zeta in H. apply orb_true_iff in H.
  destruct H as [H|H]; apply Z.eqb_eq in H; [left|right]; exact H.
Qed.


Lemma default_position_stored (s : Slider.t) (tx : Z) :
  2 <= Slider._steps s <= 181 ->
  Slider._x s = 10 ->
  0 <= tx < 240 ->
  nearest_step_stored (Slider._steps s) (Slider._x s) tx = true.
Proof.
  intros Hs Hx Htx. rewrite Hx.
  assert (I1 : In (Slider._steps s) (range 2 180))
    by (apply range_In; simpl; lia).
  assert (I2 : In tx (range 0 240)) by (apply range_In; simpl; lia).
  pose proof (proj1 (forallb_forall
                       (fun n => forallb (nearest_step_stored n 10)
                                   (range 0 240))
                       (range 2 180))
                default_position_table (Slider._steps s) I1) as T.
  cbv beta in T.
  exact (proj1 (forallb_forall (nearest_step_stored (Slider._steps s) 10)
                  (range 0 240)) T tx I2).
Qed.







(** Read with Python's own [round], which sends a tie to the even
    integer, the formula also fails on a slider of three steps: the touch
    at [tx = 75] is half a step from the left edge, [round] gives 0 and
    the slider stores 1. *)
Example Slider_touch_3_steps_at_75 :
  forall s, Slider.__init__ 3 10 90 None = Ok s ->
  Slider.value (self_of (Slider.touch (mkEvent 0 75 100) (sample_env 50) s))
  = 1
  /\ (slider_position s 75 == 1 # 2)%Q
  /\ round_half_even (slider_position s 75) = 0.
Proof.
  intros s H. vm_compute in H. injection H as <-.
  repeat split; vm_compute; congruence.
Qed.

Example Slider_touch_at_100 :
  forall s, Slider.__init__ 5 10 90 None = Ok s ->
  Slider.value (self_of (Slider.touch (mkEvent 0 100 100) (sample_env 50) s))
  = 2.
Proof. intros s H. vm_compute in H. injection H as <-. reflexivity. Qed.

(** ** Spinner *)

Lemma Spinner_touch_inside (env : Env) (sp : Spinner.t) (event : Event) :
  let '(x0, y0, mn, mx, _) := Spinner._im sp in
  let x := event_1 event in
  let y := event_2 event in
  x0 <= x < x0 + 60 ->
  y0 <= y < y0 + 120 ->
  result_of (Spinner.touch event env sp) = Ok true
  /\ Spinner.value (self_of (Spinner.touch event env sp))
     = if y <? y0 + 60
       then (if Spinner.value sp + 1 >? mx then mn else Spinner.value sp + 1)
       else (if Spinner.value sp - 1 <? mn then mx - 1
             else Spinner.value sp - 1).
Proof.
  destruct sp as [[[[[x0 y0] mn] mx] field] v]. cbn [Spinner._im Spinner.value].
  intros Hx Hy.
  assert (Hin : (event_1 event >=? x0) && (event_1 event <? x0 + 60)
                && (event_2 event >=? y0) && (event_2 event <? y0 + 120)
                = true).
  { rewrite !andb_true_iff. rewrite !Z.geb_le, !Z.ltb_lt. lia. }
  unfold Spinner.touch, Spinner.update. run.
  cbn [Spinner._im Spinner.value Spinner.set_value]. rewrite Hin.
  destruct (event_2 event <? y0 + 60);
    [destruct (v + 1 >? mx)|destruct (v - 1 <? mn)];
    cbn [Spinner._im Spinner.value Spinner.set_value];
    split_ifs; split; reflexivity.
Qed.

(** C6: a spinner over [0, 3) showing 2, touched in its upper half, goes
    to 3 and not back to 0: the increment wraps only once the value
    exceeds [mx], while the decrement wraps to [mx - 1].  Three upper
    touches take a fresh spinner from 0 to 3, outside [0, 3). *)
Theorem Spinner_increment_from_2_reaches_3 :
  let env := sample_env 50 in
  let upper := mkEvent 0 30 30 in
  let lower := mkEvent 0 30 90 in
  let r := Spinner.touch upper env (Spinner.mk (0, 0, 0, 3, 1) 2) in
  result_of r = Ok true
  /\ Spinner.value (self_of r) = 3
  /\ Spinner.value
       (self_of (Spinner.touch lower env (Spinner.mk (0, 0, 0, 3, 1) 0))) = 2
  /\ Spinner.value
       (snd (touches Spinner.touch [upper; upper; upper] env
               (Spinner.__init__ 0 0 0 3 1))) = 3.
Proof. repeat split. Qed.

(** ** Button and ConfirmationView *)

Lemma yes_hit_iff (event : Event) :
  Button.hit yes_button event = true
  <-> 10 <= event_1 event < 120 /\ 130 <= event_2 event < 195.
Proof.
  unfold Button.hit, yes_button, Button.hit_box, Button.__init__.
  cbn [Button._im]. rewrite !andb_true_iff, !Z.geb_le, !Z.ltb_lt. lia.
Qed.

Lemma no_hit_iff (event : Event) :
  Button.hit no_button event = true
  <-> 120 <= event_1 event < 230 /\ 130 <= event_2 event < 195.
Proof.
  unfold Button.hit, no_button, Button.hit_box, Button.__init__.
  cbn [Button._im]. rewrite !andb_true_iff, !Z.geb_le, !Z.ltb_lt. lia.
Qed.

Lemma hits_disjoint (event : Event) :
  Button.hit yes_button event && Button.hit no_button event = false.
Proof.
  destruct (Button.hit yes_button event) eqn:Ey; [|reflexivity].
  destruct (Button.hit no_button event) eqn:En; [|reflexivity].
  apply yes_hit_iff in Ey. apply no_hit_iff in En. lia.
Qed.

Lemma Button_touch_eq (env : Env) (b : Button.t) (event : Event) :
  Button.touch event env b = (Ok (Button.hit b event), b, []).
Proof.
  unfold Button.touch. run. destruct (Button.hit b event); reflexivity.
Qed.

(** What [touch] does to a view that owns the two standard buttons. *)
Lemma ConfirmationView_touch_eq (env : Env) (a val : bool) (event : Event) :
  let v := ConfirmationView.mk a val yes_button no_button in
  ConfirmationView.touch event env v =
  if negb a then (Ok false, v, [])
  else if Button.hit yes_button event
       then (Ok true, ConfirmationView.mk false true yes_button no_button, [])
       else if Button.hit no_button event
            then (Ok true,
                  ConfirmationView.mk false false yes_button no_button, [])
            else (Ok false, v, []).
Proof.
  unfold ConfirmationView.touch. run.
  cbn [ConfirmationView.active]. destruct a; [|reflexivity].
  cbn [negb ConfirmationView._yes ConfirmationView._no].
  rewrite !Button_touch_eq.
  destruct (Button.hit yes_button event); [reflexivity|].
  cbn [ConfirmationView.set_yes ConfirmationView._no ConfirmationView._yes
       ConfirmationView.active ConfirmationView.value].
  rewrite !Button_touch_eq.
  destruct (Button.hit no_button event); reflexivity.
Qed.

Lemma touch_no_first_eq (env : Env) (a val : bool) (event : Event) :
  let v := ConfirmationView.mk a val yes_button no_button in
  touch_no_first event env v =
  if negb a then (Ok false, v, [])
  else if Button.hit no_button event
       then (Ok true,
             ConfirmationView.mk false false yes_button no_button, [])
       else if Button.hit yes_button event
            then (Ok true,
                  ConfirmationView.mk false true yes_button no_button, [])
            else (Ok false, v, []).
Proof.
  unfold touch_no_first. run.
  cbn [ConfirmationView.active]. destruct a; [|reflexivity].
  cbn [negb ConfirmationView._yes ConfirmationView._no].
  rewrite !Button_touch_eq.
  destruct (Button.hit no_button event); [reflexivity|].
  cbn [ConfirmationView.set_no ConfirmationView._no ConfirmationView._yes
       ConfirmationView.active ConfirmationView.value].
  rewrite !Button_touch_eq.
  destruct (Button.hit yes_button event); reflexivity.
Qed.

Lemma own_buttons_inv (v : ConfirmationView.t) :
  own_buttons v ->
  v = ConfirmationView.mk (ConfirmationView.active v)
        (ConfirmationView.value v) yes_button no_button.
Proof. destruct v as [a val y n]. intros [Hy Hn]. simpl in *. subst. reflexivity. Qed.

Lemma ConfirmationView_draw_eq (env : Env) (v : ConfirmationView.t)
  (message : string) :
  let r := ConfirmationView.draw message env v in
  result_of r = Ok tt
  /\ self_of r = ConfirmationView.set_active true v.
Proof.
  destruct v as [a val [[[[[x1 y1] w1] h1] l1]] [[[[[x2 y2] w2] h2] l2]]].
  unfold ConfirmationView.draw, Button.draw. run. split; reflexivity.
Qed.

(** C8: the view is a two-state machine.  Inactive, [touch] answers
    not-consumed and changes nothing.  [draw(message)] makes the view
    active and keeps [value].  Active, a touch on Yes stores true, a touch
    on No stores false, either makes the view inactive and is consumed; a
    touch on neither is not consumed and leaves the view as it is.  So
    after [draw], a touch on No stores false and is consumed, and the same
    touch again is not consumed. *)
Theorem ConfirmationView_state_machine :
  (forall (env : Env) (v : ConfirmationView.t) (event : Event),
      ConfirmationView.active v = false ->
      ConfirmationView.touch event env v = (Ok false, v, []))
  /\ (forall (env : Env) (v : ConfirmationView.t) (message : string),
         result_of (ConfirmationView.draw message env v) = Ok tt
         /\ self_of (ConfirmationView.draw message env v)
            = ConfirmationView.set_active true v)
  /\ (forall (env : Env) (v : ConfirmationView.t) (event : Event),
         own_buttons v ->
         ConfirmationView.active v = true ->
         (Button.hit yes_button event = true ->
          ConfirmationView.touch event env v
          = (Ok true,
             ConfirmationView.set_value true
               (ConfirmationView.set_active false v), []))
         /\ (Button.hit no_button event = true ->
             ConfirmationView.touch event env v
             = (Ok true,
                ConfirmationView.set_value false
                  (ConfirmationView.set_active false v), []))
         /\ (Button.hit yes_button event = false ->
             Button.hit no_button event = false ->
             ConfirmationView.touch event env v = (Ok false, v, [])))
  /\ (forall (env : Env) (v : ConfirmationView.t) (message : string)
             (event : Event),
         own_buttons v ->
         Button.hit no_button event = true ->
         let v1 := self_of (ConfirmationView.draw message env v) in
         let r1 := ConfirmationView.touch event env v1 in
         let r2 := ConfirmationView.touch event env (self_of r1) in
         ConfirmationView.active v1 = true
         /\ result_of r1 = Ok true
         /\ ConfirmationView.value (self_of r1) = false
         /\ ConfirmationView.active (self_of r1) = false
         /\ result_of r2 = Ok false
         /\ self_of r2 = self_of r1).
Proof.
  assert (Hinactive : forall env v event,
             ConfirmationView.active v = false ->
             ConfirmationView.touch event env v = (Ok false, v, [])).
  { intros env v event Ha. unfold ConfirmationView.touch. run.
    rewrite Ha. reflexivity. }
  assert (Hno : forall event, Button.hit no_button event = true ->
                            Button.hit yes_button event = false).
  { intros event Hn. pose proof (hits_disjoint event) as Hd.
    rewrite Hn, andb_true_r in Hd. exact Hd. }
  split; [exact Hinactive|].
  split; [intros env v message; apply ConfirmationView_draw_eq|].
  split.
  - intros env v event Hb Ha.
    rewrite (own_buttons_inv v Hb), ConfirmationView_touch_eq.
    cbn [ConfirmationView.active ConfirmationView.value
         ConfirmationView.set_active ConfirmationView.set_value
         ConfirmationView._yes ConfirmationView._no].
    rewrite Ha. cbn [negb].
    split; [|split].
    + intros Hy. rewrite Hy. reflexivity.
    + intros Hn. rewrite (Hno event Hn), Hn. reflexivity.
    + intros Hy Hn. rewrite Hy, Hn. reflexivity.
  - intros env v message event Hb Hn v1 r1 r2.
    assert (E1 : v1 = ConfirmationView.mk true (ConfirmationView.value v)
                        yes_button no_button).
    { subst v1. rewrite (proj2 (ConfirmationView_draw_eq env v message)).
      rewrite (own_buttons_inv v Hb). reflexivity. }
    assert (E2 : r1 = (Ok true,
                       ConfirmationView.mk false false yes_button no_button,
                       [])).
    { subst r1. rewrite E1, ConfirmationView_touch_eq.
      cbn [negb]. rewrite (Hno event Hn), Hn. reflexivity. }
    subst r2. rewrite E2, E1. cbn [self_of fst snd].
    rewrite (Hinactive env
               (ConfirmationView.mk false false yes_button no_button)
               event eq_refl).
    repeat split.
Qed.

Lemma ConfirmationView_state_machine_witness :
  let env := sample_env 50 in
  let event := mkEvent 0 175 160 in
  let v1 := self_of (ConfirmationView.draw "Reset?" env
                       ConfirmationView.__init__) in
  let r1 := ConfirmationView.touch event env v1 in
  let r2 := ConfirmationView.touch event env (self_of r1) in
  ConfirmationView.active v1 = true
  /\ result_of r1 = Ok true
  /\ ConfirmationView.value (self_of r1) = false
  /\ ConfirmationView.active (self_of r1) = false
  /\ result_of r2 = Ok false
  /\ self_of r2 = self_of r1.
Proof.
  apply (proj2 (proj2 (proj2 ConfirmationView_state_machine))
           (sample_env 50) ConfirmationView.__init__ "Reset?"%string
           (mkEvent 0 175 160)).
  - split; reflexivity.
  - reflexivity.
Defined.

(** C10: the hit boxes of the two buttons of a ConfirmationView are
    [10, 120) x [130, 195) for Yes and [120, 230) x [130, 195) for No: they
    meet at x = 120 and share no point.  No touch hits both, and asking No
    before Yes gives the same answer, value and state as asking Yes
    first. *)
Theorem ConfirmationView_buttons_disjoint :
  Button.hit_box (ConfirmationView._yes ConfirmationView.__init__)
  = (10, 120, 130, 195)
  /\ Button.hit_box (ConfirmationView._no ConfirmationView.__init__)
     = (120, 230, 130, 195)
  /\ (forall event : Event,
         Button.hit yes_button event && Button.hit no_button event = false)
  /\ (forall y : Z,
         130 <= y < 195 ->
         Button.hit yes_button (mkEvent 0 119 y) = true
         /\ Button.hit no_button (mkEvent 0 119 y) = false
         /\ Button.hit yes_button (mkEvent 0 120 y) = false
         /\ Button.hit no_button (mkEvent 0 120 y) = true)
  /\ (forall (env : Env) (a val : bool) (event : Event),
         touch_no_first event env
           (ConfirmationView.mk a val yes_button no_button)
         = ConfirmationView.touch event env
             (ConfirmationView.mk a val yes_button no_button)).
Proof.
  split; [reflexivity|]. split; [reflexivity|].
  split; [exact hits_disjoint|].
  split.
  - intros y Hy.
    assert (H1 : Button.hit yes_button (mkEvent 0 119 y) = true)
      by (apply yes_hit_iff; simpl; lia).
    assert (H2 : Button.hit no_button (mkEvent 0 120 y) = true)
      by (apply no_hit_iff; simpl; lia).
    pose proof (hits_disjoint (mkEvent 0 119 y)) as D1.
    pose proof (hits_disjoint (mkEvent 0 120 y)) as D2.
    rewrite H1 in D1. rewrite H2, andb_true_r in D2.
    repeat split; assumption.
  - intros env a val event.
    rewrite touch_no_first_eq, ConfirmationView_touch_eq.
    pose proof (hits_disjoint event) as D.
    destruct a; cbn [negb]; [|reflexivity].
    destruct (Button.hit yes_button event);
      destruct (Button.hit no_button event);
      try reflexivity; discriminate D.
Qed.

Lemma ConfirmationView_buttons_disjoint_witness :
  Button.hit yes_button (mkEvent 0 119 160) = true
  /\ Button.hit no_button (mkEvent 0 119 160) = false
  /\ Button.hit yes_button (mkEvent 0 120 160) = false
  /\ Button.hit no_button (mkEvent 0 120 160) = true.
Proof.
  apply (proj1 (proj2 (proj2 (proj2 ConfirmationView_buttons_disjoint))) 160).
  lia.
Defined.

(** ** Card *)

(** Touching a card that is on turns it off, saves its icon and shows the
    off bitmap; touching it again restores the icon.  Each touch repaints
    the icon and the state label only and is consumed, wherever it lands. *)
Lemma Card_touch_on (env : Env) (i : Icon) (title : string) (event : Event) :
  let c := Card.__init__ (Some i) title "On" in
  let r1 := Card.touch event env c in
  let r2 := Card.touch event env (self_of r1) in
  result_of r1 = Ok true
  /\ Card.state (self_of r1) = "Off"%string
  /\ Card.icon (self_of r1) = Some light_off_50
  /\ draws_of r1 = [set_color 0xffff (Some 0xffff);
                    blit light_off_50 30 30 None None None;
                    set_color (theme env "mid") (Some 0xffff);
                    draw_string "Off" 40 180 None]
  /\ result_of r2 = Ok true
  /\ Card.state (self_of r2) = "On"%string
  /\ Card.icon (self_of r2) = Some i.
Proof. repeat split. Qed.

(** C9: a card built in the "Off" state raises on its first touch:
    [__init__] never assigns [on_icon], and the branch that turns the card
    on reads it.  The state has been flipped by then and nothing was
    repainted. *)
Theorem Card_touch_off_raises (env : Env) (i : option Icon) (title : string)
  (event : Event) :
  let r := Card.touch event env (Card.__init__ i title "Off") in
  result_of r = Raise AttributeError
  /\ Card.state (self_of r) = "On"%string
  /\ calls_of r = [].
Proof. repeat split. Qed.

(** With five steps no touch position lies halfway between two steps, so
    the value [Slider.touch] stores does not depend on how a tie would be
    rounded. *)
Lemma five_steps_no_tie (s : Slider.t) (tx k : Z) :
  Slider._steps s = 5 ->
  ~ (slider_position s tx == inject_Z k + (1 # 2))%Q.
Proof.
  intros H5 H.
  assert (Hp : (slider_position s tx
                == ((tx - Slider._x s - 20) * 4) # 180)%Q).
  { unfold slider_position. rewrite H5. apply (position_quotient 4). }
  rewrite Hp in H. unfold Qeq, Qplus, inject_Z in H. cbn [Qnum Qden] in H.
  lia.
Qed.

(** * Further properties *)

(** ** BatteryMeter *)

Lemma BatteryMeter_update_level (env : Env) (m : BatteryMeter.t) :
  result_of (BatteryMeter.update env m) = Ok tt
  /\ BatteryMeter.level (self_of (BatteryMeter.update env m))
     = if charging env then -1 else battery_level env.
Proof.
  split; [apply BatteryMeter_update_ok|].
  destruct (charging env) eqn:Hc.
  - rewrite (BatteryMeter_update_charging env m Hc).
    destruct (BatteryMeter.level m =? -1) eqn:E; [|reflexivity].
    apply Z.eqb_eq in E. exact E.
  - destruct (Z.eq_dec (battery_level env) (BatteryMeter.level m)) as [E|E].
    + rewrite (BatteryMeter_update_same_level env m Hc E). symmetry. exact E.
    + rewrite (BatteryMeter_update_new_level env m Hc E). reflexivity.
Qed.

(** X1: [BatteryMeter.update] never raises, and whatever the meter
    remembered, it remembers afterwards what the watch reports: [-1] on
    the charger, the sensor level on battery. *)
Theorem BatteryMeter_update_tracks_watch (env : Env) (m : BatteryMeter.t) :
  result_of (BatteryMeter.update env m) = Ok tt
  /\ BatteryMeter.level (self_of (BatteryMeter.update env m))
     = if charging env then -1 else battery_level env.
Proof. apply BatteryMeter_update_level. Qed.

(** X2: [BatteryMeter.draw] forgets the cached level: what it does depends
    on the watch only.  It blits the icon exactly when the watch is on the
    charger or reports a level other than [-2], the value that marks a
    meter never drawn. *)
Theorem BatteryMeter_draw_from_scratch (env : Env) (m m' : BatteryMeter.t) :
  BatteryMeter.draw env m = BatteryMeter.draw env m'
  /\ icon_redrawn (draws_of (BatteryMeter.draw env m))
     = charging env || negb (battery_level env =? -2).
Proof.
  rewrite !BatteryMeter_draw_eq. split; [reflexivity|].
  destruct (charging env) eqn:Hc.
  - rewrite (BatteryMeter_update_charging env _ Hc). reflexivity.
  - cbn [orb].
    destruct (Z.eq_dec (battery_level env) (-2)) as [E|E].
    + rewrite (BatteryMeter_update_same_level env (BatteryMeter.mk (-2)) Hc E).
      rewrite E. reflexivity.
    + assert (E' : battery_level env <> BatteryMeter.level (BatteryMeter.mk (-2)))
        by exact E.
      rewrite (BatteryMeter_update_new_level_draws env _ Hc E').
      unfold icon_redrawn. rewrite existsb_app.
      fold (icon_redrawn (icon_repaint env
              (BatteryMeter.level (BatteryMeter.mk (-2))) (battery_level env))).
      rewrite icon_repaint_redrawn. cbn [BatteryMeter.level].
      apply Z.eqb_neq in E. rewrite E. reflexivity.
Qed.

Lemma bar_rgb_16_bits (lvl : Z) : 0 <= lvl -> 0 <= bar_rgb lvl <= 0xffff.
Proof.
  intros H. unfold bar_rgb.
  assert (0 <= lvl / 3) by (apply Z.div_pos; lia).
  rewrite !Z.shiftl_mul_pow2 by lia.
  change (2 ^ 11) with 2048. change (2 ^ 6) with 64.
  destruct (lvl / 3 >? 31) eqn:E.
  - lia.
  - assert (lvl / 3 <= 31) by (rewrite Z.gtb_ltb in E; apply Z.ltb_ge in E; lia).
    lia.
Qed.

(** X3: on battery with a level in 0..100, every fill of
    [BatteryMeter.update] has a 16-bit colour and stays within the 22
    rows of the track, rows 9 to 30. *)
Theorem BatteryMeter_fills_within_track (env : Env) (m : BatteryMeter.t) :
  charging env = false ->
  0 <= battery_level env <= 100 ->
  Forall (fill_in_rows 9 31) (draws_of (BatteryMeter.update env m)).
Proof.
  intros Hc Hl.
  destruct (Z.eq_dec (battery_level env) (BatteryMeter.level m)) as [E|E].
  - rewrite (BatteryMeter_update_same_level env m Hc E). constructor.
  - rewrite (BatteryMeter_update_new_level_draws env m Hc E).
    apply Forall_app. split.
    + unfold icon_repaint. destruct (_ || _); repeat constructor.
    + unfold bar_repaint.
      pose proof (bar_rgb_16_bits (battery_level env) ltac:(lia)) as Hrgb.
      assert (Hh : 0 <= battery_level env * 22 / 100 <= 22).
      { split; [apply Z.div_pos; lia|].
        apply Z.div_le_upper_bound; lia. }
      remember (battery_level env * 22 / 100) as h eqn:Eh.
      apply Forall_app. split.
      * destruct (18 - h =? 0); repeat constructor; lia.
      * destruct (h =? 0); [constructor|].
        repeat constructor; try lia;
          destruct (_ && _); lia.
Qed.

Lemma BatteryMeter_fills_within_track_witness :
  Forall (fill_in_rows 9 31)
    (draws_of (BatteryMeter.update (sample_env 100) (BatteryMeter.mk 40))).
Proof.
  apply (BatteryMeter_fills_within_track (sample_env 100) (BatteryMeter.mk 40)).
  - reflexivity.
  - simpl. lia.
Defined.

(** X4: the first [update()] on battery after one on the charger always
    repaints the icon, in the warning colour at 5% or less and in the theme
    colour above, whatever level was shown before charging. *)
Theorem BatteryMeter_unplug_repaints_icon (env1 env2 : Env)
  (m : BatteryMeter.t) :
  charging env1 = true ->
  charging env2 = false ->
  0 <= battery_level env2 ->
  let m1 := self_of (BatteryMeter.update env1 m) in
  BatteryMeter.level m1 = -1
  /\ In (blit icons_battery (239 - icon_width env2 icons_battery - 5) 5
           (Some (if battery_level env2 >? 5 then theme env2 "battery"
                  else 0xf800)) None None)
        (draws_of (BatteryMeter.update env2 m1)).
Proof.
  intros H1 H2 Hl m1.
  assert (E1 : BatteryMeter.level m1 = -1).
  { subst m1. rewrite (proj2 (BatteryMeter_update_level env1 m)), H1.
    reflexivity. }
  split; [exact E1|].
  assert (E2 : battery_level env2 <> BatteryMeter.level m1) by lia.
  rewrite (BatteryMeter_update_new_level_draws env2 m1 H2 E2), E1.
  apply in_or_app. left. unfold icon_repaint. left. reflexivity.
Qed.

Lemma BatteryMeter_unplug_repaints_icon_witness :
  In (blit icons_battery (239 - 36 - 5) 5 (Some 0xf800) None None)
     (draws_of (BatteryMeter.update (sample_env 3)
                  (self_of (BatteryMeter.update
                              (mkEnv (localtime (sample_env 3)) true 3 false
                                 false (fun _ => 0xffff) (fun c _ => c)
                                 (fun c => c) (fun _ _ => [0%nat])
                                 (fun _ => 36))
                              (BatteryMeter.mk 40))))).
Proof.
  apply (BatteryMeter_unplug_repaints_icon
           (mkEnv (localtime (sample_env 3)) true 3 false false
              (fun _ => 0xffff) (fun c _ => c) (fun c => c)
              (fun _ _ => [0%nat]) (fun _ => 36))
           (sample_env 3) (BatteryMeter.mk 40)).
  - reflexivity.
  - reflexivity.
  - simpl. lia.
Defined.

(** ** Clock *)

Lemma Clock_draw_run (env : Env) (c : Clock.t) :
  Clock.draw env c =
  (Ok tt,
   Clock.mk (Some (localtime env)) (Clock.enabled c),
   Rtc_get_localtime ::
   map Drawable (if Clock.enabled c then clock_render env (localtime env)
                 else [])).
Proof.
  unfold Clock.draw, bind, put_self, get_self, pass, ret.
  rewrite Clock_update_changed by (cbn; discriminate).
  cbn [Clock.on_screen Clock.enabled Clock.needs_render app].
  rewrite andb_true_r, app_nil_r. reflexivity.
Qed.

(** X5: [Clock.draw] answers nothing (Python's [None]: the method has no
    return statement), reads the current time once and remembers it; it
    renders the text whenever the clock is enabled, whatever was on
    screen before, and draws nothing when the clock is disabled. *)
Theorem Clock_draw_from_scratch (env : Env) (c : Clock.t) :
  Clock.draw env c =
  (Ok tt,
   Clock.mk (Some (localtime env)) (Clock.enabled c),
   Rtc_get_localtime ::
   map Drawable (if Clock.enabled c then clock_render env (localtime env)
                 else [])).
Proof. apply Clock_draw_run. Qed.

Lemma format_02_two_chars (n : Z) :
  0 <= n < 100 -> String.length (format_02 n) = 2%nat.
Proof.
  intros H.
  assert (Hall : forallb (fun k => Nat.eqb (String.length
                                              (format_02 (Z.of_nat k))) 2)
                   (seq 0 100) = true) by (vm_compute; reflexivity).
  rewrite forallb_forall in Hall.
  specialize (Hall (Z.to_nat n)).
  rewrite Z2Nat.id in Hall by lia.
  apply Nat.eqb_eq, Hall, in_seq. lia.
Qed.

Lemma string_length_append (a b : string) :
  String.length (a ++ b) = (String.length a + String.length b)%nat.
Proof. induction a as [|c a IH]; simpl; [|rewrite IH]; reflexivity. Qed.

(** X6: for hours and minutes between 0 and 99 the text of the clock is
    five characters long with the colon in the middle, so it always fills
    the same box. *)
Theorem clock_text_five_chars (now : TimeTuple) :
  0 <= HH now < 100 ->
  0 <= MM now < 100 ->
  String.length (clock_text now) = 5%nat
  /\ String.get 2 (clock_text now) = Some ":"%char.
Proof.
  intros Hh Hm. unfold clock_text.
  pose proof (format_02_two_chars (HH now) Hh) as Lh.
  pose proof (format_02_two_chars (MM now) Hm) as Lm.
  split.
  - rewrite !string_length_append, Lh, Lm. reflexivity.
  - destruct (format_02 (HH now)) as [|a [|b [|c s]]]; try discriminate Lh.
    reflexivity.
Qed.

Lemma clock_text_five_chars_witness :
  String.length (clock_text (localtime (sample_env 50))) = 5%nat
  /\ String.get 2 (clock_text (localtime (sample_env 50))) = Some ":"%char.
Proof.
  apply (clock_text_five_chars (localtime (sample_env 50))); simpl; lia.
Defined.

(** ** NotificationBar *)

(** X7: [NotificationBar.update] leaves the widget as it is, reads the
    connection once and nothing else, and shows the bluetooth icon exactly
    when the watch is connected and the alert icon exactly when
    notifications are pending. *)
Theorem NotificationBar_shows_flags (env : Env) (n : NotificationBar.t) :
  let r := NotificationBar.update env n in
  result_of r = Ok tt
  /\ self_of r = n
  /\ blits icons_bluetooth (draws_of r) = connected env
  /\ blits icons_alert (draws_of r) = notifications env
  /\ (forall c, In c (calls_of r) -> c = Watch_connected \/ exists d, c = Drawable d).
Proof.
  cbv zeta. rewrite NotificationBar_update_eq.
  split; [reflexivity|]. split; [reflexivity|].
  unfold draws_of, calls_of. cbn [snd drawing_calls drawing_call].
  rewrite drawing_calls_map.
  destruct (NotificationBar._pos n) as [x y].
  split; [|split].
  - destruct (connected env); destruct (notifications env); reflexivity.
  - destruct (connected env); destruct (notifications env); reflexivity.
  - intros c [Hc|Hc]; [left; symmetry; exact Hc|].
    right. apply in_map_iff in Hc. destruct Hc as (d & Hd & _).
    exists d. symmetry. exact Hd.
Qed.

(** ** StatusBar *)

Lemma StatusBar_draw_eq (env : Env) (sb : StatusBar.t) :
  let rc := Clock.draw env (StatusBar._clock sb) in
  let rm := BatteryMeter.draw env (StatusBar._meter sb) in
  let rn := NotificationBar.draw env (StatusBar._notif sb) in
  StatusBar.draw env sb =
  (Ok tt, StatusBar.mk (self_of rc) (self_of rm) (self_of rn),
   calls_of rc ++ calls_of rm ++ calls_of rn).
Proof.
  intros rc rm rn.
  assert (Hm : result_of rm = Ok tt)
    by (subst rm; rewrite BatteryMeter_draw_eq; apply BatteryMeter_update_ok).
  assert (Hn : result_of rn = Ok tt)
    by (subst rn; unfold NotificationBar.draw;
        rewrite NotificationBar_update_eq; reflexivity).
  assert (Hc : exists c l, rc = (Ok tt, c, l))
    by (subst rc; rewrite Clock_draw_run; do 2 eexists; reflexivity).
  unfold StatusBar.draw, bind, on_child. fold rc.
  destruct Hc as (c & l & Hc). rewrite Hc.
  cbn [StatusBar.set_clock StatusBar._meter StatusBar._notif
       StatusBar._clock StatusBar.set_meter StatusBar.set_notif].
  fold rm. destruct rm as [[[[]|e] m] lm]; [|discriminate Hm].
  cbn [StatusBar.set_clock StatusBar._meter StatusBar._notif
       StatusBar._clock StatusBar.set_meter StatusBar.set_notif].
  fold rn. destruct rn as [[[[]|e] n] ln]; [|discriminate Hn].
  reflexivity.
Qed.

(** X8: [StatusBar.draw] never raises and repaints clock, battery meter
    and notification bar, in that order.  An [update()] right after it,
    against the same watch, reads the rtc and does nothing else. *)
Theorem StatusBar_draw_then_update_is_silent (env : Env) (sb : StatusBar.t) :
  let r := StatusBar.draw env sb in
  result_of r = Ok tt
  /\ calls_of r
     = calls_of (Clock.draw env (StatusBar._clock sb))
       ++ calls_of (BatteryMeter.draw env (StatusBar._meter sb))
       ++ calls_of (NotificationBar.draw env (StatusBar._notif sb))
  /\ StatusBar.update env (self_of r) = (Ok None, self_of r, [Rtc_get_localtime]).
Proof.
  cbv zeta. rewrite StatusBar_draw_eq.
  split; [reflexivity|]. split; [reflexivity|].
  cbn [self_of fst snd].
  rewrite Clock_draw_run. cbn [self_of fst snd].
  unfold StatusBar.update, StatusBar.clock_update, bind, on_child, ret.
  cbn [StatusBar._clock].
  rewrite Clock_update_unchanged by reflexivity.
  reflexivity.
Qed.

Lemma BatteryMeter_update_no_text (env : Env) (m : BatteryMeter.t) :
  existsb is_text (draws_of (BatteryMeter.update env m)) = false.
Proof.
  destruct (charging env) eqn:Hc.
  - rewrite (BatteryMeter_update_charging env m Hc).
    destruct (_ =? -1); reflexivity.
  - destruct (Z.eq_dec (battery_level env) (BatteryMeter.level m)) as [E|E].
    + rewrite (BatteryMeter_update_same_level env m Hc E). reflexivity.
    + rewrite (BatteryMeter_update_new_level_draws env m Hc E).
      unfold icon_repaint, bar_repaint.
      remember (battery_level env * 22 / 100) as h eqn:Eh.
      destruct ((BatteryMeter.level m <? 0)
                || xorb (battery_level env >? 5) (BatteryMeter.level m >? 5));
        destruct (18 - h =? 0); destruct (h =? 0); reflexivity.
Qed.

Lemma NotificationBar_update_no_text (env : Env) (n : NotificationBar.t) :
  existsb is_text (draws_of (NotificationBar.update env n)) = false.
Proof.
  rewrite NotificationBar_update_eq.
  unfold draws_of, calls_of. cbn [snd drawing_calls drawing_call].
  rewrite drawing_calls_map.
  destruct (NotificationBar._pos n) as [x y].
  destruct (connected env); destruct (notifications env); reflexivity.
Qed.

Lemma StatusBar_update_eq (env : Env) (sb : StatusBar.t) :
  StatusBar.update env sb =
  match Clock.update env (StatusBar._clock sb) with
  | (Ok (Some now), c, l) =>
      (Ok (Some now),
       StatusBar.mk c
         (self_of (BatteryMeter.update env (StatusBar._meter sb)))
         (self_of (NotificationBar.update env (StatusBar._notif sb))),
       l ++ calls_of (BatteryMeter.update env (StatusBar._meter sb))
         ++ calls_of (NotificationBar.update env (StatusBar._notif sb)))
  | (Ok None, c, l) => (Ok None, StatusBar.set_clock c sb, l ++ [])
  | (Raise e, c, l) => (Raise e, StatusBar.set_clock c sb, l)
  end.
Proof.
  pose proof (BatteryMeter_update_ok env (StatusBar._meter sb)) as Hm.
  assert (Hn : result_of (NotificationBar.update env (StatusBar._notif sb))
               = Ok tt) by (rewrite NotificationBar_update_eq; reflexivity).
  unfold StatusBar.update, StatusBar.clock_update,
    StatusBar.meter_update, StatusBar.notif_update, bind, on_child, ret.
  destruct (Clock.update env (StatusBar._clock sb)) as [[[[now|]|e] c] l];
    try reflexivity.
  cbn [StatusBar.set_clock StatusBar._meter StatusBar._notif
       StatusBar._clock StatusBar.set_meter StatusBar.set_notif].
  destruct (BatteryMeter.update env (StatusBar._meter sb))
    as [[[[]|e] m] lm]; [|discriminate Hm].
  cbn [StatusBar.set_clock StatusBar._meter StatusBar._notif
       StatusBar._clock StatusBar.set_meter StatusBar.set_notif].
  destruct (NotificationBar.update env (StatusBar._notif sb))
    as [[[[]|e] n] ln]; [|discriminate Hn].
  unfold self_of, calls_of. cbn [fst snd].
  rewrite app_nil_r. reflexivity.
Qed.

(** X9: once the [clock] property is set to false, neither [draw()] nor
    [update()] of the status bar draws any text, while [update()] still
    answers the time whenever it differs from the one remembered. *)
Theorem StatusBar_clock_off_draws_no_text (env env' : Env) (sb : StatusBar.t) :
  let sb1 := self_of (StatusBar.clock_setter false env' sb) in
  StatusBar.clock sb1 = false
  /\ existsb is_text (draws_of (StatusBar.draw env sb1)) = false
  /\ existsb is_text (draws_of (StatusBar.update env sb1)) = false
  /\ (Clock.on_screen (StatusBar._clock sb) <> Some (localtime env) ->
      result_of (StatusBar.update env sb1) = Ok (Some (localtime env))).
Proof.
  intros sb1.
  assert (E1 : sb1 = StatusBar.mk
                       (Clock.mk (Clock.on_screen (StatusBar._clock sb)) false)
                       (StatusBar._meter sb) (StatusBar._notif sb))
    by reflexivity.
  split; [rewrite E1; reflexivity|].
  split; [|split].
  - rewrite StatusBar_draw_eq. unfold draws_of, calls_of. cbn [snd].
    rewrite !drawing_calls_app, !existsb_app.
    rewrite E1. cbn [StatusBar._clock StatusBar._meter StatusBar._notif].
    rewrite Clock_draw_run, BatteryMeter_draw_eq.
    unfold NotificationBar.draw.
    fold (calls_of (BatteryMeter.update env (BatteryMeter.mk (-2)))).
    fold (draws_of (BatteryMeter.update env (BatteryMeter.mk (-2)))).
    fold (calls_of (NotificationBar.update env (StatusBar._notif sb))).
    fold (draws_of (NotificationBar.update env (StatusBar._notif sb))).
    rewrite BatteryMeter_update_no_text, NotificationBar_update_no_text.
    reflexivity.
  - rewrite StatusBar_update_eq, E1.
    cbn [StatusBar._clock StatusBar._meter StatusBar._notif].
    destruct (on_screen_dec (Clock.mk (Clock.on_screen (StatusBar._clock sb))
                               false) (localtime env)) as [E|E].
    + rewrite (Clock_update_unchanged env _ E). reflexivity.
    + rewrite (Clock_update_changed env _ E).
      unfold draws_of at 1. unfold calls_of at 1. cbn [snd Clock.enabled andb].
      change (Rtc_get_localtime :: map Drawable [])
        with [Rtc_get_localtime].
      rewrite !drawing_calls_app, !existsb_app.
      fold (draws_of (BatteryMeter.update env (StatusBar._meter sb))).
      fold (draws_of (NotificationBar.update env (StatusBar._notif sb))).
      rewrite BatteryMeter_update_no_text, NotificationBar_update_no_text.
      reflexivity.
  - intros Hd. rewrite StatusBar_update_eq, E1.
    cbn [StatusBar._clock StatusBar._meter StatusBar._notif].
    rewrite (Clock_update_changed env
               (Clock.mk (Clock.on_screen (StatusBar._clock sb)) false) Hd).
    reflexivity.
Qed.

Lemma StatusBar_clock_off_draws_no_text_witness :
  result_of (StatusBar.update (sample_env 50)
               (self_of (StatusBar.clock_setter false (sample_env 50)
                           StatusBar.__init__)))
  = Ok (Some (localtime (sample_env 50))).
Proof.
  apply (proj2 (proj2 (proj2 (StatusBar_clock_off_draws_no_text
                                (sample_env 50) (sample_env 50)
                                StatusBar.__init__)))).
  simpl. discriminate.
Defined.

(** ** Button *)

(** X10: [Button.touch] is a pure hit test: it draws nothing and leaves
    the button as it is.  It answers true exactly for the points of the
    rectangle grown by 10 pixels on every side, right and bottom edges
    excluded; so every point of the drawn rectangle is a hit. *)
Theorem Button_touch_hit_test (env : Env) (x y w h : Z) (label : string)
  (event : Event) :
  let b := Button.__init__ x y w h label in
  let ex := event_1 event in
  let ey := event_2 event in
  (exists hit, Button.touch event env b = (Ok hit, b, [])
               /\ (hit = true <-> (x - 10 <= ex < x + w + 10
                                   /\ y - 10 <= ey < y + h + 10)))
  /\ (x <= ex < x + w -> y <= ey < y + h ->
      result_of (Button.touch event env b) = Ok true).
Proof.
  intros b ex ey.
  assert (Hh : Button.hit b event = true
               <-> (x - 10 <= ex < x + w + 10 /\ y - 10 <= ey < y + h + 10)).
  { unfold Button.hit, Button.hit_box, b, Button.__init__. cbn [Button._im].
    fold ex. fold ey.
    rewrite !andb_true_iff, !Z.geb_le, !Z.ltb_lt. lia. }
  split.
  - exists (Button.hit b event). split; [apply Button_touch_eq|exact Hh].
  - intros Hx Hy. rewrite Button_touch_eq. cbn [result_of fst].
    f_equal. apply Hh. lia.
Qed.

Lemma Button_touch_hit_test_witness :
  result_of (Button.touch (mkEvent 0 25 150) (sample_env 50)
               (Button.__init__ 20 140 90 45 "Yes")) = Ok true.
Proof.
  apply (proj2 (Button_touch_hit_test (sample_env 50) 20 140 90 45
                  "Yes"%string (mkEvent 0 25 150))); simpl; lia.
Defined.

(** X11: [Button.draw] never raises and leaves the button as it is; for a
    button at least 2 pixels wide and high, the background and the four
    edges of the frame are all filled inside the button's rectangle, and
    the label is the only text. *)
Theorem Button_draw_inside_rectangle (env : Env) (x y w h : Z)
  (label : string) :
  2 <= w -> 2 <= h ->
  let b := Button.__init__ x y w h label in
  let r := Button.draw env b in
  result_of r = Ok tt
  /\ self_of r = b
  /\ Forall (fill_in_rect x y w h) (draws_of r)
  /\ filter is_text (draws_of r)
     = [draw_string label x (y + h / 2 - 12) (Some w)].
Proof.
  intros Hw Hh b r. subst r b.
  unfold Button.draw, Button.__init__. run. cbn [Button._im].
  cbv beta iota zeta.
  split; [reflexivity|]. split; [reflexivity|].
  split; [|reflexivity].
  cbn [app drawing_calls drawing_call].
  repeat constructor; lia.
Qed.

Lemma Button_draw_inside_rectangle_witness :
  Forall (fill_in_rect 20 140 90 45)
    (draws_of (Button.draw (sample_env 50) (Button.__init__ 20 140 90 45 "Yes"))).
Proof.
  apply (Button_draw_inside_rectangle (sample_env 50) 20 140 90 45
           "Yes"%string); lia.
Defined.

(** ** Checkbox *)

Lemma Checkbox_update_self (env : Env) (k : Checkbox.t) :
  exists l, Checkbox.update env k = (Ok tt, k, l)
            /\ blits icons_checkbox (drawing_calls l) = true.
Proof.
  unfold Checkbox.update. run.
  destruct (Checkbox._im k) as [[im0 im1] im2].
  destruct (Checkbox.state k); eexists; split; reflexivity.
Qed.

Lemma Checkbox_touch_eq (env : Env) (k : Checkbox.t) (event : Event) :
  let y0 := snd (fst (Checkbox._im k)) in
  if (event_2 event >=? y0) && (event_2 event <? y0 + 40)
  then exists l,
      Checkbox.touch event env k
      = (Ok true, Checkbox.mk (Checkbox._im k) (negb (Checkbox.state k)), l)
      /\ blits icons_checkbox (drawing_calls l) = true
  else Checkbox.touch event env k = (Ok false, k, []).
Proof.
  destruct k as [[[x0 y0] label] st]. cbn [Checkbox._im fst snd Checkbox.state].
  unfold Checkbox.touch, bind, get_self, put_self, ret.
  cbn [Checkbox._im Checkbox.state].
  destruct ((event_2 event >=? y0) && (event_2 event <? y0 + 40));
    [|reflexivity].
  destruct (Checkbox_update_self env (Checkbox.mk (x0, y0, label) (negb st)))
    as (l & Hl & Hb).
  rewrite Hl. exists ([] ++ l ++ []). split; [reflexivity|].
  rewrite app_nil_l, app_nil_r. exact Hb.
Qed.

(** X12: a touch whose y lies in the 40 rows of a checkbox, at any x, is
    consumed, flips the state and repaints the glyph; a second such touch
    brings the state back.  A touch above or below is not consumed and
    changes and draws nothing. *)
Theorem Checkbox_touch_toggles (env : Env) (k : Checkbox.t) (e1 e2 : Event) :
  let y0 := snd (fst (Checkbox._im k)) in
  (y0 <= event_2 e1 < y0 + 40 ->
   y0 <= event_2 e2 < y0 + 40 ->
   let r1 := Checkbox.touch e1 env k in
   let r2 := Checkbox.touch e2 env (self_of r1) in
   result_of r1 = Ok true
   /\ Checkbox.state (self_of r1) = negb (Checkbox.state k)
   /\ blits icons_checkbox (draws_of r1) = true
   /\ result_of r2 = Ok true
   /\ self_of r2 = k)
  /\ (~ (y0 <= event_2 e1 < y0 + 40) ->
      Checkbox.touch e1 env k = (Ok false, k, [])).
Proof.
  intros y0. split.
  - intros H1 H2 r1 r2.
    pose proof (Checkbox_touch_eq env k e1) as T1. cbv zeta in T1. fold y0 in T1.
    replace ((event_2 e1 >=? y0) && (event_2 e1 <? y0 + 40)) with true in T1
      by (symmetry; rewrite andb_true_iff, Z.geb_le, Z.ltb_lt; lia).
    destruct T1 as (l1 & T1 & B1).
    pose proof (Checkbox_touch_eq env (self_of r1) e2) as T2.
    subst r2. subst r1. rewrite T1 in T2 |- *.
    cbn [self_of fst snd Checkbox._im Checkbox.state] in T2 |- *.
    fold y0 in T2.
    replace ((event_2 e2 >=? y0) && (event_2 e2 <? y0 + 40)) with true in T2
      by (symmetry; rewrite andb_true_iff, Z.geb_le, Z.ltb_lt; lia).
    destruct T2 as (l2 & T2 & B2). rewrite T2.
    cbn [result_of self_of fst snd]. rewrite negb_involutive.
    repeat split; [exact B1|]. destruct k; reflexivity.
  - intros H1.
    pose proof (Checkbox_touch_eq env k e1) as T1. cbv zeta in T1. fold y0 in T1.
    replace ((event_2 e1 >=? y0) && (event_2 e1 <? y0 + 40)) with false in T1;
      [exact T1|].
    symmetry. apply andb_false_iff.
    destruct (Z_lt_ge_dec (event_2 e1) y0) as [L|L].
    + left. rewrite Z.geb_leb. apply Z.leb_gt. lia.
    + right. apply Z.ltb_ge. lia.
Qed.

Lemma Checkbox_touch_toggles_witness :
  let k := Checkbox.__init__ 10 100 (Some "Sound"%string) in
  let r1 := Checkbox.touch (mkEvent 0 5 110) (sample_env 50) k in
  let r2 := Checkbox.touch (mkEvent 0 200 139) (sample_env 50) (self_of r1) in
  result_of r1 = Ok true
  /\ Checkbox.state (self_of r1) = negb (Checkbox.state k)
  /\ blits icons_checkbox (draws_of r1) = true
  /\ result_of r2 = Ok true
  /\ self_of r2 = k.
Proof.
  apply (proj1 (Checkbox_touch_toggles (sample_env 50)
                  (Checkbox.__init__ 10 100 (Some "Sound"%string))
                  (mkEvent 0 5 110) (mkEvent 0 200 139))); simpl; lia.
Defined.

(** ** Slider *)

Ltac slider_constants :=
  change _SLIDER_TRACK_Y2 with 24 in *;
  change _SLIDER_TRACK_Y1 with 16 in *;
  change _SLIDER_TRACK_HEIGHT with 8 in *;
  change _SLIDER_TRACK with 180 in *;
  change _SLIDER_WIDTH with 220 in *;
  change _SLIDER_KNOB_RADIUS with 20 in *;
  change _SLIDER_KNOB_DIAMETER with 40 in *.

Ltac split_ifs_eqn :=
  repeat (cbv beta iota zeta;
          match goal with
          | |- context [if ?b then _ else _] =>
              lazymatch b with
              | true => fail
              | false => fail
              | _ => destruct b eqn:?
              end
          end);
  cbv beta iota zeta.

Ltac slider_fields :=
  cbv beta iota zeta delta
    [Slider.set_color_ Slider.set_lowlight Slider.set_value Slider._steps
     Slider._color Slider._lowlight Slider._x Slider._y Slider.value
     Slider._stepsize] in *.

Lemma int_true_div_zero_division (a b : Z) :
  int_true_div a b = Raise ZeroDivisionError <-> b = 0.
Proof.
  unfold int_true_div.
  destruct (b =? 0) eqn:E;
    [apply Z.eqb_eq in E|apply Z.eqb_neq in E].
  - split; [intros _; exact E|reflexivity].
  - split; [|intros H; contradiction].
    destruct (a =? 0); [discriminate|].
    destruct (SFdiv_core_binary _ _ _ _ _ _) as [[q e] l].
    destruct (binary_round_aux _ _ _ _ _ _); discriminate.
Qed.

Lemma stepsize_table : forallb stepsize_built_close (range 2 180) = true.
Proof. vm_compute. reflexivity. Qed.

(** X13: [Slider.__init__] raises ZeroDivisionError exactly for one step.
    For 2 to 181 steps it builds the slider: value 0, the arguments
    stored, no lowlight colour yet, and as step size a float that is at
    least 1 and within [2^-46] of the exact quotient [180 / (steps - 1)]
    (stated after multiplying by [steps - 1]). *)
Theorem Slider_init_builds_or_raises (steps x y : Z) (color : option Z) :
  (Slider.__init__ steps x y color = Raise ZeroDivisionError <-> steps = 1)
  /\ (2 <= steps <= 181 ->
      exists stepsize : float,
        Slider.__init__ steps x y color
        = Ok (Slider.mk 0 steps stepsize x y color None)
        /\ (1 <= float_value stepsize)%Q
        /\ (Qabs (float_value stepsize * inject_Z (steps - 1) - inject_Z 180)
            <= inject_Z (steps - 1) * (1 # 2 ^ 46))%Q).
Proof.
  split.
  - unfold Slider.__init__.
    pose proof (int_true_div_zero_division _SLIDER_TRACK (steps - 1)) as H.
    destruct (int_true_div _SLIDER_TRACK (steps - 1)) as [f|e];
      cbn [and_then].
    + split; [discriminate|].
      intros E. assert (E' : steps - 1 = 0) by lia.
      apply H in E'. discriminate E'.
    + split.
      * intros E. injection E as ->.
        assert (E' : steps - 1 = 0) by (apply H; reflexivity). lia.
      * intros E. assert (E' : steps - 1 = 0) by lia.
        apply H in E'. injection E' as ->. reflexivity.
  - intros Hs.
    assert (I : In steps (range 2 180)) by (apply range_In; simpl; lia).
    pose proof (proj1 (forallb_forall stepsize_built_close (range 2 180))
                  stepsize_table steps I) as T.
    unfold stepsize_built_close in T. unfold Slider.__init__.
    destruct (int_true_div _SLIDER_TRACK (steps - 1)) as [f|e];
      [|discriminate T].
    apply andb_prop in T. destruct T as [T1 T2].
    exists f. split; [reflexivity|].
    split; [apply Qle_bool_iff; exact T1|].
    apply Qle_bool_iff. exact T2.
Qed.

Lemma Slider_init_builds_or_raises_witness :
  exists stepsize : float,
    Slider.__init__ 5 10 90 None
    = Ok (Slider.mk 0 5 stepsize 10 90 None None)
    /\ (1 <= float_value stepsize)%Q
    /\ (Qabs (float_value stepsize * inject_Z (5 - 1) - inject_Z 180)
        <= inject_Z (5 - 1) * (1 # 2 ^ 46))%Q.
Proof.
  apply (proj2 (Slider_init_builds_or_raises 5 10 90 None)). lia.
Defined.

Lemma touch_value_range (s : Slider.t) (tx v : Z) :
  1 <= Slider._steps s ->
  Slider.touch_value s tx = Ok v ->
  0 <= v <= Slider._steps s - 1.
Proof.
  intros H. unfold Slider.touch_value.
  destruct (float_of_int 2) as [two|e]; cbn [and_then]; [|discriminate].
  destruct (float_div _ two) as [half|e]; cbn [and_then]; [|discriminate].
  destruct (float_of_int (_ + 20)) as [left|e]; cbn [and_then];
    [|discriminate].
  destruct (float_of_int tx) as [ftx|e]; cbn [and_then]; [|discriminate].
  destruct (float_div _ _) as [quo|e]; cbn [and_then]; [|discriminate].
  destruct (int quo) as [w|e]; cbn [and_then]; [|discriminate].
  intros E. injection E as <-.
  destruct (w <? 0) eqn:E1; [lia|].
  destruct (w >=? _) eqn:E2; lia.
Qed.

Lemma Slider_set_value_twice (v w : Z) (s : Slider.t) :
  Slider.set_value v (Slider.set_value w s) = Slider.set_value v s.
Proof. reflexivity. Qed.

Lemma Slider_set_value_same (s : Slider.t) :
  Slider.set_value (Slider.value s) s = s.
Proof. destruct s. reflexivity. Qed.

(** X14: a touch on a slider of at least one step either stores a value
    in [0, steps - 1], changing no other field and calling nothing, or
    raises, changing nothing and calling nothing.  On a slider of 2 to
    181 steps built at [x = 10], no sequence of touches on the 240 pixel
    wide screen raises; after the last touch the slider differs from the
    first one in its value only, which lies in [0, steps - 1]. *)
Theorem Slider_touch_keeps_value_in_range (env : Env) (s : Slider.t) :
  (forall event : Event,
      1 <= Slider._steps s ->
      (exists v : Z,
          0 <= v <= Slider._steps s - 1
          /\ Slider.touch event env s = (Ok tt, Slider.set_value v s, []))
      \/ (exists e : Exn, Slider.touch event env s = (Raise e, s, [])))
  /\ (forall events : list Event,
         slider_geometry s ->
         Slider._steps s <= 181 ->
         Slider._x s = 10 ->
         0 <= Slider.value s <= Slider._steps s - 1 ->
         Forall (fun event => 0 <= event_1 event < 240) events ->
         let rs := fst (touches Slider.touch events env s) in
         let s' := snd (touches Slider.touch events env s) in
         rs = map (fun _ => Ok tt) events
         /\ s' = Slider.set_value (Slider.value s') s
         /\ 0 <= Slider.value s' <= Slider._steps s - 1).
Proof.
  split.
  - intros event Hs. rewrite Slider_touch_eq.
    destruct (Slider.touch_value s (event_1 event)) as [v|e] eqn:E.
    + left. exists v. split; [|reflexivity].
      exact (touch_value_range s _ v Hs E).
    + right. exists e. reflexivity.
  - intros events Hg Hs Hx Hv Hev. cbv zeta.
    assert (G : forall s0 : Slider.t,
               s0 = Slider.set_value (Slider.value s0) s ->
               0 <= Slider.value s0 <= Slider._steps s - 1 ->
               fst (touches Slider.touch events env s0)
               = map (fun _ => Ok tt) events
               /\ snd (touches Slider.touch events env s0)
                  = Slider.set_value
                      (Slider.value (snd (touches Slider.touch events env s0)))
                      s
               /\ 0 <= Slider.value (snd (touches Slider.touch events env s0))
                  <= Slider._steps s - 1).
    { induction Hev as [|e rest He Hrest IH]; intros s0 H0 Hv0.
      - cbn. split; [reflexivity|]. split; [exact H0|exact Hv0].
      - assert (Hg0 : slider_geometry s0) by (rewrite H0; exact Hg).
        assert (Hs0 : Slider._steps s0 = Slider._steps s)
          by (rewrite H0; reflexivity).
        assert (Hx0 : Slider._x s0 = 10) by (rewrite H0; exact Hx).
        destruct (nearest_step_stored_frac s0 (event_1 e) Hg0
                    (default_position_stored s0 (event_1 e)
                       ltac:(destruct Hg0; lia) Hx0 He))
          as (v & Ev & _).
        pose proof (touch_value_range s0 _ v ltac:(destruct Hg0; lia) Ev)
          as Rv.
        cbn [touches]. rewrite Slider_touch_eq, Ev.
        specialize (IH (Slider.set_value v s0)).
        rewrite H0 in IH at 1. rewrite Slider_set_value_twice in IH.
        specialize (IH eq_refl ltac:(cbn [Slider.set_value Slider.value]; lia)).
        destruct (touches Slider.touch rest env (Slider.set_value v s0))
          as [rs s2].
        cbn [fst snd map] in IH |- *.
        destruct IH as (H1 & H2 & H3).
        rewrite H1. split; [reflexivity|]. split; [exact H2|exact H3]. }
    apply G; [symmetry; apply Slider_set_value_same|exact Hv].
Qed.

Lemma Slider_touch_keeps_value_in_range_witness :
  let s := Slider.mk 0 5 stepsize_45 10 90 None None in
  let evs := [mkEvent 0 0 100; mkEvent 0 239 100; mkEvent 0 120 100] in
  fst (touches Slider.touch evs (sample_env 50) s) = map (fun _ => Ok tt) evs
  /\ snd (touches Slider.touch evs (sample_env 50) s)
     = Slider.set_value
         (Slider.value (snd (touches Slider.touch evs (sample_env 50) s))) s
  /\ 0 <= Slider.value (snd (touches Slider.touch evs (sample_env 50) s))
     <= 5 - 1.
Proof.
  apply (proj2 (Slider_touch_keeps_value_in_range (sample_env 50)
                  (Slider.mk 0 5 stepsize_45 10 90 None None))
           [mkEvent 0 0 100; mkEvent 0 239 100; mkEvent 0 120 100]).
  - split; [simpl; lia|exact five_steps_stepsize].
  - simpl. lia.
  - reflexivity.
  - simpl. lia.
  - repeat constructor; simpl; lia.
Defined.

(** X15: on a slider of 2 to 181 steps built at [x = 10], of two touches
    on the 240 pixel wide screen the one further right never stores the
    smaller value; neither touch raises. *)
Theorem Slider_touch_monotone (env : Env) (s : Slider.t) (e1 e2 : Event) :
  slider_geometry s ->
  Slider._steps s <= 181 ->
  Slider._x s = 10 ->
  0 <= event_1 e1 ->
  event_1 e1 <= event_1 e2 ->
  event_1 e2 < 240 ->
  result_of (Slider.touch e1 env s) = Ok tt
  /\ result_of (Slider.touch e2 env s) = Ok tt
  /\ Slider.value (self_of (Slider.touch e1 env s))
     <= Slider.value (self_of (Slider.touch e2 env s)).
Proof.
  intros Hg Hs Hx H0 Hle H240.
  pose proof Hg as [Hs2 _].
  destruct (nearest_step_stored_frac s (event_1 e1) Hg
              (default_position_stored s (event_1 e1)
                 ltac:(lia) Hx ltac:(lia)))
    as (v1 & E1 & C1).
  destruct (nearest_step_stored_frac s (event_1 e2) Hg
              (default_position_stored s (event_1 e2)
                 ltac:(lia) Hx ltac:(lia)))
    as (v2 & E2 & C2).
  rewrite !Slider_touch_eq, E1, E2.
  cbn [result_of self_of fst snd Slider.value Slider.set_value].
  split; [reflexivity|]. split; [reflexivity|].
  destruct (Z.eq_dec (event_1 e1) (event_1 e2)) as [Eq|Ne].
  - rewrite Eq in E1. rewrite E1 in E2. injection E2 as <-. lia.
  - remember ((event_1 e1 - Slider._x s - 20) * (Slider._steps s - 1))
      as M1 eqn:EM1.
    remember ((event_1 e2 - Slider._x s - 20) * (Slider._steps s - 1))
      as M2 eqn:EM2.
    assert (HM : M1 < M2) by (subst M1 M2; nia).
    pose proof (round_down_le_up M1) as [D1 _].
    pose proof (round_down_le_up M2) as [D2 _].
    pose proof (round_up_le_next_down M1 M2 HM) as U.
    assert (L1 : v1 <= clamp 0 (Slider._steps s - 1) ((2 * M1 + 180) / 360)).
    { destruct C1 as [-> | ->]; [lia|].
      apply clamp_monotone; lia. }
    assert (L2 : clamp 0 (Slider._steps s - 1) (- ((180 - 2 * M2) / 360))
                 <= v2).
    { destruct C2 as [-> | ->]; [|lia].
      apply clamp_monotone; lia. }
    pose proof (clamp_monotone 0 (Slider._steps s - 1) _ _ ltac:(lia) U).
    lia.
Qed.

Lemma Slider_touch_monotone_witness :
  let s := Slider.mk 0 5 stepsize_45 10 90 None None in
  result_of (Slider.touch (mkEvent 0 60 0) (sample_env 50) s) = Ok tt
  /\ result_of (Slider.touch (mkEvent 0 130 0) (sample_env 50) s) = Ok tt
  /\ Slider.value (self_of (Slider.touch (mkEvent 0 60 0) (sample_env 50) s))
     <= Slider.value
          (self_of (Slider.touch (mkEvent 0 130 0) (sample_env 50) s)).
Proof.
  apply (Slider_touch_monotone (sample_env 50)
           (Slider.mk 0 5 stepsize_45 10 90 None None)
           (mkEvent 0 60 0) (mkEvent 0 130 0)).
  - split; [simpl; lia|exact five_steps_stepsize].
  - simpl. lia.
  - reflexivity.
  - simpl. lia.
  - simpl. lia.
  - simpl. lia.
Defined.

Lemma knob_offset_range (v n : Z) :
  1 <= n -> 0 <= v <= n -> 0 <= 180 * v / n <= 180.
Proof.
  intros Hn Hv. split.
  - apply Z.div_pos; lia.
  - apply Z.div_le_upper_bound; nia.
Qed.

(** X16: drawing a slider whose value lies in [0, steps - 1] never raises;
    the knob is blitted with its left edge between [x] and [x + 180], and
    every fill stays inside the 220 x 40 box of the widget. *)
Theorem Slider_draw_inside_box (env : Env) (s : Slider.t) :
  2 <= Slider._steps s ->
  0 <= Slider.value s <= Slider._steps s - 1 ->
  let r := Slider.draw env s in
  let kx := Slider._x s + 180 * Slider.value s / (Slider._steps s - 1) in
  result_of r = Ok tt
  /\ Slider._x s <= kx <= Slider._x s + 180
  /\ (exists c, In (blit icons_knob kx (Slider._y s) (Some c) None None)
                  (draws_of r))
  /\ Forall (fill_in_rect (Slider._x s) (Slider._y s) 220 40) (draws_of r).
Proof.
  intros Hs Hv r kx.
  pose proof (knob_offset_range (Slider.value s) (Slider._steps s - 1)
                ltac:(lia) Hv) as Hk.
  assert (E : (Slider._steps s - 1 =? 0) = false) by (apply Z.eqb_neq; lia).
  subst r kx.
  remember (180 * Slider.value s / (Slider._steps s - 1)) as k eqn:Ek.
  destruct s as [v steps ss x y [c|] [l|]];
    unfold Slider.draw; run; slider_fields; slider_constants;
    rewrite E; rewrite <- Ek; split_ifs_eqn;
    (split; [reflexivity|]); (split; [lia|]);
    (split; [eexists; cbn; tauto|]);
    cbn [app drawing_calls drawing_call];
    repeat constructor; lia.
Qed.

Lemma Slider_draw_inside_box_witness :
  let s := Slider.mk 2 5 stepsize_45 10 90 None None in
  Forall (fill_in_rect 10 90 220 40) (draws_of (Slider.draw (sample_env 50) s)).
Proof.
  apply (Slider_draw_inside_box (sample_env 50)
           (Slider.mk 2 5 stepsize_45 10 90 None None));
    simpl; lia.
Defined.

Lemma Slider_draw_colours (env : Env) (s : Slider.t) :
  Slider._steps s <> 1 ->
  let c := match Slider._color s with
           | Some c => c
           | None => theme env "ui"
           end in
  let l := match Slider._lowlight s with
           | Some l => l
           | None => lighten env c (theme env "contrast")
           end in
  self_of (Slider.draw env s)
  = Slider.mk (Slider.value s) (Slider._steps s) (Slider._stepsize s)
      (Slider._x s) (Slider._y s) (Some c) (Some l).
Proof.
  intros Hs.
  assert (E : (Slider._steps s - 1 =? 0) = false) by (apply Z.eqb_neq; lia).
  destruct s as [v steps ss x y [c|] [l|]];
    unfold Slider.draw; run; slider_fields; rewrite E; split_ifs; reflexivity.
Qed.

Lemma Slider_draw_cached (env : Env) (s : Slider.t) (c l : Z) :
  Slider._color s = Some c ->
  Slider._lowlight s = Some l ->
  Slider._steps s <> 1 ->
  forallb paints (draws_of (Slider.draw env s)) = true
  /\ exists kx, In (blit icons_knob kx (Slider._y s) (Some c) None None)
                  (draws_of (Slider.draw env s)).
Proof.
  intros Hc Hl Hs.
  assert (E : (Slider._steps s - 1 =? 0) = false) by (apply Z.eqb_neq; lia).
  destruct s as [v steps ss x y c0 l0]. cbn in Hc, Hl. subst c0 l0.
  unfold Slider.draw; run; slider_fields; rewrite E; split_ifs;
    (split; [reflexivity|eexists; cbn; tauto]).
Qed.

(** X17: a slider built without a colour takes the theme colour at its
    first [draw()], computes the lowlight once, and keeps both: a later
    [draw()] calls [lighten] no more and blits the knob in the colour of
    the first draw, even if the theme has changed in between. *)
Theorem Slider_draw_keeps_first_colours (env env' : Env) (s : Slider.t) :
  Slider._color s = None ->
  Slider._lowlight s = None ->
  Slider._steps s <> 1 ->
  let s1 := self_of (Slider.draw env s) in
  In (lighten_call (theme env "ui") (theme env "contrast"))
     (draws_of (Slider.draw env s))
  /\ Slider._color s1 = Some (theme env "ui")
  /\ Slider._lowlight s1
     = Some (lighten env (theme env "ui") (theme env "contrast"))
  /\ forallb paints (draws_of (Slider.draw env' s1)) = true
  /\ exists kx,
      In (blit icons_knob kx (Slider._y s) (Some (theme env "ui")) None None)
         (draws_of (Slider.draw env' s1)).
Proof.
  intros Hc Hl Hs s1.
  assert (E1 : s1 = Slider.mk (Slider.value s) (Slider._steps s)
                      (Slider._stepsize s) (Slider._x s) (Slider._y s)
                      (Some (theme env "ui"))
                      (Some (lighten env (theme env "ui")
                               (theme env "contrast")))).
  { subst s1. rewrite (Slider_draw_colours env s Hs), Hc, Hl. reflexivity. }
  split.
  - assert (E : (Slider._steps s - 1 =? 0) = false) by (apply Z.eqb_neq; lia).
    clear E1 s1.
    destruct s as [v steps ss x y c0 l0]. cbn in Hc, Hl. subst c0 l0.
    unfold Slider.draw; run; slider_fields; rewrite E; split_ifs;
      cbn; tauto.
  - rewrite E1. split; [reflexivity|]. split; [reflexivity|].
    apply (Slider_draw_cached env'
             (Slider.mk (Slider.value s) (Slider._steps s)
                (Slider._stepsize s) (Slider._x s) (Slider._y s)
                (Some (theme env "ui"))
                (Some (lighten env (theme env "ui") (theme env "contrast"))))
             (theme env "ui")
             (lighten env (theme env "ui") (theme env "contrast")));
      [reflexivity|reflexivity|exact Hs].
Qed.

Lemma Slider_draw_keeps_first_colours_witness :
  let s := Slider.mk 2 5 stepsize_45 10 90 None None in
  let s1 := self_of (Slider.draw (sample_env 50) s) in
  forallb paints (draws_of (Slider.draw (sample_env 50) s1)) = true.
Proof.
  apply (Slider_draw_keeps_first_colours (sample_env 50) (sample_env 50)
           (Slider.mk 2 5 stepsize_45 10 90 None None));
    [reflexivity|reflexivity|simpl; discriminate].
Defined.

(** ** Spinner *)

Lemma Spinner_touch_outside (env : Env) (sp : Spinner.t) (event : Event) :
  let '(x0, y0, _, _, _) := Spinner._im sp in
  ~ (x0 <= event_1 event < x0 + 60 /\ y0 <= event_2 event < y0 + 120) ->
  Spinner.touch event env sp = (Ok false, sp, []).
Proof.
  destruct sp as [[[[[x0 y0] mn] mx] field] v]. cbn [Spinner._im].
  intros H.
  assert (Hout : (event_1 event >=? x0) && (event_1 event <? x0 + 60)
                 && (event_2 event >=? y0) && (event_2 event <? y0 + 120)
                 = false).
  { destruct (_ && _) eqn:E; [|reflexivity]. exfalso. apply H.
    rewrite !andb_true_iff, !Z.geb_le, !Z.ltb_lt in E. lia. }
  unfold Spinner.touch. run. cbn [Spinner._im]. rewrite Hout. reflexivity.
Qed.

Lemma Spinner_touch_im (env : Env) (sp : Spinner.t) (event : Event) :
  Spinner._im (self_of (Spinner.touch event env sp)) = Spinner._im sp.
Proof.
  destruct sp as [[[[[x0 y0] mn] mx] field] v].
  unfold Spinner.touch, Spinner.update. run.
  cbn [Spinner._im Spinner.value Spinner.set_value].
  split_ifs; cbn [Spinner._im Spinner.value Spinner.set_value];
    split_ifs; reflexivity.
Qed.

Lemma Spinner_touch_ok (env : Env) (sp : Spinner.t) (event : Event) :
  exists b, result_of (Spinner.touch event env sp) = Ok b.
Proof.
  destruct sp as [[[[[x0 y0] mn] mx] field] v].
  unfold Spinner.touch, Spinner.update. run.
  cbn [Spinner._im Spinner.value Spinner.set_value].
  split_ifs; cbn [Spinner._im Spinner.value Spinner.set_value];
    split_ifs; eexists; reflexivity.
Qed.

Lemma Spinner_touch_range (env : Env) (sp : Spinner.t) (event : Event) :
  let '(_, _, mn, mx, _) := Spinner._im sp in
  mn < mx ->
  mn <= Spinner.value sp <= mx ->
  mn <= Spinner.value (self_of (Spinner.touch event env sp)) <= mx.
Proof.
  destruct sp as [[[[[x0 y0] mn] mx] field] v] eqn:Esp.
  cbn [Spinner._im Spinner.value]. intros Hm Hv.
  destruct (Z_le_gt_dec x0 (event_1 event)) as [X1|X1];
    [destruct (Z_lt_ge_dec (event_1 event) (x0 + 60)) as [X2|X2];
     [destruct (Z_le_gt_dec y0 (event_2 event)) as [Y1|Y1];
      [destruct (Z_lt_ge_dec (event_2 event) (y0 + 120)) as [Y2|Y2]|]|]|].
  - pose proof (Spinner_touch_inside env sp event) as H. rewrite Esp in H.
    cbn [Spinner._im Spinner.value] in H.
    destruct (H ltac:(lia) ltac:(lia)) as [_ Hval]. rewrite Hval.
    destruct (_ <? y0 + 60); [destruct (_ >? mx) eqn:E|destruct (_ <? mn) eqn:E];
      lia.
  - pose proof (Spinner_touch_outside env sp event) as H. rewrite Esp in H.
    cbn [Spinner._im] in H. rewrite H by lia. cbn. lia.
  - pose proof (Spinner_touch_outside env sp event) as H. rewrite Esp in H.
    cbn [Spinner._im] in H. rewrite H by lia. cbn. lia.
  - pose proof (Spinner_touch_outside env sp event) as H. rewrite Esp in H.
    cbn [Spinner._im] in H. rewrite H by lia. cbn. lia.
  - pose proof (Spinner_touch_outside env sp event) as H. rewrite Esp in H.
    cbn [Spinner._im] in H. rewrite H by lia. cbn. lia.
Qed.

(** X18: on a spinner with [mn < mx] whose value lies in [mn, mx], no
    sequence of touches raises or moves the value out of [mn, mx], the
    upper bound included, and the geometry stays as built. *)
Theorem Spinner_touches_stay_in_range (env : Env) (events : list Event)
  (x0 y0 mn mx field : Z) :
  mn < mx ->
  forall v : Z,
    mn <= v <= mx ->
    let sp := Spinner.mk (x0, y0, mn, mx, field) v in
    let rs := fst (touches Spinner.touch events env sp) in
    let sp' := snd (touches Spinner.touch events env sp) in
    List.length rs = List.length events
    /\ Forall (fun r => exists b, r = Ok b) rs
    /\ Spinner._im sp' = (x0, y0, mn, mx, field)
    /\ mn <= Spinner.value sp' <= mx.
Proof.
  intros Hm. induction events as [|e rest IH]; intros v Hv.
  - cbn. repeat split; try constructor; lia.
  - cbv zeta. cbn [touches].
    set (sp := Spinner.mk (x0, y0, mn, mx, field) v).
    pose proof (Spinner_touch_ok env sp e) as [b Hb].
    pose proof (Spinner_touch_im env sp e) as Him.
    pose proof (Spinner_touch_range env sp e) as Hr.
    cbn [sp Spinner._im Spinner.value] in Him, Hr.
    specialize (Hr Hm Hv).
    destruct (Spinner.touch e env sp) as [[r s1] l] eqn:Et.
    cbn [result_of self_of fst snd] in Hb, Him, Hr. subst r.
    destruct s1 as [im1 v1]. cbn [Spinner._im Spinner.value] in Him, Hr.
    subst im1.
    specialize (IH v1 Hr). cbv zeta in IH.
    destruct (touches Spinner.touch rest env
                (Spinner.mk (x0, y0, mn, mx, field) v1)) as [rs s2].
    cbn [fst snd] in IH |- *. destruct IH as (H1 & H2 & H3 & H4).
    split; [cbn; rewrite H1; reflexivity|].
    split; [constructor; [exists b; reflexivity|exact H2]|].
    split; [exact H3|exact H4].
Qed.

Lemma Spinner_touches_stay_in_range_witness :
  let evs := [mkEvent 0 30 30; mkEvent 0 30 30; mkEvent 0 30 30;
              mkEvent 0 30 30; mkEvent 0 30 90] in
  let sp' := snd (touches Spinner.touch evs (sample_env 50)
                    (Spinner.mk (0, 0, 0, 3, 1) 0)) in
  List.length (fst (touches Spinner.touch evs (sample_env 50)
                      (Spinner.mk (0, 0, 0, 3, 1) 0))) = List.length evs
  /\ Forall (fun r => exists b, r = Ok b)
       (fst (touches Spinner.touch evs (sample_env 50)
               (Spinner.mk (0, 0, 0, 3, 1) 0)))
  /\ Spinner._im sp' = (0, 0, 0, 3, 1)
  /\ 0 <= Spinner.value sp' <= 3.
Proof.
  apply (Spinner_touches_stay_in_range (sample_env 50)
           [mkEvent 0 30 30; mkEvent 0 30 30; mkEvent 0 30 30;
            mkEvent 0 30 30; mkEvent 0 30 90] 0 0 0 3 1); lia.
Defined.

(** X19: below the upper bound, a touch in the upper half followed by one
    in the lower half brings the value back; above the lower bound, so does
    a touch in the lower half followed by one in the upper half. *)
Theorem Spinner_up_down_round_trip (env : Env) (x0 y0 mn mx field v : Z)
  (up down : Event) :
  x0 <= event_1 up < x0 + 60 -> y0 <= event_2 up < y0 + 60 ->
  x0 <= event_1 down < x0 + 60 -> y0 + 60 <= event_2 down < y0 + 120 ->
  let sp := Spinner.mk (x0, y0, mn, mx, field) v in
  (mn <= v < mx ->
   self_of (Spinner.touch down env (self_of (Spinner.touch up env sp))) = sp)
  /\ (mn < v <= mx ->
      self_of (Spinner.touch up env (self_of (Spinner.touch down env sp))) = sp).
Proof.
  intros Ux Uy Dx Dy sp.
  assert (Hup : forall w, Spinner.value (self_of (Spinner.touch up env
                              (Spinner.mk (x0, y0, mn, mx, field) w)))
                          = if w + 1 >? mx then mn else w + 1).
  { intros w.
    pose proof (Spinner_touch_inside env (Spinner.mk (x0, y0, mn, mx, field) w)
                  up) as H.
    cbn [Spinner._im Spinner.value] in H.
    destruct (H ltac:(lia) ltac:(lia)) as [_ Hv]. rewrite Hv.
    replace (event_2 up <? y0 + 60) with true
      by (symmetry; apply Z.ltb_lt; lia).
    reflexivity. }
  assert (Hdown : forall w, Spinner.value (self_of (Spinner.touch down env
                                (Spinner.mk (x0, y0, mn, mx, field) w)))
                            = if w - 1 <? mn then mx - 1 else w - 1).
  { intros w.
    pose proof (Spinner_touch_inside env (Spinner.mk (x0, y0, mn, mx, field) w)
                  down) as H.
    cbn [Spinner._im Spinner.value] in H.
    destruct (H ltac:(lia) ltac:(lia)) as [_ Hv]. rewrite Hv.
    replace (event_2 down <? y0 + 60) with false
      by (symmetry; apply Z.ltb_ge; lia).
    reflexivity. }
  assert (Hrec : forall e w,
             self_of (Spinner.touch e env (Spinner.mk (x0, y0, mn, mx, field) w))
             = Spinner.mk (x0, y0, mn, mx, field)
                 (Spinner.value (self_of (Spinner.touch e env
                                   (Spinner.mk (x0, y0, mn, mx, field) w))))).
  { intros e w.
    pose proof (Spinner_touch_im env (Spinner.mk (x0, y0, mn, mx, field) w) e)
      as H.
    destruct (self_of _) as [im1 v1]. cbn in H |- *. subst im1. reflexivity. }
  split; intros Hv; subst sp.
  - rewrite (Hrec up v), Hup, (Hrec down), Hdown. f_equal.
    destruct (v + 1 >? mx) eqn:E1; [lia|].
    destruct (v + 1 - 1 <? mn) eqn:E2; lia.
  - rewrite (Hrec down v), Hdown, (Hrec up), Hup. f_equal.
    destruct (v - 1 <? mn) eqn:E1; [lia|].
    destruct (v - 1 + 1 >? mx) eqn:E2; lia.
Qed.

Lemma Spinner_up_down_round_trip_witness :
  self_of (Spinner.touch (mkEvent 0 30 90) (sample_env 50)
             (self_of (Spinner.touch (mkEvent 0 30 30) (sample_env 50)
                         (Spinner.mk (0, 0, 0, 3, 1) 1))))
  = Spinner.mk (0, 0, 0, 3, 1) 1.
Proof.
  apply (proj1 (Spinner_up_down_round_trip (sample_env 50) 0 0 0 3 1 1
                  (mkEvent 0 30 30) (mkEvent 0 30 90)
                  ltac:(simpl; lia) ltac:(simpl; lia)
                  ltac:(simpl; lia) ltac:(simpl; lia))).
  lia.
Defined.

(** X20: a touch outside the 60 x 120 box of a spinner is not consumed,
    leaves the value and draws nothing. *)
Theorem Spinner_touch_outside_ignored (env : Env) (x0 y0 mn mx field v : Z)
  (event : Event) :
  ~ (x0 <= event_1 event < x0 + 60 /\ y0 <= event_2 event < y0 + 120) ->
  Spinner.touch event env (Spinner.mk (x0, y0, mn, mx, field) v)
  = (Ok false, Spinner.mk (x0, y0, mn, mx, field) v, []).
Proof.
  intros H.
  apply (Spinner_touch_outside env (Spinner.mk (x0, y0, mn, mx, field) v) event).
  exact H.
Qed.

Lemma Spinner_touch_outside_ignored_witness :
  Spinner.touch (mkEvent 0 60 30) (sample_env 50) (Spinner.mk (0, 0, 0, 3, 1) 1)
  = (Ok false, Spinner.mk (0, 0, 0, 3, 1) 1, []).
Proof.
  apply (Spinner_touch_outside_ignored (sample_env 50) 0 0 0 3 1 1
           (mkEvent 0 60 30)).
  simpl. lia.
Defined.

Lemma repeat_string_length (c : string) (n : nat) :
  String.length (repeat_string c n) = (n * String.length c)%nat.
Proof.
  induction n as [|n IH]; cbn [repeat_string]; [reflexivity|].
  rewrite string_length_append, IH. cbn. lia.
Qed.

(** X21: [Spinner.update] writes the value in decimal, left-padded with
    zeros to [field] characters: the text is never shorter than [field]
    and never cuts the number. *)
Theorem Spinner_update_pads_value (env : Env) (x0 y0 mn mx field v : Z) :
  let sp := Spinner.mk (x0, y0, mn, mx, field) v in
  let len := String.length (str v) in
  exists pad : nat,
    filter is_text (draws_of (Spinner.update env sp))
    = [draw_string (repeat_string "0" pad ++ str v) x0 (y0 + 60 - 14) (Some 60)]
    /\ Z.of_nat (pad + len) = Z.max field (Z.of_nat len).
Proof.
  intros sp len. subst sp.
  unfold Spinner.update. run. cbn [Spinner._im Spinner.value].
  fold len.
  destruct (Z.of_nat len <? field) eqn:E;
    [apply Z.ltb_lt in E|apply Z.ltb_ge in E].
  - exists (Z.to_nat (field - Z.of_nat len)). split; [reflexivity|]. lia.
  - exists 0%nat. split; [reflexivity|]. lia.
Qed.

(** ** ConfirmationView *)

Lemma Button_draw_calls (env : Env) (b : Button.t) :
  exists ds, Button.draw env b = (Ok tt, b, map Drawable ds).
Proof.
  destruct b as [[[[[x y] w] h] label]].
  unfold Button.draw. run. cbn [Button._im]. cbv beta iota zeta.
  eexists. cbn [app].
  match goal with
  | |- (_, _, ?l) = _ =>
      change l with (map Drawable (drawing_calls l))
  end.
  reflexivity.
Qed.

(** X22: [ConfirmationView.draw] mutes the display before its first
    drawing call and unmutes it after the last one; in between it sets the
    pen, clears the screen, writes the message and draws the Yes button,
    then the No button. *)
Theorem ConfirmationView_draw_is_muted (env : Env) (v : ConfirmationView.t)
  (message : string) :
  calls_of (ConfirmationView.draw message env v)
  = Display_mute true
    :: map Drawable
         ([set_color (theme env "bright") None; set_font sans24; fill_screen;
           draw_string message 0 60 None]
          ++ draws_of (Button.draw env (ConfirmationView._yes v))
          ++ draws_of (Button.draw env (ConfirmationView._no v)))
    ++ [Display_mute false].
Proof.
  destruct v as [a val byes bno]. cbn [ConfirmationView._yes ConfirmationView._no].
  destruct (Button_draw_calls env byes) as [dy Hy].
  destruct (Button_draw_calls env bno) as [dn Hn].
  unfold ConfirmationView.draw. run.
  cbn [ConfirmationView._yes ConfirmationView._no ConfirmationView.set_yes
       ConfirmationView.set_no ConfirmationView.active ConfirmationView.value].
  rewrite Hy. cbv beta iota zeta.
  cbn [ConfirmationView._yes ConfirmationView._no ConfirmationView.set_yes
       ConfirmationView.set_no ConfirmationView.active ConfirmationView.value].
  rewrite Hn. cbv beta iota zeta.
  rewrite !drawing_calls_map. rewrite !map_app. cbn [app map].
  rewrite ?app_nil_r. rewrite <- ?app_assoc. reflexivity.
Qed.

Lemma touches_inactive (env : Env) (events : list Event) (val : bool) :
  touches ConfirmationView.touch events env
    (ConfirmationView.mk false val yes_button no_button)
  = (map (fun _ => Ok false) events,
     ConfirmationView.mk false val yes_button no_button).
Proof.
  induction events as [|e rest IH]; [reflexivity|].
  cbn [touches]. rewrite ConfirmationView_touch_eq. cbn [negb].
  rewrite IH. reflexivity.
Qed.

Lemma consumed_none (events : list Event) :
  consumed (map (fun _ : Event => Ok false) events) = 0%nat.
Proof. induction events as [|e rest IH]; [reflexivity|exact IH]. Qed.

(** X23: once drawn, a view answers at most one touch of any sequence as
    consumed, and every touch after that one finds it inactive; a view
    that is not active consumes none and keeps its value. *)
Theorem ConfirmationView_consumes_at_most_one (env : Env)
  (events : list Event) (a val : bool) :
  let v := ConfirmationView.mk a val yes_button no_button in
  let rs := fst (touches ConfirmationView.touch events env v) in
  let v' := snd (touches ConfirmationView.touch events env v) in
  (consumed rs <= 1)%nat
  /\ (consumed rs = 1%nat -> ConfirmationView.active v' = false)
  /\ (consumed rs = 0%nat -> v' = v)
  /\ (a = false -> consumed rs = 0%nat).
Proof.
  cbv zeta. destruct a.
  - induction events as [|e rest IH].
    + cbn. repeat split; try lia; discriminate.
    + cbn [touches]. rewrite ConfirmationView_touch_eq. cbn [negb].
      destruct (Button.hit yes_button e);
        [|destruct (Button.hit no_button e)].
      * rewrite touches_inactive. cbn [fst snd].
        unfold consumed. cbn [filter is_consumed List.length].
        fold (consumed (map (fun _ : Event => Ok false) rest)).
        rewrite consumed_none. repeat split; try lia; discriminate.
      * rewrite touches_inactive. cbn [fst snd].
        unfold consumed. cbn [filter is_consumed List.length].
        fold (consumed (map (fun _ : Event => Ok false) rest)).
        rewrite consumed_none. repeat split; try lia; discriminate.
      * destruct (touches ConfirmationView.touch rest env
                    (ConfirmationView.mk true val yes_button no_button))
          as [rs v'].
        cbn [fst snd] in IH |- *.
        unfold consumed in IH |- *. cbn [filter is_consumed]. exact IH.
  - rewrite touches_inactive. cbn [fst snd]. rewrite consumed_none.
    repeat split; try lia; discriminate.
Qed.

(** ** Card and NomieCard *)

Lemma draw_chunks_eq (env : Env) (title : string) (x y : Z)
  (chunks : list nat) :
  forall (i : Z) (c : Card.t),
    Card.draw_chunks title x y i chunks env c
    = (Ok tt, c, map Drawable (title_lines title x y i chunks)).
Proof.
  induction chunks as [|a rest IH]; intros i c; [reflexivity|].
  destruct rest as [|b rest']; [reflexivity|].
  change (Card.draw_chunks title x y i (a :: b :: rest') env c)
    with (bind (drawable (draw_string (rstrip (slice title a b)) (x + 20)
                            ((y + 100) + (24 + 4) * i) None))
            (fun _ => Card.draw_chunks title x y (i + 1) (b :: rest')) env c).
  change (title_lines title x y i (a :: b :: rest'))
    with (draw_string (rstrip (slice title a b)) (x + 20)
            ((y + 100) + (24 + 4) * i) None
          :: title_lines title x y (i + 1) (b :: rest')).
  unfold bind, drawable, call. cbv beta iota zeta.
  rewrite (IH (i + 1) c). reflexivity.
Qed.

Lemma Card_draw_eq (env : Env) (c : Card.t) (all : bool) :
  Card.draw all env c
  = (Ok tt, c,
     map Drawable
       (if all
        then card_frame_calls c ++ card_icon_calls c
             ++ card_title_calls env c ++ card_label_calls env c
        else card_icon_calls c ++ card_label_calls env c)).
Proof.
  unfold Card.draw, card_frame_calls, card_icon_calls, card_title_calls,
    card_label_calls.
  run.
  destruct all; cbn [andb negb].
  - destruct (Card.is_first c); destruct (Card.is_last c);
      destruct (Card.icon c); destruct (Card.title c =? "")%string;
      cbn [negb]; rewrite ?draw_chunks_eq; cbv beta iota zeta;
      cbn [app map]; rewrite ?map_app, ?app_nil_r; reflexivity.
  - destruct (Card.icon c); reflexivity.
Qed.

(** X24: [Card.draw] never raises and never changes the card.  The
    partial repaint [draw(all=False)] sets the pen, blits the icon at
    (30, 30) if the card has one and writes the state label at (40, 180):
    no fill and no title.  The full repaint issues the same calls in the
    same order, after the fills of the page marks and of the 200 x 200
    background, and with the title, if there is one, between the icon and
    the label. *)
Theorem Card_partial_repaint_within_full (env : Env) (c : Card.t) :
  (forall all, result_of (Card.draw all env c) = Ok tt
               /\ self_of (Card.draw all env c) = c)
  /\ draws_of (Card.draw false env c)
     = [set_color 0xffff (Some 0xffff)]
       ++ match Card.icon c with
          | Some i => [blit i 30 30 None None None]
          | None => []
          end
       ++ [set_color (theme env "mid") (Some 0xffff);
           draw_string (Card.state c) 40 180 None]
  /\ draws_of (Card.draw true env c)
     = (if Card.is_first c then [] else [fill 0xffff 30 0 180 5])
       ++ (if Card.is_last c then [] else [fill 0xffff 30 235 180 5])
       ++ [fill 0xffff 20 20 200 200]
       ++ [set_color 0xffff (Some 0xffff)]
       ++ match Card.icon c with
          | Some i => [blit i 30 30 None None None]
          | None => []
          end
       ++ (if (Card.title c =? "")%string then []
           else [set_color 0x0000 (Some 0xffff); set_font sans24;
                 wrap_call (Card.title c) 160]
                ++ title_lines (Card.title c) 20 20 0
                     (wrap env (Card.title c) 160))
       ++ [set_color (theme env "mid") (Some 0xffff);
           draw_string (Card.state c) 40 180 None].
Proof.
  split; [intros all; rewrite Card_draw_eq; split; reflexivity|].
  rewrite !Card_draw_eq. unfold draws_of, calls_of. cbn [snd].
  rewrite !drawing_calls_map.
  unfold card_frame_calls, card_icon_calls, card_title_calls,
    card_label_calls.
  split.
  - destruct (Card.icon c); reflexivity.
  - destruct (Card.is_first c); destruct (Card.is_last c);
      destruct (Card.icon c); destruct (Card.title c =? "")%string;
      reflexivity.
Qed.

Lemma rstrip_no_trailing_space (s : string) :
  ends_with_space (rstrip s) = false.
Proof.
  induction s as [|ch s IH]; [reflexivity|].
  cbn [rstrip]. destruct (rstrip s) as [|ch' r] eqn:E.
  - destruct (is_space ch) eqn:Es; [reflexivity|]. cbn. exact Es.
  - cbn [ends_with_space]. exact IH.
Qed.

Lemma title_lines_rows (title : string) (x y : Z) (chunks : list nat) :
  forall (i : Z) (k : nat) (d : DrawCall),
    nth_error (title_lines title x y i chunks) k = Some d ->
    exists t, d = draw_string t (x + 20) (y + 100 + 28 * (i + Z.of_nat k)) None
              /\ ends_with_space t = false.
Proof.
  induction chunks as [|a rest IH]; intros i k d H.
  - destruct k; discriminate H.
  - destruct rest as [|b rest'].
    + destruct k; discriminate H.
    + change (title_lines title x y i (a :: b :: rest'))
        with (draw_string (rstrip (slice title a b)) (x + 20)
                ((y + 100) + (24 + 4) * i) None
              :: title_lines title x y (i + 1) (b :: rest')) in H.
      destruct k as [|k].
      * cbn [nth_error] in H.
        assert (Hd : d = draw_string (rstrip (slice title a b)) (x + 20)
                           ((y + 100) + (24 + 4) * i) None) by congruence.
        rewrite Hd. exists (rstrip (slice title a b)). split.
        -- f_equal. cbn [Z.of_nat]. lia.
        -- apply rstrip_no_trailing_space.
      * cbn [nth_error] in H. destruct (IH (i + 1) k d H) as (t & Ht & Hs).
        exists t. split; [|exact Hs]. rewrite Ht. f_equal. lia.
Qed.

Lemma title_lines_length (title : string) (x y : Z) (chunks : list nat) :
  forall i, List.length (title_lines title x y i chunks)
            = pred (List.length chunks).
Proof.
  induction chunks as [|a rest IH]; intros i; [reflexivity|].
  destruct rest as [|b rest']; [reflexivity|].
  change (title_lines title x y i (a :: b :: rest'))
    with (draw_string (rstrip (slice title a b)) (x + 20)
            ((y + 100) + (24 + 4) * i) None
          :: title_lines title x y (i + 1) (b :: rest')).
  cbn [List.length]. rewrite (IH (i + 1)). reflexivity.
Qed.

Lemma title_lines_all_text (title : string) (x y : Z) (chunks : list nat) :
  forall i, filter is_text (title_lines title x y i chunks)
            = title_lines title x y i chunks.
Proof.
  induction chunks as [|a rest IH]; intros i; [reflexivity|].
  destruct rest as [|b rest']; [reflexivity|].
  change (title_lines title x y i (a :: b :: rest'))
    with (draw_string (rstrip (slice title a b)) (x + 20)
            ((y + 100) + (24 + 4) * i) None
          :: title_lines title x y (i + 1) (b :: rest')).
  cbn [filter is_text]. rewrite (IH (i + 1)). reflexivity.
Qed.

(** X25: a full repaint of a card with a title asks the drawing surface
    where to break the title and writes one line per pair of consecutive
    break offsets: line k at x = 40, y = 120 + 28 k, stripped of trailing
    blanks.  The state label at (40, 180) is the only other text. *)
Theorem Card_draw_title_lines (env : Env) (c : Card.t) :
  Card.title c <> ""%string ->
  let chunks := wrap env (Card.title c) 160 in
  exists lines,
    filter is_text (draws_of (Card.draw true env c))
    = lines ++ [draw_string (Card.state c) 40 180 None]
    /\ List.length lines = pred (List.length chunks)
    /\ forall k d, nth_error lines k = Some d ->
                   exists t, d = draw_string t 40 (120 + 28 * Z.of_nat k) None
                             /\ ends_with_space t = false.
Proof.
  intros Ht chunks.
  exists (title_lines (Card.title c) 20 20 0 chunks).
  split; [|split].
  - rewrite Card_draw_eq. unfold draws_of, calls_of. cbn [snd].
    rewrite drawing_calls_map.
    unfold card_frame_calls, card_icon_calls, card_title_calls,
      card_label_calls.
    apply String.eqb_neq in Ht. rewrite Ht.
    rewrite !filter_app. fold chunks. rewrite title_lines_all_text.
    destruct (Card.is_first c); destruct (Card.is_last c);
      destruct (Card.icon c); reflexivity.
  - apply title_lines_length.
  - intros k d H.
    destruct (title_lines_rows _ _ _ _ _ _ _ H) as (t & Hd & Hs).
    exists t. split; [|exact Hs]. rewrite Hd. f_equal.
Qed.

Lemma Card_draw_title_lines_witness :
  let env := mkEnv (localtime (sample_env 50)) false 50 false false
               (fun _ => 0xffff) (fun c _ => c) (fun c => c)
               (fun _ _ => [0; 7; 12]%nat) (fun _ => 36) in
  let c := Card.__init__ None "Living room" "On" in
  exists lines,
    filter is_text (draws_of (Card.draw true env c))
    = lines ++ [draw_string (Card.state c) 40 180 None]
    /\ List.length lines = pred (List.length (wrap env (Card.title c) 160))
    /\ forall k d, nth_error lines k = Some d ->
                   exists t, d = draw_string t 40 (120 + 28 * Z.of_nat k) None
                             /\ ends_with_space t = false.
Proof.
  apply (Card_draw_title_lines
           (mkEnv (localtime (sample_env 50)) false 50 false false
              (fun _ => 0xffff) (fun c _ => c) (fun c => c)
              (fun _ _ => [0; 7; 12]%nat) (fun _ => 36))
           (Card.__init__ None "Living room" "On")).
  simpl. discriminate.
Defined.

Lemma Card_touch_from_on (env : Env) (c : Card.t) (event : Event) :
  Card.state c = "On"%string ->
  exists l,
    Card.touch event env c
    = (Ok true,
       Card.mk (Some light_off_50) (Card.title c) "Off" (Card.is_last c)
         (Card.is_first c) (Assigned (Card.icon c)), l).
Proof.
  intros H. unfold Card.touch. run.
  rewrite (proj2 (String.eqb_eq (Card.state c) "On") H).
  cbv beta iota zeta.
  cbn [Card.set_state Card.set_on_icon Card.set_icon Card.icon Card.title
       Card.state Card.is_last Card.is_first Card.on_icon].
  rewrite Card_draw_eq. eexists. reflexivity.
Qed.

Lemma Card_touch_from_off (env : Env) (c : Card.t) (event : Event)
  (saved : option Icon) :
  Card.state c <> "On"%string ->
  Card.on_icon c = Assigned saved ->
  exists l,
    Card.touch event env c
    = (Ok true,
       Card.mk saved (Card.title c) "On" (Card.is_last c)
         (Card.is_first c) (Assigned saved), l).
Proof.
  intros H Ho. apply String.eqb_neq in H.
  unfold Card.touch, Card.get_on_icon. run. rewrite H.
  cbv beta iota zeta.
  cbn [Card.set_state Card.set_on_icon Card.set_icon Card.icon Card.title
       Card.state Card.is_last Card.is_first Card.on_icon].
  rewrite Ho. cbv beta iota zeta.
  cbn [Card.set_state Card.set_on_icon Card.set_icon Card.icon Card.title
       Card.state Card.is_last Card.is_first Card.on_icon].
  rewrite Card_draw_eq.
  unfold Card.set_icon, Card.set_state.
  cbn [Card.icon Card.title Card.state Card.is_last Card.is_first
       Card.on_icon].
  rewrite Ho. eexists. reflexivity.
Qed.

Lemma Card_touches_both (env : Env) (events : list Event) :
  forall c : Card.t,
    (Card.state c = "On"%string ->
     let rs := fst (touches Card.touch events env c) in
     let c' := snd (touches Card.touch events env c) in
     rs = map (fun _ => Ok true) events
     /\ Card.state c' = (if Nat.even (List.length events) then "On" else "Off")%string
     /\ Card.icon c' = (if Nat.even (List.length events) then Card.icon c
                        else Some light_off_50))
    /\ (forall saved,
           Card.state c = "Off"%string ->
           Card.on_icon c = Assigned saved ->
           Card.icon c = Some light_off_50 ->
           let rs := fst (touches Card.touch events env c) in
           let c' := snd (touches Card.touch events env c) in
           rs = map (fun _ => Ok true) events
           /\ Card.state c' = (if Nat.even (List.length events) then "Off"
                               else "On")%string
           /\ Card.icon c' = (if Nat.even (List.length events) then Card.icon c
                              else saved)).
Proof.
  induction events as [|e rest IH]; intros c.
  - split; [intros H|intros saved H Ho Hi]; cbn; rewrite H; repeat split.
  - split.
    + intros H. cbv zeta. cbn [touches].
      destruct (Card_touch_from_on env c e H) as [l Hl]. rewrite Hl.
      destruct (IH (Card.mk (Some light_off_50) (Card.title c) "Off"
                      (Card.is_last c) (Card.is_first c)
                      (Assigned (Card.icon c)))) as [_ IH2].
      specialize (IH2 (Card.icon c) eq_refl eq_refl eq_refl). cbv zeta in IH2.
      destruct (touches Card.touch rest env
                  (Card.mk (Some light_off_50) (Card.title c) "Off"
                     (Card.is_last c) (Card.is_first c)
                     (Assigned (Card.icon c)))) as [rs c'].
      cbn [fst snd] in IH2 |- *. destruct IH2 as (H1 & H2 & H3).
      cbn [List.length map]. rewrite Nat.even_succ, <- Nat.negb_even.
      rewrite H1, H2, H3. cbn [Card.icon].
      destruct (Nat.even (List.length rest)); repeat split.
    + intros saved H Ho Hi. cbv zeta. cbn [touches].
      assert (Hn : Card.state c <> "On"%string) by (rewrite H; discriminate).
      destruct (Card_touch_from_off env c e saved Hn Ho) as [l Hl]. rewrite Hl.
      destruct (IH (Card.mk saved (Card.title c) "On"
                      (Card.is_last c) (Card.is_first c)
                      (Assigned saved))) as [IH1 _].
      specialize (IH1 eq_refl). cbv zeta in IH1.
      destruct (touches Card.touch rest env
                  (Card.mk saved (Card.title c) "On"
                     (Card.is_last c) (Card.is_first c)
                     (Assigned saved))) as [rs c'].
      cbn [fst snd] in IH1 |- *. destruct IH1 as (H1 & H2 & H3).
      cbn [List.length map]. rewrite Nat.even_succ, <- Nat.negb_even.
      rewrite H1, H2, H3, Hi. cbn [Card.icon].
      destruct (Nat.even (List.length rest)); repeat split.
Qed.

(** X26: a card that is on never raises, whatever the touches: every
    touch is consumed wherever it lands, the state alternates between
    "Off" and "On", and the icon alternates between the off bitmap and the
    icon the card had. *)
Theorem Card_touches_alternate (env : Env) (events : list Event)
  (c : Card.t) :
  Card.state c = "On"%string ->
  let rs := fst (touches Card.touch events env c) in
  let c' := snd (touches Card.touch events env c) in
  rs = map (fun _ => Ok true) events
  /\ Card.state c' = (if Nat.even (List.length events) then "On" else "Off")%string
  /\ Card.icon c' = (if Nat.even (List.length events) then Card.icon c
                     else Some light_off_50).
Proof. apply (Card_touches_both env events c). Qed.

Lemma Card_touches_alternate_witness :
  let c := Card.__init__ (Some (AppIcon 7)) "Lamp" "On" in
  let evs := [mkEvent 0 0 0; mkEvent 0 239 239; mkEvent 0 120 5] in
  fst (touches Card.touch evs (sample_env 50) c) = map (fun _ => Ok true) evs
  /\ Card.state (snd (touches Card.touch evs (sample_env 50) c)) = "Off"%string
  /\ Card.icon (snd (touches Card.touch evs (sample_env 50) c))
     = Some light_off_50.
Proof.
  apply (Card_touches_alternate (sample_env 50)
           [mkEvent 0 0 0; mkEvent 0 239 239; mkEvent 0 120 5]
           (Card.__init__ (Some (AppIcon 7)) "Lamp" "On")).
  reflexivity.
Defined.

(** X27: a NomieCard never raises and is never changed, by [draw] or by
    [touch].  [touch] is always consumed and repaints nothing.  The
    partial repaint sets the pen, blits the icon at (80, 80) if there is
    one, fills the 40 x 40 badge at (30, 30) and writes the state in it:
    no background and no title.  The full repaint issues the same calls in
    the same order, after the fills of the page marks and of the
    200 x 200 background, and with the title, if there is one, written at
    (40, 180) between the icon and the badge. *)
Theorem NomieCard_is_inert (env : Env) (c : NomieCard.t) (event : Event) :
  NomieCard.touch event env c = (Ok true, c, [])
  /\ (forall all, result_of (NomieCard.draw all env c) = Ok tt
                  /\ self_of (NomieCard.draw all env c) = c)
  /\ draws_of (NomieCard.draw false env c)
     = [set_color 0xffff (Some 0xffff)]
       ++ match NomieCard.icon c with
          | Some i => [blit i 80 80 None None None]
          | None => []
          end
       ++ [fill 0x0f00 30 30 40 40; set_color 0x0000 (Some 0xf00);
           draw_string (NomieCard.state c) 30 40 (Some 40)]
  /\ draws_of (NomieCard.draw true env c)
     = (if NomieCard.is_first c then [] else [fill 0xffff 30 0 180 5])
       ++ (if NomieCard.is_last c then [] else [fill 0xffff 30 235 180 5])
       ++ [fill 0xffff 20 20 200 200]
       ++ [set_color 0xffff (Some 0xffff)]
       ++ match NomieCard.icon c with
          | Some i => [blit i 80 80 None None None]
          | None => []
          end
       ++ (if (NomieCard.title c =? "")%string then []
           else [set_color 0x0000 (Some 0xffff); set_font sans24;
                 draw_string (NomieCard.title c) 40 180 (Some 160)])
       ++ [fill 0x0f00 30 30 40 40; set_color 0x0000 (Some 0xf00);
           draw_string (NomieCard.state c) 30 40 (Some 40)].
Proof.
  split; [reflexivity|].
  split; [|split].
  - intros all. unfold NomieCard.draw. run.
    destruct all; cbn [andb negb];
      destruct (NomieCard.is_first c); destruct (NomieCard.is_last c);
      destruct (NomieCard.icon c); destruct (NomieCard.title c =? "")%string;
      split; reflexivity.
  - unfold NomieCard.draw. run. cbn [andb negb].
    destruct (NomieCard.icon c); reflexivity.
  - unfold NomieCard.draw. run. cbn [andb negb].
    destruct (NomieCard.is_first c); destruct (NomieCard.is_last c);
      destruct (NomieCard.icon c); destruct (NomieCard.title c =? "")%string;
      reflexivity.
Qed.

(** ** ClockApp *)

Ltac run_app :=
  cbv beta iota zeta delta
    [app_bind app_ret app_get app_put app_fail widget watch outcome_of
     bind ret ask call drawable pass get_self put_self raise on_child
     rtc_get_localtime system_theme draw_lighten
     result_of self_of calls_of draws_of fst snd].

Lemma DIGITS_in_range (i : Z) :
  0 <= i < 10 -> DIGITS i = Some (digits_clock i).
Proof.
  intros H. unfold DIGITS.
  replace ((0 <=? i) && (i <? 10)) with true; [reflexivity|].
  symmetry. rewrite andb_true_iff, Z.leb_le, Z.ltb_lt. exact H.
Qed.

Lemma draw_face_eq (env : Env) (hi : Z) (now : TimeTuple) (s : ClockApp.t) :
  valid_time now ->
  ClockApp.draw_face hi now env s
  = (Done tt, ClockApp.set_min (MM now) s, map Drawable (face_calls hi now)).
Proof.
  intros [Hh Hm].
  assert (D1 : DIGITS (MM now mod 10) = Some (digits_clock (MM now mod 10)))
    by (apply DIGITS_in_range; apply Z.mod_pos_bound; lia).
  assert (D2 : DIGITS (MM now / 10) = Some (digits_clock (MM now / 10))).
  { apply DIGITS_in_range. split; [apply Z.div_pos; lia|].
    apply Z.div_lt_upper_bound; lia. }
  assert (D3 : DIGITS (HH now mod 10) = Some (digits_clock (HH now mod 10)))
    by (apply DIGITS_in_range; apply Z.mod_pos_bound; lia).
  assert (D4 : DIGITS (HH now / 10) = Some (digits_clock (HH now / 10))).
  { apply DIGITS_in_range. split; [apply Z.div_pos; lia|].
    apply Z.div_lt_upper_bound; lia. }
  unfold ClockApp.draw_face, ClockApp.index_DIGITS.
  rewrite D1, D2, D3, D4. reflexivity.
Qed.

Lemma StatusBar_draw_clock (env : Env) (b : StatusBar.t) :
  Clock.on_screen (StatusBar._clock (self_of (StatusBar.draw env b)))
  = Some (localtime env)
  /\ result_of (StatusBar.draw env b) = Ok tt.
Proof.
  rewrite StatusBar_draw_eq. cbn [self_of result_of fst snd StatusBar._clock].
  rewrite Clock_draw_run. split; reflexivity.
Qed.

Lemma StatusBar_update_unchanged (env : Env) (b : StatusBar.t) :
  Clock.on_screen (StatusBar._clock b) = Some (localtime env) ->
  StatusBar.update env b = (Ok None, b, [Rtc_get_localtime]).
Proof.
  intros H. rewrite StatusBar_update_eq, (Clock_update_unchanged env _ H).
  destruct b as [c m n]. reflexivity.
Qed.

Lemma StatusBar_update_result (env : Env) (b : StatusBar.t) :
  result_of (StatusBar.update env b) = Ok None
  \/ result_of (StatusBar.update env b) = Ok (Some (localtime env)).
Proof.
  rewrite StatusBar_update_eq.
  destruct (on_screen_dec (StatusBar._clock b) (localtime env)) as [E|E].
  - rewrite (Clock_update_unchanged env _ E). left. reflexivity.
  - rewrite (Clock_update_changed env _ E). right. reflexivity.
Qed.

Lemma BatteryMeter_update_no_glyph (env : Env) (m : BatteryMeter.t) :
  existsb is_glyph (draws_of (BatteryMeter.update env m)) = false.
Proof.
  destruct (charging env) eqn:Hc.
  - rewrite (BatteryMeter_update_charging env m Hc).
    destruct (_ =? -1); reflexivity.
  - destruct (Z.eq_dec (battery_level env) (BatteryMeter.level m)) as [E|E].
    + rewrite (BatteryMeter_update_same_level env m Hc E). reflexivity.
    + rewrite (BatteryMeter_update_new_level_draws env m Hc E).
      unfold icon_repaint, bar_repaint.
      remember (battery_level env * 22 / 100) as h eqn:Eh.
      destruct ((BatteryMeter.level m <? 0)
                || xorb (battery_level env >? 5) (BatteryMeter.level m >? 5));
        destruct (18 - h =? 0); destruct (h =? 0); reflexivity.
Qed.

Lemma NotificationBar_update_no_glyph (env : Env) (n : NotificationBar.t) :
  existsb is_glyph (draws_of (NotificationBar.update env n)) = false.
Proof.
  rewrite NotificationBar_update_eq.
  unfold draws_of, calls_of. cbn [snd drawing_calls drawing_call].
  rewrite drawing_calls_map.
  destruct (NotificationBar._pos n) as [x y].
  destruct (connected env); destruct (notifications env); reflexivity.
Qed.

Lemma Clock_update_no_glyph (env : Env) (c : Clock.t) :
  existsb is_glyph (draws_of (Clock.update env c)) = false.
Proof.
  destruct (on_screen_dec c (localtime env)) as [E|E].
  - rewrite (Clock_update_unchanged env c E). reflexivity.
  - rewrite (Clock_update_changed env c E).
    unfold draws_of, calls_of. cbn [snd drawing_calls drawing_call].
    rewrite drawing_calls_map. destruct (_ && _); reflexivity.
Qed.

Lemma StatusBar_update_no_glyph (env : Env) (b : StatusBar.t) :
  existsb is_glyph (draws_of (StatusBar.update env b)) = false.
Proof.
  rewrite StatusBar_update_eq.
  pose proof (Clock_update_no_glyph env (StatusBar._clock b)) as Hc.
  pose proof (BatteryMeter_update_no_glyph env (StatusBar._meter b)) as Hm.
  pose proof (NotificationBar_update_no_glyph env (StatusBar._notif b)) as Hn.
  unfold draws_of in Hm, Hn.
  destruct (Clock.update env (StatusBar._clock b)) as [[[[now|]|e] c] l];
    change (existsb is_glyph (drawing_calls l) = false) in Hc;
    unfold draws_of at 1; unfold calls_of at 1; cbn [snd];
    rewrite ?app_nil_r; try exact Hc.
  rewrite !drawing_calls_app, !existsb_app, Hc, Hm, Hn. reflexivity.
Qed.

Lemma StatusBar_draw_no_glyph (env : Env) (b : StatusBar.t) :
  filter is_glyph (draws_of (StatusBar.draw env b)) = [].
Proof.
  assert (F : forall l, existsb is_glyph l = false -> filter is_glyph l = []).
  { induction l as [|d l IH]; [reflexivity|]. cbn. intros H.
    apply orb_false_iff in H. destruct H as [H1 H2].
    rewrite H1. apply IH. exact H2. }
  assert (H1 : filter is_glyph
                 (drawing_calls (calls_of (Clock.draw env (StatusBar._clock b))))
               = [])
    by (rewrite (proj2 (Clock_draw_eq env _)); apply F;
        apply Clock_update_no_glyph).
  assert (H2 : filter is_glyph
                 (drawing_calls
                    (calls_of (BatteryMeter.draw env (StatusBar._meter b))))
               = [])
    by (rewrite BatteryMeter_draw_eq; apply F;
        apply BatteryMeter_update_no_glyph).
  assert (H3 : filter is_glyph
                 (drawing_calls
                    (calls_of (NotificationBar.draw env (StatusBar._notif b))))
               = [])
    by (apply F; apply NotificationBar_update_no_glyph).
  rewrite StatusBar_draw_eq. unfold draws_of at 1. unfold calls_of at 1.
  cbn [snd].
  rewrite !drawing_calls_app, !filter_app, H1, H2, H3. reflexivity.
Qed.

Lemma filter_none {A} (P : A -> bool) (l : list A) :
  existsb P l = false -> filter P l = [].
Proof.
  induction l as [|d l IH]; [reflexivity|]. cbn. intros H.
  apply orb_false_iff in H. destruct H as [H1 H2].
  rewrite H1. apply IH. exact H2.
Qed.

Lemma ClockApp_draw_redraw_eq (env : Env) (s : ClockApp.t) :
  valid_time (localtime env) ->
  ClockApp._draw true env s
  = (Done tt,
     ClockApp.mk (Assigned (MM (localtime env)))
       (self_of (StatusBar.draw env (ClockApp.bar s))),
     Drawable (lighten_call (theme env "mid") 1)
     :: Rtc_get_localtime
     :: Drawable fill_screen
     :: Drawable (blit digits_clock_colon 115 80 (Some (theme env "bright"))
                    None None)
     :: calls_of (StatusBar.draw env (ClockApp.bar s))
     ++ map Drawable (face_calls (theme env "bright") (localtime env))).
Proof.
  intros Hv.
  pose proof (proj2 (StatusBar_draw_clock env (ClockApp.bar s))) as Hok.
  unfold ClockApp._draw. run_app.
  destruct (StatusBar.draw env (ClockApp.bar s)) as [[[[]|e] b'] l];
    [|discriminate Hok].
  cbv beta iota zeta. rewrite (draw_face_eq env _ _ _ Hv).
  cbn [app ClockApp.set_min ClockApp.set_bar ClockApp.bar ClockApp._min].
  reflexivity.
Qed.

Lemma ClockApp_draw_lazy_eq (env : Env) (s : ClockApp.t) (m : Z) :
  ClockApp._min s = Assigned m ->
  ClockApp._draw false env s
  = match result_of (StatusBar.update env (ClockApp.bar s)) with
    | Ok (Some now) =>
        if m =? MM now
        then (Done tt,
              ClockApp.set_bar (self_of (StatusBar.update env (ClockApp.bar s))) s,
              Drawable (lighten_call (theme env "mid") 1)
              :: calls_of (StatusBar.update env (ClockApp.bar s)))
        else
          match ClockApp.draw_face (theme env "bright") now env
                  (ClockApp.set_bar
                     (self_of (StatusBar.update env (ClockApp.bar s))) s) with
          | (r, s', l) =>
              (r, s',
               Drawable (lighten_call (theme env "mid") 1)
               :: calls_of (StatusBar.update env (ClockApp.bar s)) ++ l)
          end
    | Ok None =>
        (Done tt,
         ClockApp.set_bar (self_of (StatusBar.update env (ClockApp.bar s))) s,
         Drawable (lighten_call (theme env "mid") 1)
         :: calls_of (StatusBar.update env (ClockApp.bar s)))
    | Raise e =>
        (Failed (WidgetError e),
         ClockApp.set_bar (self_of (StatusBar.update env (ClockApp.bar s))) s,
         Drawable (lighten_call (theme env "mid") 1)
         :: calls_of (StatusBar.update env (ClockApp.bar s)))
    end.
Proof.
  intros Hm. unfold ClockApp._draw, ClockApp.get_min. run_app.
  destruct (StatusBar.update env (ClockApp.bar s)) as [[[[now|]|e] b'] l];
    cbv beta iota zeta;
    cbn [ClockApp.set_bar ClockApp._min ClockApp.bar];
    rewrite ?Hm; cbv beta iota zeta; rewrite ?app_nil_r; try reflexivity.
  destruct (m =? MM now); [rewrite ?app_nil_r; reflexivity|].
  destruct (ClockApp.draw_face _ _ _ _) as [[r s'] l']. reflexivity.
Qed.

(** X28: for a time of day, the full redraw of the clock application
    never fails: it clears the screen, paints the colon and, after the
    status bar, the four digits of HH:MM and the date, and records the
    minute shown.  A tick right after it, against the same watch, only
    reads the clock: nothing is painted and nothing changes. *)
Theorem ClockApp_redraw_then_tick (env : Env) (s : ClockApp.t) (ticks : Z) :
  valid_time (localtime env) ->
  let now := localtime env in
  let hi := theme env "bright" in
  let r := ClockApp._draw true env s in
  outcome_of r = Done tt
  /\ ClockApp._min (app_self_of r) = Assigned (MM now)
  /\ filter is_glyph (app_draws_of r)
     = blit digits_clock_colon 115 80 (Some hi) None None :: face_digits hi now
  /\ In (draw_string (date_text now) 0 180 (Some 240)) (app_draws_of r)
  /\ ClockApp.tick ticks env (app_self_of r)
     = (Done tt, app_self_of r,
        [Drawable (lighten_call (theme env "mid") 1); Rtc_get_localtime]).
Proof.
  intros Hv now hi r. subst r.
  rewrite (ClockApp_draw_redraw_eq env s Hv).
  unfold outcome_of, app_self_of, app_draws_of. cbn [fst snd ClockApp._min].
  split; [reflexivity|]. split; [reflexivity|].
  split; [|split].
  - cbn [drawing_calls drawing_call filter is_glyph digits_clock_colon].
    rewrite drawing_calls_app, filter_app, drawing_calls_map.
    fold (draws_of (StatusBar.draw env (ClockApp.bar s))).
    rewrite StatusBar_draw_no_glyph. reflexivity.
  - cbn [drawing_calls drawing_call].
    rewrite drawing_calls_app, drawing_calls_map.
    right. right. right. apply in_or_app. right. unfold face_calls.
    apply in_or_app. right. right. left. reflexivity.
  - unfold ClockApp.tick.
    rewrite (ClockApp_draw_lazy_eq env
               (ClockApp.mk (Assigned (MM (localtime env)))
                  (self_of (StatusBar.draw env (ClockApp.bar s))))
               (MM (localtime env)) eq_refl).
    cbn [ClockApp.bar].
    rewrite (StatusBar_update_unchanged env _
               (proj1 (StatusBar_draw_clock env (ClockApp.bar s)))).
    reflexivity.
Qed.

Lemma ClockApp_redraw_then_tick_witness :
  let env := sample_env 50 in
  let s := ClockApp.mk Unset StatusBar.__init__ in
  filter is_glyph (app_draws_of (ClockApp._draw true env s))
  = [blit (AppIcon 10) 115 80 (Some 0xffff) None None;
     blit (AppIcon 1) 185 80 (Some 0xffff) None None;
     blit (AppIcon 4) 135 80 (Some 0xffff) None None;
     blit (AppIcon 9) 65 80 (Some 0xffff) None None;
     blit (AppIcon 0) 15 80 (Some 0xffff) None None].
Proof.
  apply (proj1 (proj2 (proj2 (ClockApp_redraw_then_tick (sample_env 50)
                                (ClockApp.mk Unset StatusBar.__init__) 0
                                ltac:(split; simpl; lia))))).
Defined.

(** X29: a tick in the minute already shown never fails and repaints no
    digit, even when the hour on the watch differs from the one on the
    face; it still lets the status bar update itself. *)
Theorem ClockApp_tick_same_minute (env : Env) (s : ClockApp.t) (ticks : Z) :
  ClockApp._min s = Assigned (MM (localtime env)) ->
  let r := ClockApp.tick ticks env s in
  outcome_of r = Done tt
  /\ ClockApp._min (app_self_of r) = ClockApp._min s
  /\ ClockApp.bar (app_self_of r)
     = self_of (StatusBar.update env (ClockApp.bar s))
  /\ existsb is_glyph (app_draws_of r) = false.
Proof.
  intros Hm r. subst r. unfold ClockApp.tick.
  rewrite (ClockApp_draw_lazy_eq env s _ Hm).
  pose proof (StatusBar_update_no_glyph env (ClockApp.bar s)) as Hg.
  unfold draws_of in Hg.
  destruct (StatusBar_update_result env (ClockApp.bar s)) as [E|E]; rewrite E.
  - unfold outcome_of, app_self_of, app_draws_of.
    cbn [fst snd ClockApp.set_bar ClockApp._min ClockApp.bar
         drawing_calls drawing_call existsb is_glyph orb].
    repeat split. exact Hg.
  - rewrite Z.eqb_refl.
    unfold outcome_of, app_self_of, app_draws_of.
    cbn [fst snd ClockApp.set_bar ClockApp._min ClockApp.bar
         drawing_calls drawing_call existsb is_glyph orb].
    repeat split. exact Hg.
Qed.

Lemma ClockApp_tick_same_minute_witness :
  let env := sample_env 50 in
  let s := ClockApp.mk (Assigned 41)
             (StatusBar.mk (Clock.mk (Some (mkTime 2020 10 5 8 41 7 0 279)) false)
                (BatteryMeter.mk 50) (NotificationBar.__init__ 0 0)) in
  existsb is_glyph (app_draws_of (ClockApp.tick 0 env s)) = false.
Proof.
  apply (ClockApp_tick_same_minute (sample_env 50)
           (ClockApp.mk (Assigned 41)
              (StatusBar.mk
                 (Clock.mk (Some (mkTime 2020 10 5 8 41 7 0 279)) false)
                 (BatteryMeter.mk 50) (NotificationBar.__init__ 0 0))) 0).
  reflexivity.
Defined.

(** X30: a tick at a time of day whose minute differs from the one shown,
    once the status bar reports the change, never fails: it repaints
    exactly the four digits (minute ones and tens, hour ones and tens),
    writes the date and records the new minute. *)
Theorem ClockApp_tick_new_minute (env : Env) (s : ClockApp.t) (m ticks : Z) :
  ClockApp._min s = Assigned m ->
  m <> MM (localtime env) ->
  Clock.on_screen (StatusBar._clock (ClockApp.bar s)) <> Some (localtime env) ->
  valid_time (localtime env) ->
  let now := localtime env in
  let r := ClockApp.tick ticks env s in
  outcome_of r = Done tt
  /\ ClockApp._min (app_self_of r) = Assigned (MM now)
  /\ filter is_glyph (app_draws_of r) = face_digits (theme env "bright") now
  /\ In (draw_string (date_text now) 0 180 (Some 240)) (app_draws_of r).
Proof.
  intros Hm Hne Hc Hv now r. subst r now. unfold ClockApp.tick.
  rewrite (ClockApp_draw_lazy_eq env s m Hm).
  pose proof (StatusBar_update_no_glyph env (ClockApp.bar s)) as Hg.
  unfold draws_of in Hg.
  assert (E : result_of (StatusBar.update env (ClockApp.bar s))
              = Ok (Some (localtime env))).
  { rewrite StatusBar_update_eq, (Clock_update_changed env _ Hc). reflexivity. }
  rewrite E. apply Z.eqb_neq in Hne. rewrite Hne.
  rewrite (draw_face_eq env _ _ _ Hv).
  unfold outcome_of, app_self_of, app_draws_of.
  cbn [fst snd ClockApp.set_min ClockApp._min drawing_calls drawing_call].
  rewrite drawing_calls_app, drawing_calls_map.
  split; [reflexivity|]. split; [reflexivity|]. split.
  - cbn [filter is_glyph]. rewrite filter_app, (filter_none _ _ Hg).
    reflexivity.
  - right. apply in_or_app. right. unfold face_calls. apply in_or_app. right.
    right. left. reflexivity.
Qed.

Lemma ClockApp_tick_new_minute_witness :
  let env := sample_env 50 in
  let s := ClockApp.mk (Assigned 40) StatusBar.__init__ in
  filter is_glyph (app_draws_of (ClockApp.tick 0 env s))
  = face_digits (theme env "bright") (localtime env).
Proof.
  apply (proj1 (proj2 (proj2 (ClockApp_tick_new_minute (sample_env 50)
                                (ClockApp.mk (Assigned 40) StatusBar.__init__)
                                40 0 eq_refl
                                ltac:(simpl; discriminate)
                                ltac:(simpl; discriminate)
                                ltac:(split; simpl; lia))))).
Defined.

Example date_text_5_OCT_2020 :
  date_text (localtime (sample_env 50)) = "5 OCT 2020"%string.
Proof. reflexivity. Qed.
